(** * Outfit curation engine: rule engine and outfit generator

    A shallow embedding of [models/schemas.py], [services/rule_engine.py],
    [services/outfit_generator.py] and the pipeline of [app.py].

    - Python [float] is IEEE binary64: it is embedded as Rocq's primitive
      [float], so every literal ([0.7], [0.3], ...) and every operation rounds
      exactly as in the program.
    - Python [str] is [string]; [Optional[T]] is [option T]; [int] is [Z].
    - A [str, Enum] class [C] is a module [C] with an inductive type [C.t],
      so that members read [C.MEMBER] as in the source; [C.value] is the
      member's string value.
    - The [random] module is driven by an explicit sequence of raw draws
      (type [rng]); the generator threads it through a small state and
      exception monad. *)

From Stdlib Require Import Floats ZArith List String Ascii Bool Lia Arith.
From Stdlib Require Import QArith Qabs DecimalString ListSet Sorted Permutation FinFun.
From Stdlib Require Uint63.
From Stdlib Require DecimalNat.
Import ListNotations.

Set Warnings "-inexact-float".
Local Open Scope string_scope.
Local Open Scope list_scope.

(* ================================================================== *)
(** * models/schemas.py *)
(* ================================================================== *)

Module BodyType.
Inductive t := TRIANGLE | RECTANGLE | HOURGLASS | INVERTED_TRIANGLE | OVAL.
Definition value (b : t) : string :=
  match b with
  | TRIANGLE => "triangle" | RECTANGLE => "rectangle"
  | HOURGLASS => "hourglass" | INVERTED_TRIANGLE => "inverted_triangle"
  | OVAL => "oval"
  end.
Definition eqb (a b : t) : bool :=
  match a, b with
  | TRIANGLE, TRIANGLE | RECTANGLE, RECTANGLE | HOURGLASS, HOURGLASS
  | INVERTED_TRIANGLE, INVERTED_TRIANGLE | OVAL, OVAL => true
  | _, _ => false
  end.
End BodyType.

Module SkinTone.
Inductive t := FAIR | LIGHT | MEDIUM | OLIVE | TAN | BROWN | DARK.
End SkinTone.

Module OccasionType.
Inductive t := CASUAL | BUSINESS | FORMAL | PARTY | GLAMOROUS.
Definition eqb (a b : t) : bool :=
  match a, b with
  | CASUAL, CASUAL | BUSINESS, BUSINESS | FORMAL, FORMAL
  | PARTY, PARTY | GLAMOROUS, GLAMOROUS => true
  | _, _ => false
  end.
End OccasionType.

Module WeatherCondition.
Inductive t := HOT | WARM | COOL | COLD | RAINY.
Definition eqb (a b : t) : bool :=
  match a, b with
  | HOT, HOT | WARM, WARM | COOL, COOL | COLD, COLD | RAINY, RAINY => true
  | _, _ => false
  end.
End WeatherCondition.

Module ItemCategory.
Inductive t := TOP | BOTTOM | DRESS | OUTERWEAR | SHOES | ACCESSORY.
Definition value (c : t) : string :=
  match c with
  | TOP => "top" | BOTTOM => "bottom" | DRESS => "dress"
  | OUTERWEAR => "outerwear" | SHOES => "shoes" | ACCESSORY => "accessory"
  end.
Definition eqb (a b : t) : bool :=
  match a, b with
  | TOP, TOP | BOTTOM, BOTTOM | DRESS, DRESS
  | OUTERWEAR, OUTERWEAR | SHOES, SHOES | ACCESSORY, ACCESSORY => true
  | _, _ => false
  end.
End ItemCategory.

Module FitType.
Inductive t :=
  SLIM | REGULAR | WIDE_LEG | FITTED | STRUCTURED | RELAXED
| OVERSIZED | SKINNY | STRAIGHT | BOOT_CUT | A_LINE.
Definition eqb (a b : t) : bool :=
  match a, b with
  | SLIM, SLIM | REGULAR, REGULAR | WIDE_LEG, WIDE_LEG | FITTED, FITTED
  | STRUCTURED, STRUCTURED | RELAXED, RELAXED | OVERSIZED, OVERSIZED
  | SKINNY, SKINNY | STRAIGHT, STRAIGHT | BOOT_CUT, BOOT_CUT
  | A_LINE, A_LINE => true
  | _, _ => false
  end.
End FitType.

Module Color.
Inductive t :=
  BLACK | WHITE | RED | BLUE | GREEN | YELLOW | PURPLE | PINK | ORANGE
| BROWN | GRAY | NAVY | BEIGE | CREAM | PATTERNED.
Definition value (c : t) : string :=
  match c with
  | BLACK => "black" | WHITE => "white" | RED => "red" | BLUE => "blue"
  | GREEN => "green" | YELLOW => "yellow" | PURPLE => "purple"
  | PINK => "pink" | ORANGE => "orange" | BROWN => "brown" | GRAY => "gray"
  | NAVY => "navy" | BEIGE => "beige" | CREAM => "cream"
  | PATTERNED => "patterned"
  end.
Definition eqb (a b : t) : bool :=
  match a, b with
  | BLACK, BLACK | WHITE, WHITE | RED, RED | BLUE, BLUE | GREEN, GREEN
  | YELLOW, YELLOW | PURPLE, PURPLE | PINK, PINK | ORANGE, ORANGE
  | BROWN, BROWN | GRAY, GRAY | NAVY, NAVY | BEIGE, BEIGE | CREAM, CREAM
  | PATTERNED, PATTERNED => true
  | _, _ => false
  end.
End Color.

Record UserInfo := {
  user_id : string;
  body_type : BodyType.t;
  skin_tone : SkinTone.t;
  height_cm : float;
  weight_kg : option float;
  shoulder_cm : option float;
  bust_cm : option float;
  waist_cm : option float;
  hip_cm : option float;
  preferences : option (list (string * list string))
}.

Record OccasionInfo := {
  occasion_type : OccasionType.t;
  weather : WeatherCondition.t;
  time_of_day : string;
  location : option string;
  formality_level : Z
}.

Record ClothingItem := {
  item_id : string;
  category : ItemCategory.t;
  subcategory : string;
  color : Color.t;
  pattern : option string;
  fabric : string;
  weight : string;
  fit : FitType.t;
  brand : option string;
  size : string;
  attributes : list (string * (string + list string));
  image_url : option string;
  created_at : Z
}.

(** [Outfit.occasion_type] is [outfit_occasion_type] here (a record field
    name is global in Rocq); the wall-clock field [created_at] of an outfit
    is not modelled. *)
Record Outfit := {
  outfit_id : string;
  items : list ClothingItem;
  outfit_occasion_type : OccasionType.t;
  compatibility_score : float;
  style_notes : list string
}.

Record OutfitRequest := {
  user_info : UserInfo;
  occasion_info : OccasionInfo;
  inventory : list ClothingItem;
  max_outfits : Z
}.

(* ================================================================== *)
(** * Python built-ins used by the services *)
(* ================================================================== *)

(** [x in xs] for a list [xs]. *)
Definition py_in {A : Type} (eqb : A -> A -> bool) (x : A) (xs : list A) : bool :=
  existsb (eqb x) xs.

(** A [dict] with string keys, in insertion order, and [d.get(key, default)]. *)
Definition dict (V : Type) : Type := list (string * V).

Fixpoint dict_get {V : Type} (d : dict V) (key : string) (default : V) : V :=
  match d with
  | [] => default
  | (k, v) :: d' => if String.eqb k key then v else dict_get d' key default
  end.

(** Two-argument [min(a, b)] and [max(a, b)]: the first argument is kept
    unless the second is strictly smaller (resp. larger). *)
Definition py_min (a b : float) : float := if (b <? a)%float then b else a.
Definition py_max (a b : float) : float := if (a <? b)%float then b else a.

(** Truth value of an [Optional[str]]: [None] and the empty string are false. *)
Definition truthy_str (s : option string) : bool :=
  match s with
  | None => false
  | Some s' => negb (String.eqb s' "")
  end.

(** How an f-string renders an [Optional[str]]. *)
Definition format_opt (s : option string) : string :=
  match s with
  | None => "None"
  | Some s' => s'
  end.

(* ================================================================== *)
(** * services/rule_engine.py *)
(* ================================================================== *)

(** The value stored for a body type: a dict with the keys ["top_fit"],
    ["bottom_fit"], ["dress_fit"], ["recommended_colors"], ["avoid_fits"] and
    ["fabric_weight"]; a field is [None] when the key is absent, which is what
    the tests [key in rules] of the source ask. *)
Record BodyRules := {
  top_fit : option (list FitType.t);
  bottom_fit : option (list FitType.t);
  dress_fit : option (list FitType.t);
  recommended_colors : option (dict (list Color.t));
  avoid_fits : option (dict (list FitType.t));
  fabric_weight : option (dict (list string))
}.

(** The empty dict [{}]. *)
Definition no_body_rules : BodyRules :=
  {| top_fit := None; bottom_fit := None; dress_fit := None;
     recommended_colors := None; avoid_fits := None; fabric_weight := None |}.

Record OccasionRules := {
  allowed_fits : option (list FitType.t);
  fabric_weights : option (list string);
  color_intensity : option string;
  pattern_intensity : option string
}.

Definition no_occasion_rules : OccasionRules :=
  {| allowed_fits := None; fabric_weights := None;
     color_intensity := None; pattern_intensity := None |}.

Module RuleEngine.
Import ItemCategory FitType.

Definition _load_body_type_rules (b : BodyType.t) : option BodyRules :=
  match b with
  | BodyType.TRIANGLE => Some
      {| top_fit := Some [FITTED; STRUCTURED];
         bottom_fit := Some [STRAIGHT; BOOT_CUT];
         dress_fit := Some [A_LINE];
         recommended_colors := Some
           [("top", [Color.PATTERNED; Color.RED; Color.BLUE; Color.GREEN]);
            ("bottom", [Color.BLACK; Color.NAVY; Color.GRAY; Color.BROWN])];
         avoid_fits := Some
           [("top", [OVERSIZED; RELAXED]); ("bottom", [SKINNY])];
         fabric_weight := Some
           [("top", ["light"; "medium"]); ("bottom", ["medium"])] |}
  | BodyType.INVERTED_TRIANGLE => Some
      {| top_fit := Some [RELAXED];
         bottom_fit := Some [A_LINE; WIDE_LEG];
         dress_fit := Some [A_LINE];
         recommended_colors := Some
           [("top", [Color.BLACK; Color.NAVY; Color.GRAY]);
            ("bottom", [Color.PATTERNED; Color.RED; Color.BLUE])];
         avoid_fits := Some
           [("top", [STRUCTURED]); ("bottom", [SKINNY; STRAIGHT])];
         fabric_weight := Some
           [("top", ["light"]); ("bottom", ["medium"; "heavy"])] |}
  | BodyType.RECTANGLE => Some
      {| top_fit := Some [FITTED; STRUCTURED];
         bottom_fit := Some [A_LINE; BOOT_CUT];
         dress_fit := Some [A_LINE];
         recommended_colors := Some
           [("top", [Color.PATTERNED; Color.RED; Color.BLUE]);
            ("bottom", [Color.PATTERNED; Color.GREEN; Color.PURPLE])];
         avoid_fits := Some
           [("top", [OVERSIZED]); ("bottom", [SKINNY])];
         fabric_weight := Some
           [("top", ["light"; "medium"]); ("bottom", ["medium"])] |}
  | BodyType.HOURGLASS | BodyType.OVAL => None
  end.

Definition _load_occasion_rules (o : OccasionType.t) : option OccasionRules :=
  match o with
  | OccasionType.CASUAL => Some
      {| allowed_fits := Some [RELAXED; STRAIGHT];
         fabric_weights := Some ["light"; "medium"];
         color_intensity := Some "medium";
         pattern_intensity := Some "medium" |}
  | OccasionType.BUSINESS => Some
      {| allowed_fits := Some [STRUCTURED; FITTED];
         fabric_weights := Some ["medium"];
         color_intensity := Some "low";
         pattern_intensity := Some "low" |}
  | OccasionType.PARTY => Some
      {| allowed_fits := Some [FITTED; STRUCTURED];
         fabric_weights := Some ["light"; "medium"];
         color_intensity := Some "high";
         pattern_intensity := Some "high" |}
  | OccasionType.FORMAL | OccasionType.GLAMOROUS => None
  end.

(** [self.body_type_rules.get(body_type, {})] *)
Definition body_type_rules_get (b : BodyType.t) : BodyRules :=
  match _load_body_type_rules b with
  | Some rules => rules
  | None => no_body_rules
  end.

(** [self.occasion_rules.get(occasion.occasion_type, {})] *)
Definition occasion_rules_get (o : OccasionType.t) : OccasionRules :=
  match _load_occasion_rules o with
  | Some rules => rules
  | None => no_occasion_rules
  end.

(** Each [if ...: return False] of the source is one [if ... then false]. *)
Definition _is_item_compatible (item : ClothingItem) (rules : BodyRules) : bool :=
  (* Check fit compatibility *)
  if py_in ItemCategory.eqb (category item) [TOP; DRESS; OUTERWEAR]
     && match avoid_fits rules with
        | Some d => py_in FitType.eqb (fit item) (dict_get d "top" [])
        | None => false
        end
  then false
  else if py_in ItemCategory.eqb (category item) [TOP; DRESS; OUTERWEAR]
     && match top_fit rules with
        | Some l => negb (py_in FitType.eqb (fit item) l)
        | None => false
        end
  then false
  else if ItemCategory.eqb (category item) BOTTOM
     && match avoid_fits rules with
        | Some d => py_in FitType.eqb (fit item) (dict_get d "bottom" [])
        | None => false
        end
  then false
  else if ItemCategory.eqb (category item) BOTTOM
     && match bottom_fit rules with
        | Some l => negb (py_in FitType.eqb (fit item) l)
        | None => false
        end
  then false
  (* Check color compatibility *)
  else if match recommended_colors rules with
          | Some d =>
              if py_in ItemCategory.eqb (category item) [TOP; DRESS; OUTERWEAR]
              then negb (py_in Color.eqb (color item) (dict_get d "top" []))
              else if ItemCategory.eqb (category item) BOTTOM
              then negb (py_in Color.eqb (color item) (dict_get d "bottom" []))
              else false
          | None => false
          end
  then false
  (* Check fabric weight *)
  else if match fabric_weight rules with
          | Some d =>
              if py_in ItemCategory.eqb (category item) [TOP; DRESS]
              then negb (py_in String.eqb (weight item) (dict_get d "top" []))
              else if ItemCategory.eqb (category item) BOTTOM
              then negb (py_in String.eqb (weight item) (dict_get d "bottom" []))
              else false
          | None => false
          end
  then false
  else true.

(** The loop [for item in items: if ...: filtered_items.append(item)]. *)
Definition filter_by_body_type (items : list ClothingItem) (body_type : BodyType.t)
  : list ClothingItem :=
  let rules := body_type_rules_get body_type in
  fold_left
    (fun filtered_items item =>
       if _is_item_compatible item rules
       then filtered_items ++ [item] else filtered_items)
    items [].

Definition _is_item_occasion_compatible
  (item : ClothingItem) (rules : OccasionRules) (occasion : OccasionInfo) : bool :=
  (* Check fit *)
  if match allowed_fits rules with
     | Some l => negb (py_in FitType.eqb (fit item) l)
     | None => false
     end
  then false
  (* Check fabric weight based on weather *)
  else if WeatherCondition.eqb (weather occasion) WeatherCondition.HOT
          && String.eqb (weight item) "heavy"
  then false
  else if WeatherCondition.eqb (weather occasion) WeatherCondition.COLD
          && String.eqb (weight item) "light"
  then false
  (* Check formality level *)
  else if OccasionType.eqb (occasion_type occasion) OccasionType.BUSINESS
          && ItemCategory.eqb (category item) TOP
          && negb (py_in String.eqb (subcategory item)
                     ["shirt"; "blouse"; "button-down"])
  then false
  else true.

Definition filter_by_occasion (items : list ClothingItem) (occasion : OccasionInfo)
  : list ClothingItem :=
  let rules := occasion_rules_get (occasion_type occasion) in
  fold_left
    (fun filtered_items item =>
       if _is_item_occasion_compatible item rules occasion
       then filtered_items ++ [item] else filtered_items)
    items [].

Definition _estimate_volume (item : ClothingItem) (user_info : UserInfo) : float :=
  let volume := 0.5%float in
  (* Adjust based on fit *)
  let volume :=
    if py_in FitType.eqb (fit item) [OVERSIZED; RELAXED] then (volume + 0.3)%float
    else if py_in FitType.eqb (fit item) [FITTED; SKINNY] then (volume - 0.3)%float
    else volume in
  (* Adjust based on fabric weight *)
  let volume :=
    if String.eqb (weight item) "heavy" then (volume + 0.2)%float
    else if String.eqb (weight item) "light" then (volume - 0.2)%float
    else volume in
  py_max 0.1 (py_min 0.9 volume).

(** One iteration of the loop that fills the set [elements]; the set of
    strings is a duplicate-free list and [elements.add] is [set_add]. An
    f-string renders a member of a [str, Enum] class by its value (by its
    qualified name from Python 3.11 on: the rendering is injective either
    way, and only the number of elements is used). *)
Definition add_elements (elements : set string) (item : ClothingItem) : set string :=
  let elements :=
    if truthy_str (pattern item)
    then set_add string_dec ("pattern_" ++ format_opt (pattern item))%string elements
    else elements in
  let elements :=
    if negb (Color.eqb (color item) Color.PATTERNED)
    then set_add string_dec ("color_" ++ Color.value (color item))%string elements
    else elements in
  set_add string_dec
    ("category_" ++ ItemCategory.value (category item))%string elements.

Definition score_outfit_proportions (outfit : list ClothingItem) (user_info : UserInfo)
  : float :=
  let score := 1.0%float in
  (* Rule of 3s - count distinct elements *)
  let elements := fold_left add_elements outfit (empty_set string) in
  let score :=
    if (List.length elements <? 3)%nat then (score * 0.7)%float else score in
  (* Top vs bottom balance *)
  let tops :=
    filter (fun item =>
              py_in ItemCategory.eqb (category item) [TOP; DRESS; OUTERWEAR])
           outfit in
  let bottoms :=
    filter (fun item => ItemCategory.eqb (category item) BOTTOM) outfit in
  match tops, bottoms with
  | top0 :: _, bottom0 :: _ =>
      let top_volume := _estimate_volume top0 user_info in
      let bottom_volume := _estimate_volume bottom0 user_info in
      if (0.7 <? top_volume)%float && (0.7 <? bottom_volume)%float
      then (score * 0.6)%float
      else if (0.3 <? abs (top_volume - bottom_volume))%float
      then (score * 1.2)%float
      else score
  | _, _ => score
  end.

End RuleEngine.

(* ================================================================== *)
(** * The [random] module and exceptions *)
(* ================================================================== *)

(** The raw draws of the generator, in the order they are consumed: any
    function [nat -> Z] is a possible run of the random source. *)
Definition rng : Type := nat -> Z.

Definition rng_tail (g : rng) : rng := fun n => g (S n).

Inductive exn := IndexError | ValueError.

(** Result of running Python code: a value, a raised exception, or a loop cut
    off by its fuel. *)
Inductive outcome (A : Type) : Type :=
| Ok (a : A)
| Raise (e : exn)
| OutOfFuel.
Arguments Ok {A} a.
Arguments Raise {A} e.
Arguments OutOfFuel {A}.

(** Code that reads the random source. *)
Definition Gen (A : Type) : Type := rng -> outcome (A * rng).

Definition ret {A : Type} (a : A) : Gen A := fun g => Ok (a, g).

Definition bind {A B : Type} (m : Gen A) (k : A -> Gen B) : Gen B :=
  fun g =>
    match m g with
    | Ok (a, g') => k a g'
    | Raise e => Raise e
    | OutOfFuel => OutOfFuel
    end.

Definition raise {A : Type} (e : exn) : Gen A := fun _ => Raise e.

Definition lift {A : Type} (o : outcome A) : Gen A :=
  fun g =>
    match o with
    | Ok a => Ok (a, g)
    | Raise e => Raise e
    | OutOfFuel => OutOfFuel
    end.

Declare Scope gen_scope.
Delimit Scope gen_scope with gen.
Notation "x <- m ;; k" := (bind m (fun x => k))
  (at level 61, m at next level, right associativity) : gen_scope.

Definition draw : Gen Z := fun g => Ok (g 0%nat, rng_tail g).

(** [m] returns, whatever the draws, a value that satisfies [P]. *)
Definition ensures {A : Type} (m : Gen A) (P : A -> Prop) : Prop :=
  forall g : rng, exists (a : A) (g' : rng), m g = Ok (a, g') /\ P a.

(** [random.random()]: 53 random bits scaled into [0, 1). *)
Definition random_random : Gen float :=
  (z <- draw ;;
   ret (PrimFloat.of_uint63 (Uint63.of_Z (z mod 2 ^ 53)) / 9007199254740992)%float)%gen.

(** An index below [n], for [n > 0]. *)
Definition randbelow (n : nat) : Gen nat :=
  (z <- draw ;; ret (Z.to_nat (z mod Z.of_nat n)))%gen.

(** [random.choice(seq)]: [IndexError] on the empty sequence. *)
Definition random_choice {A : Type} (seq : list A) : Gen A :=
  match seq with
  | [] => raise IndexError
  | x :: _ => (i <- randbelow (List.length seq) ;; ret (nth i seq x))%gen
  end.

(** [random.randint(a, b)]: an integer in [a..b], [ValueError] when empty. *)
Definition random_randint (a b : Z) : Gen Z :=
  if (b <? a)%Z then raise ValueError
  else (i <- randbelow (Z.to_nat (b - a + 1)) ;; ret (a + Z.of_nat i)%Z)%gen.

Fixpoint remove_nth {A : Type} (i : nat) (l : list A) : list A :=
  match l, i with
  | [], _ => []
  | _ :: l', O => l'
  | x :: l', S i' => x :: remove_nth i' l'
  end.

Fixpoint sample_from {A : Type} (pool : list A) (k : nat) : Gen (list A) :=
  match k with
  | O => ret []
  | S k' =>
      match pool with
      | [] => raise ValueError
      | x :: _ =>
          (j <- randbelow (List.length pool) ;;
           rest <- sample_from (remove_nth j pool) k' ;;
           ret (nth j pool x :: rest))%gen
      end
  end.

(** [random.sample(population, k)]: [k] elements at pairwise distinct
    positions, in selection order; [ValueError] when [k] is negative or
    larger than the population. *)
Definition random_sample {A : Type} (population : list A) (k : Z) : Gen (list A) :=
  if (k <? 0)%Z || (Z.of_nat (List.length population) <? k)%Z
  then raise ValueError
  else sample_from population (Z.to_nat k).

(** Truth value of a list. *)
Definition truthy {A : Type} (l : list A) : bool :=
  match l with
  | [] => false
  | _ :: _ => true
  end.

(** [set(xs)] as a duplicate-free list. *)
Definition py_set {A : Type} (dec : forall x y : A, {x = y} + {x <> y}) (xs : list A)
  : set A :=
  fold_left (fun s x => set_add dec x s) xs (empty_set A).

(** [max(xs)] and [min(xs)] of a list: [ValueError] on the empty list; the
    first extremum met is kept. *)
Definition py_max_list (xs : list float) : outcome float :=
  match xs with
  | [] => Raise ValueError
  | x :: xs' => Ok (fold_left (fun m y => if (m <? y)%float then y else m) xs' x)
  end.

Definition py_min_list (xs : list float) : outcome float :=
  match xs with
  | [] => Raise ValueError
  | x :: xs' => Ok (fold_left (fun m y => if (y <? m)%float then y else m) xs' x)
  end.

(** [str(n)] for a natural number. *)
Definition str_of_nat (n : nat) : string :=
  NilEmpty.string_of_uint (Nat.to_uint n).

(** [l[:k]]: a negative [k] counts from the end. *)
Definition py_slice_to {A : Type} (l : list A) (k : Z) : list A :=
  if (k <? 0)%Z
  then firstn (Z.to_nat (Z.max 0 (Z.of_nat (List.length l) + k))) l
  else firstn (Z.to_nat k) l.

Definition category_eq_dec : forall a b : ItemCategory.t, {a = b} + {a <> b}.
Proof. decide equality. Defined.

Definition color_eq_dec : forall a b : Color.t, {a = b} + {a <> b}.
Proof. decide equality. Defined.

(* ================================================================== *)
(** * services/outfit_generator.py *)
(* ================================================================== *)

(** The dict built by [_categorize_items], one field per key. *)
Record Buckets := {
  tops : list ClothingItem;
  bottoms : list ClothingItem;
  dresses : list ClothingItem;
  outerwear : list ClothingItem;
  shoes : list ClothingItem;
  accessories : list ClothingItem
}.

(** The dict built by [_item_to_dict]; the key [k] is the field [dict_k]. *)
Record ItemDict := {
  dict_color : string;
  dict_category : string;
  dict_pattern : string;
  dict_formality_level : float;
  dict_color_intensity : float;
  dict_pattern_intensity : float
}.

Module OutfitGenerator.
Import ItemCategory.

Definition max_generation_attempts : nat := 1000.

Definition _categorize_items (items : list ClothingItem) : Buckets :=
  fold_left
    (fun categorized item =>
       match category item with
       | TOP =>
           {| tops := tops categorized ++ [item]; bottoms := bottoms categorized;
              dresses := dresses categorized; outerwear := outerwear categorized;
              shoes := shoes categorized; accessories := accessories categorized |}
       | BOTTOM =>
           {| tops := tops categorized; bottoms := bottoms categorized ++ [item];
              dresses := dresses categorized; outerwear := outerwear categorized;
              shoes := shoes categorized; accessories := accessories categorized |}
       | DRESS =>
           {| tops := tops categorized; bottoms := bottoms categorized;
              dresses := dresses categorized ++ [item];
              outerwear := outerwear categorized;
              shoes := shoes categorized; accessories := accessories categorized |}
       | OUTERWEAR =>
           {| tops := tops categorized; bottoms := bottoms categorized;
              dresses := dresses categorized;
              outerwear := outerwear categorized ++ [item];
              shoes := shoes categorized; accessories := accessories categorized |}
       | SHOES =>
           {| tops := tops categorized; bottoms := bottoms categorized;
              dresses := dresses categorized; outerwear := outerwear categorized;
              shoes := shoes categorized ++ [item];
              accessories := accessories categorized |}
       | ACCESSORY =>
           {| tops := tops categorized; bottoms := bottoms categorized;
              dresses := dresses categorized; outerwear := outerwear categorized;
              shoes := shoes categorized;
              accessories := accessories categorized ++ [item] |}
       end)
    items
    {| tops := []; bottoms := []; dresses := []; outerwear := [];
       shoes := []; accessories := [] |}.

(** [None] is the early [return None]. *)
Definition _create_candidate_outfit (categorized_items : Buckets) (user_info : UserInfo)
  : Gen (option (list ClothingItem)) :=
  (* Decide outfit type: dress or top+bottom *)
  (r <- random_random ;;
   let use_dress := (r <? 0.3)%float && truthy (dresses categorized_items) in
   base <-
     (if use_dress then
        dress <- random_choice (dresses categorized_items) ;;
        ret (Some [dress])
      else if truthy (tops categorized_items) && truthy (bottoms categorized_items)
      then
        top <- random_choice (tops categorized_items) ;;
        bottom <- random_choice (bottoms categorized_items) ;;
        ret (Some [top; bottom])
      else ret None) ;;
   match base with
   | None => ret None
   | Some candidate =>
       (* Add outerwear (optional) *)
       candidate <-
         (if truthy (outerwear categorized_items) then
            r' <- random_random ;;
            if (r' <? 0.4)%float then
              ow <- random_choice (outerwear categorized_items) ;;
              ret (candidate ++ [ow])
            else ret candidate
          else ret candidate) ;;
       (* Add shoes *)
       candidate <-
         (if truthy (shoes categorized_items) then
            sh <- random_choice (shoes categorized_items) ;;
            ret (candidate ++ [sh])
          else ret candidate) ;;
       (* Add accessories (optional, 1-2 items) *)
       candidate <-
         (if truthy (accessories categorized_items) then
            num_accessories <- random_randint 1 2 ;;
            accs <- random_sample (accessories categorized_items)
                      (Z.min num_accessories
                         (Z.of_nat (List.length (accessories categorized_items)))) ;;
            ret (candidate ++ accs)
          else ret candidate) ;;
       ret (Some candidate)
   end)%gen.

Definition _is_valid_outfit (outfit : list ClothingItem) (request : OutfitRequest) : bool :=
  (* Basic checks *)
  if negb (truthy outfit) then false
  else
    (* Check for required categories *)
    let categories := py_set category_eq_dec (map category outfit) in
    if (set_mem category_eq_dec TOP categories
        && set_mem category_eq_dec BOTTOM categories)
       || set_mem category_eq_dec DRESS categories
    then true
    else false.

Definition _estimate_formality_level (item : ClothingItem) : float :=
  let formality_map (f : FitType.t) : option float :=
    match f with
    | FitType.STRUCTURED => Some 0.9%float
    | FitType.FITTED => Some 0.8%float
    | FitType.STRAIGHT => Some 0.6%float
    | FitType.RELAXED => Some 0.4%float
    | FitType.OVERSIZED => Some 0.3%float
    | FitType.SKINNY => Some 0.5%float
    | FitType.BOOT_CUT => Some 0.5%float
    | FitType.A_LINE => Some 0.7%float
    | _ => None
    end in
  let base_formality :=
    match formality_map (fit item) with
    | Some v => v
    | None => 0.5%float
    end in
  (* Adjust based on category *)
  let base_formality :=
    if py_in ItemCategory.eqb (category item) [DRESS; OUTERWEAR]
    then (base_formality + 0.1)%float
    else if ItemCategory.eqb (category item) ACCESSORY
    then (base_formality - 0.1)%float
    else base_formality in
  py_max 0.1 (py_min 0.9 base_formality).

Definition _estimate_color_intensity (color : Color.t) : float :=
  let intense_colors :=
    [Color.RED; Color.BLUE; Color.GREEN; Color.PURPLE; Color.PINK; Color.ORANGE] in
  let neutral_colors :=
    [Color.BLACK; Color.WHITE; Color.GRAY; Color.NAVY; Color.BEIGE; Color.CREAM;
     Color.BROWN] in
  if py_in Color.eqb color intense_colors then 0.8%float
  else if py_in Color.eqb color neutral_colors then 0.3%float
  else 0.5%float.

Definition _item_to_dict (item : ClothingItem) : ItemDict :=
  {| dict_color := Color.value (color item);
     dict_category := ItemCategory.value (category item);
     dict_pattern := if truthy_str (pattern item) then format_opt (pattern item)
                     else "none";
     dict_formality_level := _estimate_formality_level item;
     dict_color_intensity := _estimate_color_intensity (color item);
     dict_pattern_intensity := if truthy_str (pattern item) then 0.8%float
                               else 0.2%float |}.

Definition _predict_ml_compatibility (items : list ItemDict) : outcome float :=
  let color_score := 0.7%float in
  let category_score := 0.8%float in
  let formality_score := 0.6%float in
  (* Simple heuristic based on item properties *)
  let colors := map dict_color items in
  let color_score :=
    if (List.length (py_set string_dec colors) <=? 2)%nat then 0.9%float
    else color_score in
  let categories := map dict_category items in
  let category_score :=
    if (3 <=? List.length categories)%nat then 0.9%float else category_score in
  let formality_levels := map dict_formality_level items in
  match py_max_list formality_levels, py_min_list formality_levels with
  | Ok hi, Ok lo =>
      let formality_variance := (hi - lo)%float in
      let formality_score :=
        if (formality_variance <? 0.3)%float then 0.8%float else formality_score in
      Ok ((color_score + category_score + formality_score) / 3)%float
  | Raise e, _ => Raise e
  | OutOfFuel, _ => OutOfFuel
  | _, Raise e => Raise e
  | _, OutOfFuel => OutOfFuel
  end.

Definition _generate_style_notes (outfit : list ClothingItem) (user_info : UserInfo)
  : list string :=
  let notes := [] in
  (* Body type specific notes *)
  let notes :=
    if BodyType.eqb (body_type user_info) BodyType.TRIANGLE then
      notes ++ ["This outfit helps balance your proportions with emphasis on the upper body"]
    else if BodyType.eqb (body_type user_info) BodyType.INVERTED_TRIANGLE then
      notes ++ ["This outfit creates balance by adding volume to the lower body"]
    else if BodyType.eqb (body_type user_info) BodyType.RECTANGLE then
      notes ++ ["This outfit creates the illusion of curves with strategic tailoring"]
    else notes in
  (* Color coordination notes *)
  let colors :=
    map color
        (filter (fun item => negb (Color.eqb (color item) Color.PATTERNED)) outfit) in
  if (List.length (py_set color_eq_dec colors) <=? 2)%nat
  then notes ++ ["Monochromatic color scheme creates a sleek, elongated look"]
  else notes ++ ["Well-coordinated color palette with visual interest"].

(** The variables of the [while] loop, besides the random source. *)
Record loop_state := {
  outfits : list Outfit;
  attempt : nat
}.

(** [len(outfits) < request.max_outfits and attempt < self.max_generation_attempts] *)
Definition loop_cond (request : OutfitRequest) (st : loop_state) : bool :=
  (Z.of_nat (List.length (outfits st)) <? max_outfits request)%Z
  && (attempt st <? max_generation_attempts)%nat.

(** One pass through the body of the loop. *)
Definition loop_body (request : OutfitRequest) (categorized_items : Buckets)
  (st : loop_state) : Gen loop_state :=
  let attempt' := S (attempt st) in
  (* Create a candidate outfit *)
  (c <- _create_candidate_outfit categorized_items (user_info request) ;;
   match c with
   | Some candidate =>
       if truthy candidate && _is_valid_outfit candidate request then
         (* Score the outfit *)
         let rule_score :=
           RuleEngine.score_outfit_proportions candidate (user_info request) in
         ml_score <- lift (_predict_ml_compatibility (map _item_to_dict candidate)) ;;
         (* Combine scores (weighted average) *)
         let final_score := (0.6 * rule_score + 0.4 * ml_score)%float in
         let outfit :=
           {| outfit_id :=
                ("outfit_" ++ str_of_nat (List.length (outfits st) + 1))%string;
              items := candidate;
              outfit_occasion_type := occasion_type (occasion_info request);
              compatibility_score := final_score;
              style_notes := _generate_style_notes candidate (user_info request) |} in
         ret {| outfits := outfits st ++ [outfit]; attempt := attempt' |}
       else ret {| outfits := outfits st; attempt := attempt' |}
   | None => ret {| outfits := outfits st; attempt := attempt' |}
   end)%gen.

(** The [while] loop; [fuel] bounds the number of passes the model follows. *)
Fixpoint while_loop (fuel : nat) (request : OutfitRequest) (categorized_items : Buckets)
  (st : loop_state) : Gen loop_state :=
  if loop_cond request st then
    match fuel with
    | O => fun _ => OutOfFuel
    | S fuel' =>
        (st' <- loop_body request categorized_items st ;;
         while_loop fuel' request categorized_items st')%gen
    end
  else ret st.

(** [outfits.sort(key=lambda x: x.compatibility_score, reverse=True)]:
    Python's sort is stable, also with [reverse=True]; an outfit is placed
    before the first outfit that does not have a strictly greater score. *)
Fixpoint insert_by_score (o : Outfit) (sorted : list Outfit) : list Outfit :=
  match sorted with
  | [] => [o]
  | o' :: rest =>
      if (compatibility_score o <? compatibility_score o')%float
      then o' :: insert_by_score o rest
      else o :: sorted
  end.

Definition sort_by_score_desc (l : list Outfit) : list Outfit :=
  fold_right insert_by_score [] l.

(** Steps 1 and 2: the filtered inventory, by bucket. *)
Definition categorized_inventory (request : OutfitRequest) : Buckets :=
  let filtered_items :=
    RuleEngine.filter_by_body_type (inventory request)
      (body_type (user_info request)) in
  let filtered_items :=
    RuleEngine.filter_by_occasion filtered_items (occasion_info request) in
  _categorize_items filtered_items.

(** Step 3: the state in which the loop is left. *)
Definition collect_outfits (fuel : nat) (request : OutfitRequest) : Gen loop_state :=
  while_loop fuel request (categorized_inventory request)
    {| outfits := []; attempt := 0 |}.

Definition generate_outfits (fuel : nat) (request : OutfitRequest) (g : rng)
  : outcome (list Outfit) :=
  match collect_outfits fuel request g with
  | Ok (st, _) =>
      (* Sort by score and return *)
      Ok (py_slice_to (sort_by_score_desc (outfits st)) (max_outfits request))
  | Raise e => Raise e
  | OutOfFuel => OutOfFuel
  end.

End OutfitGenerator.

(* ================================================================== *)
(** * The specification's reading of the rule engine *)
(* ================================================================== *)

Module Spec.
Import ItemCategory.

(** Roles: [top], [dress] and [outerwear] share the top role, [bottom] is
    its own role, [shoes] and [accessory] have none. *)
Inductive Role := TopRole | BottomRole.

Definition role_of (c : ItemCategory.t) : option Role :=
  match c with
  | TOP | DRESS | OUTERWEAR => Some TopRole
  | BOTTOM => Some BottomRole
  | SHOES | ACCESSORY => None
  end.

Definition role_key (r : Role) : string :=
  match r with
  | TopRole => "top"
  | BottomRole => "bottom"
  end.

(** The four columns of the body-type table, by role; [None] when the table
    does not specify the column for the body type. *)
Definition avoid_list (b : BodyType.t) (r : Role) : list FitType.t :=
  match RuleEngine._load_body_type_rules b with
  | Some rules =>
      match avoid_fits rules with
      | Some d => dict_get d (role_key r) []
      | None => []
      end
  | None => []
  end.

Definition permitted_fits (b : BodyType.t) (r : Role) : option (list FitType.t) :=
  match RuleEngine._load_body_type_rules b with
  | Some rules =>
      match r with
      | TopRole => top_fit rules
      | BottomRole => bottom_fit rules
      end
  | None => None
  end.

Definition recommended_color_set (b : BodyType.t) (r : Role) : option (list Color.t) :=
  match RuleEngine._load_body_type_rules b with
  | Some rules =>
      match recommended_colors rules with
      | Some d => Some (dict_get d (role_key r) [])
      | None => None
      end
  | None => None
  end.

Definition permitted_weights (b : BodyType.t) (r : Role) : option (list string) :=
  match RuleEngine._load_body_type_rules b with
  | Some rules =>
      match fabric_weight rules with
      | Some d => Some (dict_get d (role_key r) [])
      | None => None
      end
  | None => None
  end.

(** Membership in a list that the table may leave unspecified. *)
Definition within {A : Type} (x : A) (o : option (list A)) : Prop :=
  match o with
  | Some l => In x l
  | None => True
  end.

(** The body-type filter as the claim words it: all four checks by role. *)
Definition body_type_keeps_claimed (b : BodyType.t) (item : ClothingItem) : Prop :=
  match role_of (category item) with
  | None => True
  | Some r =>
      ~ In (fit item) (avoid_list b r)
      /\ within (fit item) (permitted_fits b r)
      /\ within (color item) (recommended_color_set b r)
      /\ within (weight item) (permitted_weights b r)
  end.

(** The same with outerwear exempt from the fabric-weight check. *)
Definition body_type_keeps (b : BodyType.t) (item : ClothingItem) : Prop :=
  match role_of (category item) with
  | None => True
  | Some r =>
      ~ In (fit item) (avoid_list b r)
      /\ within (fit item) (permitted_fits b r)
      /\ within (color item) (recommended_color_set b r)
      /\ (category item = OUTERWEAR \/ within (weight item) (permitted_weights b r))
  end.

(** The allowed-fits column of the occasion table. *)
Definition allowed_fits_of (o : OccasionType.t) : option (list FitType.t) :=
  match RuleEngine._load_occasion_rules o with
  | Some rules => allowed_fits rules
  | None => None
  end.

Definition subcategory_whitelist : list string := ["shirt"; "blouse"; "button-down"].

(** The weather and business-subcategory conditions of the occasion filter. *)
Definition weather_and_formality_ok (occasion : OccasionInfo) (item : ClothingItem) : Prop :=
  ~ (weather occasion = WeatherCondition.HOT /\ weight item = "heavy")
  /\ ~ (weather occasion = WeatherCondition.COLD /\ weight item = "light")
  /\ (occasion_type occasion = OccasionType.BUSINESS ->
      category item = TOP -> In (subcategory item) subcategory_whitelist).

(** The occasion filter as the claim words it: the fit must be in the
    occasion's allowed-fits list (an occasion without a list has no fit in it). *)
Definition occasion_keeps_claimed (occasion : OccasionInfo) (item : ClothingItem) : Prop :=
  In (fit item)
     (match allowed_fits_of (occasion_type occasion) with
      | Some l => l
      | None => []
      end)
  /\ weather_and_formality_ok occasion item.

(** The same with the fit check applied only when the occasion has a list. *)
Definition occasion_keeps (occasion : OccasionInfo) (item : ClothingItem) : Prop :=
  within (fit item) (allowed_fits_of (occasion_type occasion))
  /\ weather_and_formality_ok occasion item.

(** ** Proportion score *)

(** The distinguishing elements of an outfit, as typed tokens. *)
Inductive token :=
| PatternTok (p : string)
| ColorTok (c : Color.t)
| CategoryTok (c : ItemCategory.t).

Definition token_eq_dec : forall a b : token, {a = b} + {a <> b}.
Proof.
  decide equality;
    [apply string_dec | apply color_eq_dec | apply category_eq_dec].
Defined.

(** One token per present pattern (a pattern that is given and is not the
    empty string), one per colour other than [patterned], one per category. *)
Definition item_tokens (item : ClothingItem) : list token :=
  match pattern item with
  | Some p => if string_dec p EmptyString then [] else [PatternTok p]
  | None => []
  end
  ++ match color item with
     | Color.PATTERNED => []
     | c => [ColorTok c]
     end
  ++ [CategoryTok (category item)].

(** The string the source builds for a token. *)
Definition render (t : token) : string :=
  match t with
  | PatternTok p => "pattern_" ++ p
  | ColorTok c => "color_" ++ Color.value c
  | CategoryTok c => "category_" ++ ItemCategory.value c
  end%string.

Definition distinguishing_elements (outfit : list ClothingItem) : list token :=
  nodup token_eq_dec (flat_map item_tokens outfit).

(** Volumes are read as exact decimal numbers. *)
Definition exceeds (x y : Q) : bool := negb (Qle_bool x y).

Definition clamp (lo hi x : Q) : Q :=
  if exceeds lo x then lo else if exceeds x hi then hi else x.

Definition fit_adjustment (f : FitType.t) : Q :=
  match f with
  | FitType.OVERSIZED | FitType.RELAXED => 0.3
  | FitType.FITTED | FitType.SKINNY => -0.3
  | _ => 0
  end.

Definition weight_adjustment (w : string) : Q :=
  if string_dec w "heavy" then 0.2
  else if string_dec w "light" then -0.2
  else 0.

Definition volume (item : ClothingItem) : Q :=
  clamp 0.1 0.9 (0.5 + fit_adjustment (fit item) + weight_adjustment (weight item)).

Definition is_top_role (item : ClothingItem) : bool :=
  match role_of (category item) with
  | Some TopRole => true
  | _ => false
  end.

Definition is_bottom (item : ClothingItem) : bool :=
  match category item with
  | BOTTOM => true
  | _ => false
  end.

Definition rule_of_three_factor (outfit : list ClothingItem) : float :=
  if (List.length (distinguishing_elements outfit) <? 3)%nat then 0.7%float else 1%float.

(** The factor of the balance of the first top-role item and the first
    bottom: 0.6 when both volumes exceed 0.7, else 1.2 when they differ by
    more than 0.3, else 1. *)
Definition balance_factor (outfit : list ClothingItem) : float :=
  match find is_top_role outfit, find is_bottom outfit with
  | Some t, Some b =>
      if exceeds (volume t) 0.7 && exceeds (volume b) 0.7 then 0.6%float
      else if exceeds (Qabs (volume t - volume b)) 0.3 then 1.2%float
      else 1%float
  | _, _ => 1%float
  end.

Definition proportion_score (outfit : list ClothingItem) : float :=
  (1.0 * rule_of_three_factor outfit * balance_factor outfit)%float.

(** The two volumes that decide the balance differ by exactly 0.3. *)
Definition on_boundary (outfit : list ClothingItem) : bool :=
  match find is_top_role outfit, find is_bottom outfit with
  | Some t, Some b => Qeq_bool (Qabs (volume t - volume b)) 0.3
  | _, _ => false
  end.

(** The two adjustments of the volume of an item, which is all that the
    volume depends on. *)
Inductive shift := Up | Down | Level.

Definition shifts : list shift := [Up; Down; Level].

Definition fit_shift (f : FitType.t) : shift :=
  match f with
  | FitType.OVERSIZED | FitType.RELAXED => Up
  | FitType.FITTED | FitType.SKINNY => Down
  | _ => Level
  end.

Definition weight_shift (w : string) : shift :=
  if String.eqb w "heavy" then Up else if String.eqb w "light" then Down else Level.

(** An item with the given adjustments. *)
Definition shifted_item (f w : shift) : ClothingItem :=
  {| item_id := EmptyString; category := TOP; subcategory := EmptyString;
     color := Color.WHITE; pattern := None; fabric := EmptyString;
     weight := match w with Up => "heavy" | Down => "light" | Level => "medium" end;
     fit := match f with
            | Up => FitType.OVERSIZED | Down => FitType.FITTED | Level => FitType.REGULAR
            end;
     brand := None; size := EmptyString; attributes := []; image_url := None;
     created_at := 0 |}.

(** ** Heuristic score, as the specification words it *)

Definition distinct_colors (outfit : list ClothingItem) : nat :=
  List.length (nodup color_eq_dec (map color outfit)).

Definition distinct_categories (outfit : list ClothingItem) : nat :=
  List.length (nodup category_eq_dec (map category outfit)).

Definition color_score (outfit : list ClothingItem) : float :=
  if (distinct_colors outfit <=? 2)%nat then 0.9%float else 0.7%float.

(** Category score with "at least 3 categories" read as distinct categories. *)
Definition category_score_claimed (outfit : list ClothingItem) : float :=
  if (3 <=? distinct_categories outfit)%nat then 0.9%float else 0.8%float.

(** Category score as computed: at least 3 items. *)
Definition category_score_by_items (outfit : list ClothingItem) : float :=
  if (3 <=? List.length outfit)%nat then 0.9%float else 0.8%float.

Definition formality_score (outfit : list ClothingItem) : outcome float :=
  let levels := map OutfitGenerator._estimate_formality_level outfit in
  match py_max_list levels, py_min_list levels with
  | Ok hi, Ok lo => Ok (if (hi - lo <? 0.3)%float then 0.8%float else 0.6%float)
  | _, _ => Raise ValueError
  end.

Definition mean3 (a b c : float) : float := ((a + b + c) / 3)%float.

Definition heuristic_claimed (outfit : list ClothingItem) : outcome float :=
  match formality_score outfit with
  | Ok f => Ok (mean3 (color_score outfit) (category_score_claimed outfit) f)
  | Raise e => Raise e
  | OutOfFuel => OutOfFuel
  end.

Definition heuristic_by_items (outfit : list ClothingItem) : outcome float :=
  match formality_score outfit with
  | Ok f => Ok (mean3 (color_score outfit) (category_score_by_items outfit) f)
  | Raise e => Raise e
  | OutOfFuel => OutOfFuel
  end.

(** ** Score values *)

(** The values the proportion score can take. *)
Definition rule_score_values : list float :=
  [1.0; 1.0 * 0.6; 1.0 * 1.2; 1.0 * 0.7; 1.0 * 0.7 * 0.6; 1.0 * 0.7 * 1.2]%float.

(** The values the heuristic score can take. *)
Definition ml_score_values : list float :=
  flat_map (fun c => flat_map (fun k => map (fun f => mean3 c k f)
                                           [0.6; 0.8]%float)
                              [0.8; 0.9]%float)
           [0.7; 0.9]%float.

(** The values a compatibility score can take. *)
Definition score_values : list float :=
  flat_map (fun r => map (fun m => (0.6 * r + 0.4 * m)%float) ml_score_values)
           rule_score_values.

(** The exact rational value of a finite float. *)
Definition float_to_Q (f : float) : option Q :=
  match Prim2SF f with
  | S754_zero _ => Some 0%Q
  | S754_finite s m e =>
      Some (inject_Z (if s then Z.neg m else Z.pos m) * Qpower 2 e)%Q
  | _ => None
  end.

(** [0 <= f <= 16/15], in floating point and in exact arithmetic. *)
Definition score_in_bounds (f : float) : bool :=
  (0 <=? f)%float && (f <=? 16 / 15)%float
  && (f <=? 0.6 * 1.2 + 0.4 * ((0.9 + 0.9 + 0.8) / 3))%float
  && match float_to_Q f with
     | Some q => Qle_bool 0 q && Qle_bool q (16 # 15)
     | None => false
     end.

(** ** Generated outfits *)

Definition has_category (c : ItemCategory.t) (outfit : list ClothingItem) : Prop :=
  exists item, In item outfit /\ category item = c.

(** The structural invariant of an outfit. *)
Definition structurally_valid (o : Outfit) : Prop :=
  has_category DRESS (items o)
  \/ (has_category TOP (items o) /\ has_category BOTTOM (items o)).

(** What the loop records for an accepted candidate. *)
Definition recorded (request : OutfitRequest) (o : Outfit) : Prop :=
  OutfitGenerator._is_valid_outfit (items o) request = true
  /\ exists ml,
       OutfitGenerator._predict_ml_compatibility
         (map OutfitGenerator._item_to_dict (items o)) = Ok ml
       /\ compatibility_score o
          = (0.6 * RuleEngine.score_outfit_proportions (items o) (user_info request)
             + 0.4 * ml)%float.

(** The identifiers of [n] outfits in generation order. *)
Definition sequential_ids (n : nat) : list string :=
  map (fun k => ("outfit_" ++ str_of_nat k)%string) (seq 1 n).

(** The invariant of the generation loop. *)
Definition loop_invariant (request : OutfitRequest) (st : OutfitGenerator.loop_state)
  : Prop :=
  Forall (recorded request) (OutfitGenerator.outfits st)
  /\ (Z.of_nat (List.length (OutfitGenerator.outfits st))
      <= Z.max 0 (max_outfits request))%Z
  /\ map outfit_id (OutfitGenerator.outfits st)
     = sequential_ids (List.length (OutfitGenerator.outfits st))
  /\ (OutfitGenerator.attempt st <= OutfitGenerator.max_generation_attempts)%nat.

(** The order facts the sort relies on, at three score values. *)
Definition score_order_ok (x y z : float) : bool :=
  implb (negb (x <? y)%float) (y <=? x)%float
  && implb (x <? y)%float (x <=? y)%float
  && implb ((z <=? y)%float && (y <=? x)%float) (z <=? x)%float
  && negb ((x <? y)%float && (x =? z)%float && (y =? z)%float).

(** The bounds of the claim on a score: in floating point, and on the exact
    value of the float. *)
Definition score_bounded (f : float) : Prop :=
  (0 <=? f)%float = true
  /\ (f <=? 16 / 15)%float = true
  /\ (f <=? 0.6 * 1.2 + 0.4 * ((0.9 + 0.9 + 0.8) / 3))%float = true
  /\ exists q : Q, float_to_Q f = Some q /\ (0 <= q)%Q /\ (q <= 16 # 15)%Q.

(** [a] has a score at least that of [b]. *)
Definition score_ge (a b : Outfit) : Prop :=
  (compatibility_score b <=? compatibility_score a)%float = true.

Definition same_score (o o' : Outfit) : bool :=
  (compatibility_score o' =? compatibility_score o)%float.

(** The claimed bound on the number of outfits. *)
Definition within_max_outfits (request : OutfitRequest) (outs : list Outfit) : Prop :=
  (Z.of_nat (List.length outs) <= max_outfits request)%Z.

(** ** Style notes *)

Definition body_type_note (b : BodyType.t) : option string :=
  match b with
  | BodyType.TRIANGLE =>
      Some "This outfit helps balance your proportions with emphasis on the upper body"
  | BodyType.INVERTED_TRIANGLE =>
      Some "This outfit creates balance by adding volume to the lower body"
  | BodyType.RECTANGLE =>
      Some "This outfit creates the illusion of curves with strategic tailoring"
  | BodyType.HOURGLASS | BodyType.OVAL => None
  end.

Definition distinct_plain_colors (outfit : list ClothingItem) : nat :=
  List.length
    (nodup color_eq_dec
       (filter (fun c => negb (Color.eqb c Color.PATTERNED)) (map color outfit))).

Definition color_note (outfit : list ClothingItem) : string :=
  if (distinct_plain_colors outfit <=? 2)%nat
  then "Monochromatic color scheme creates a sleek, elongated look"
  else "Well-coordinated color palette with visual interest".

(** The claim: exactly two notes, the body-type note then the color note. *)
Definition two_notes_claimed (outfit : list ClothingItem) (user : UserInfo) : Prop :=
  exists body_note,
    OutfitGenerator._generate_style_notes outfit user = [body_note; color_note outfit].

End Spec.

(* ================================================================== *)
(** * Sample data *)
(* ================================================================== *)

Module Sample.

Definition mk_item (id : string) (c : ItemCategory.t) (sub : string) (col : Color.t)
  (pat : option string) (w : string) (f : FitType.t) : ClothingItem :=
  {| item_id := id; category := c; subcategory := sub; color := col; pattern := pat;
     fabric := "cotton"; weight := w; fit := f; brand := None; size := "M";
     attributes := []; image_url := None; created_at := 0 |}.

Definition mk_user (b : BodyType.t) : UserInfo :=
  {| user_id := "u1"; body_type := b; skin_tone := SkinTone.MEDIUM; height_cm := 170;
     weight_kg := None; shoulder_cm := None; bust_cm := None; waist_cm := None;
     hip_cm := None; preferences := None |}.

Definition mk_occasion (o : OccasionType.t) (w : WeatherCondition.t) : OccasionInfo :=
  {| occasion_type := o; weather := w; time_of_day := "evening"; location := None;
     formality_level := 3 |}.

Definition shirt := mk_item "t1" ItemCategory.TOP "shirt" Color.RED None "medium" FitType.FITTED.
Definition jeans := mk_item "b1" ItemCategory.BOTTOM "jeans" Color.BLACK None "medium" FitType.STRAIGHT.
Definition blouse := mk_item "t2" ItemCategory.TOP "blouse" Color.WHITE None "medium" FitType.RELAXED.
Definition gown := mk_item "d1" ItemCategory.DRESS "gown" Color.BLUE None "light" FitType.A_LINE.
Definition coat := mk_item "o1" ItemCategory.OUTERWEAR "coat" Color.NAVY None "heavy" FitType.STRUCTURED.
Definition heels := mk_item "s1" ItemCategory.SHOES "heels" Color.BLACK None "medium" FitType.REGULAR.
Definition scarf := mk_item "a1" ItemCategory.ACCESSORY "scarf" Color.PINK (Some "dots") "light" FitType.REGULAR.
Definition belt := mk_item "a2" ItemCategory.ACCESSORY "belt" Color.BROWN None "light" FitType.REGULAR.

(** A heavy red fitted coat: every top-role check of the triangle table
    passes except the fabric weight. *)
Definition heavy_coat :=
  mk_item "o2" ItemCategory.OUTERWEAR "coat" Color.RED None "heavy" FitType.FITTED.

Definition skinny_jeans :=
  mk_item "b2" ItemCategory.BOTTOM "jeans" Color.BLACK None "medium" FitType.SKINNY.

Definition wardrobe : list ClothingItem :=
  [shirt; jeans; gown; coat; heels; scarf; belt].

Definition hourglass_user : UserInfo := mk_user BodyType.HOURGLASS.

Definition formal_evening : OccasionInfo :=
  mk_occasion OccasionType.FORMAL WeatherCondition.WARM.

(** A request no rule table constrains. *)
Definition request : OutfitRequest :=
  {| user_info := hourglass_user; occasion_info := formal_evening;
     inventory := wardrobe; max_outfits := 3 |}.

(** The same request asking for [-1] outfits. *)
Definition negative_request : OutfitRequest :=
  {| user_info := hourglass_user; occasion_info := formal_evening;
     inventory := wardrobe; max_outfits := -1 |}.

(** A triangle shopper whose only bottom is skinny: it is filtered out, and
    no top or dress is left. *)
Definition skinny_request : OutfitRequest :=
  {| user_info := mk_user BodyType.TRIANGLE;
     occasion_info := mk_occasion OccasionType.CASUAL WeatherCondition.WARM;
     inventory := [skinny_jeans; heels]; max_outfits := 5 |}.

(** A wardrobe of one dress and two accessories. *)
Definition dress_request : OutfitRequest :=
  {| user_info := hourglass_user; occasion_info := formal_evening;
     inventory := [gown; scarf; belt]; max_outfits := 1 |}.

(** A triangle shopper dressing for business: the fitted red dress passes
    both filters, the straight jeans do not pass the occasion filter. *)
Definition sheath :=
  mk_item "d2" ItemCategory.DRESS "sheath" Color.RED None "medium" FitType.FITTED.

Definition business_request : OutfitRequest :=
  {| user_info := mk_user BodyType.TRIANGLE;
     occasion_info := mk_occasion OccasionType.BUSINESS WeatherCondition.WARM;
     inventory := [sheath; shirt; jeans; heels]; max_outfits := 2 |}.

Definition draws : rng := fun n => (Z.of_nat n * 2654435761 + 12345678901234567)%Z.

(** Draws that are all [1]: [random()] is below every threshold and
    [randint(1, 2)] is [2]. *)
Definition ones : rng := fun _ => 1%Z.

End Sample.

(* ================================================================== *)
(** * Candidates and buckets *)
(* ================================================================== *)

Module Candidates.
Import ItemCategory.

(** The test [item.category == c]. *)
Definition in_category (c : ItemCategory.t) (item : ClothingItem) : bool :=
  ItemCategory.eqb (category item) c.

(** Every bucket holds items of its own category only. *)
Definition well_categorized (c : Buckets) : Prop :=
  Forall (fun item => category item = TOP) (tops c)
  /\ Forall (fun item => category item = BOTTOM) (bottoms c)
  /\ Forall (fun item => category item = DRESS) (dresses c)
  /\ Forall (fun item => category item = OUTERWEAR) (outerwear c)
  /\ Forall (fun item => category item = SHOES) (shoes c)
  /\ Forall (fun item => category item = ACCESSORY) (accessories c).

(** [l] is taken from [pool] at pairwise distinct positions. *)
Definition drawn_from {A : Type} (l pool : list A) : Prop :=
  exists rest, Permutation (l ++ rest) pool.

(** The base of a candidate: one dress, or one top followed by one bottom. *)
Definition base_of (c : Buckets) (base : list ClothingItem) : Prop :=
  (exists d, base = [d] /\ In d (dresses c))
  \/ (exists t b, base = [t; b] /\ In t (tops c) /\ In b (bottoms c)).

Definition outerwear_of (c : Buckets) (ow : list ClothingItem) : Prop :=
  ow = [] \/ exists o, ow = [o] /\ In o (outerwear c).

Definition shoes_of (c : Buckets) (sh : list ClothingItem) : Prop :=
  match shoes c with
  | [] => sh = []
  | _ :: _ => exists s, sh = [s] /\ In s (shoes c)
  end.

Definition accessories_of (c : Buckets) (accs : list ClothingItem) : Prop :=
  drawn_from accs (accessories c)
  /\ match accessories c with
     | [] => accs = []
     | _ :: _ =>
         List.length accs = 1%nat
         \/ List.length accs = Nat.min 2 (List.length (accessories c))
     end.

(** What [_create_candidate_outfit] assembles from the buckets [c]. *)
Definition candidate_shape (c : Buckets) (candidate : list ClothingItem) : Prop :=
  exists base ow sh accs,
    candidate = base ++ ow ++ sh ++ accs
    /\ base_of c base /\ outerwear_of c ow /\ shoes_of c sh /\ accessories_of c accs.

(** What the loop stores in an outfit besides its score. *)
Definition built (request : OutfitRequest) (o : Outfit) : Prop :=
  candidate_shape (OutfitGenerator.categorized_inventory request) (items o)
  /\ outfit_occasion_type o = occasion_type (occasion_info request)
  /\ style_notes o
     = OutfitGenerator._generate_style_notes (items o) (user_info request).

(** A second invariant of the generation loop: every outfit was built from
    the buckets, and no attempt gave more than one outfit. *)
Definition loop_progress (request : OutfitRequest) (st : OutfitGenerator.loop_state)
  : Prop :=
  Forall (built request) (OutfitGenerator.outfits st)
  /\ (List.length (OutfitGenerator.outfits st) <= OutfitGenerator.attempt st)%nat.

(** The item passed both filters of the request. *)
Definition passed_filters (request : OutfitRequest) (item : ClothingItem) : Prop :=
  In item (inventory request)
  /\ RuleEngine._is_item_compatible item
       (RuleEngine.body_type_rules_get (body_type (user_info request))) = true
  /\ RuleEngine._is_item_occasion_compatible item
       (RuleEngine.occasion_rules_get (occasion_type (occasion_info request)))
       (occasion_info request) = true.

(** The body types and the occasions that have a rule table. *)
Definition table_body_types : list BodyType.t :=
  [BodyType.TRIANGLE; BodyType.INVERTED_TRIANGLE; BodyType.RECTANGLE].

Definition table_occasions : list OccasionType.t :=
  [OccasionType.CASUAL; OccasionType.BUSINESS; OccasionType.PARTY].


(** An outfit built on a dress, without any top or bottom. *)
Definition dress_based (o : Outfit) : Prop :=
  (exists d rest, items o = d :: rest /\ category d = DRESS)
  /\ Forall (fun item => category item <> TOP /\ category item <> BOTTOM) (items o).

End Candidates.

(* ================================================================== *)
(** * app.py: the pipeline embedded in the user interface *)
(* ================================================================== *)

(** [l.sort(key=key, reverse=True)] for any element type: an element is
    placed before the first element whose key is not strictly greater. *)
Section SortByKey.
Context {A : Type} (key : A -> float).

Fixpoint insert_by_key (x : A) (sorted : list A) : list A :=
  match sorted with
  | [] => [x]
  | y :: rest =>
      if (key x <? key y)%float then y :: insert_by_key x rest else x :: sorted
  end.

Definition sort_by_key_desc (l : list A) : list A := fold_right insert_by_key [] l.

End SortByKey.

(** [s.lstrip(c)] and [s.replace(a, b)] for single characters. *)
Fixpoint lstrip (c : ascii) (s : string) : string :=
  match s with
  | EmptyString => EmptyString
  | String a s' => if Ascii.eqb a c then lstrip c s' else s
  end.

Fixpoint replace_char (a b : ascii) (s : string) : string :=
  match s with
  | EmptyString => EmptyString
  | String c s' => String (if Ascii.eqb c a then b else c) (replace_char a b s')
  end.

Module App.

Inductive error := ValueError | StopIteration.

Inductive result (A : Type) : Type :=
| Ok (a : A)
| Raise (e : error).
Arguments Ok {A} a.
Arguments Raise {A} e.

Module BodyType.
Inductive t := TRIANGLE | RECTANGLE | INVERTED_TRIANGLE | NONE.
Definition value (b : t) : string :=
  match b with
  | TRIANGLE => "Triangle" | RECTANGLE => "Rectangle"
  | INVERTED_TRIANGLE => "InvertedTriangle" | NONE => "None"
  end.
Definition eqb (a b : t) : bool :=
  match a, b with
  | TRIANGLE, TRIANGLE | RECTANGLE, RECTANGLE
  | INVERTED_TRIANGLE, INVERTED_TRIANGLE | NONE, NONE => true
  | _, _ => false
  end.
End BodyType.

Module OccasionType.
Inductive t := CASUAL | BUSINESS | PARTY.
Definition value (o : t) : string :=
  match o with
  | CASUAL => "casual" | BUSINESS => "business" | PARTY => "party"
  end.
End OccasionType.

Module ItemCategory.
Inductive t := TOP | BOTTOM | DRESS.
Definition value (c : t) : string :=
  match c with
  | TOP => "top" | BOTTOM => "bottom" | DRESS => "dress"
  end.
Definition eqb (a b : t) : bool :=
  match a, b with
  | TOP, TOP | BOTTOM, BOTTOM | DRESS, DRESS => true
  | _, _ => false
  end.
(** [ItemCategory(s)]: the member whose value is [s], if any. *)
Definition of_value (s : string) : option t :=
  if String.eqb s "top" then Some TOP
  else if String.eqb s "bottom" then Some BOTTOM
  else if String.eqb s "dress" then Some DRESS
  else None.
End ItemCategory.

Module FitType.
Inductive t :=
  FITTED | STRUCTURED | RELAXED | SKINNY | STRAIGHT | BOOT_CUT | A_LINE
| SHAPELESS | WIDE_LEG.
Definition value (f : t) : string :=
  match f with
  | FITTED => "fitted" | STRUCTURED => "structured" | RELAXED => "relaxed"
  | SKINNY => "skinny" | STRAIGHT => "straight" | BOOT_CUT => "boot-cut"
  | A_LINE => "a-line" | SHAPELESS => "shapeless" | WIDE_LEG => "wide-leg"
  end.
Definition eqb (a b : t) : bool :=
  match a, b with
  | FITTED, FITTED | STRUCTURED, STRUCTURED | RELAXED, RELAXED
  | SKINNY, SKINNY | STRAIGHT, STRAIGHT | BOOT_CUT, BOOT_CUT
  | A_LINE, A_LINE | SHAPELESS, SHAPELESS | WIDE_LEG, WIDE_LEG => true
  | _, _ => false
  end.
(** [FitType(s)]: the member whose value is [s], if any. *)
Definition of_value (s : string) : option t :=
  if String.eqb s "fitted" then Some FITTED
  else if String.eqb s "structured" then Some STRUCTURED
  else if String.eqb s "relaxed" then Some RELAXED
  else if String.eqb s "skinny" then Some SKINNY
  else if String.eqb s "straight" then Some STRAIGHT
  else if String.eqb s "boot-cut" then Some BOOT_CUT
  else if String.eqb s "a-line" then Some A_LINE
  else if String.eqb s "shapeless" then Some SHAPELESS
  else if String.eqb s "wide-leg" then Some WIDE_LEG
  else None.
End FitType.

Record ClothingItem := {
  item_id : string;
  category : ItemCategory.t;
  subcategory : string;
  fit : FitType.t;
  pattern : string;
  tags : list string;
  color : string;
  img : string
}.

(** The default of the parameter [color]. *)
Definition default_color : string := "#3B82F6".

(** [ClothingItem.__init__]: [ValueError] when [category] or [fit] is not the
    value of a member; a missing or empty [img] becomes a placeholder URL. *)
Definition new_item (item_id category subcategory fit pattern : string)
  (tags : list string) (color : string) (img : option string) : result ClothingItem :=
  match ItemCategory.of_value category with
  | None => Raise ValueError
  | Some c =>
      match FitType.of_value fit with
      | None => Raise ValueError
      | Some f =>
          Ok {| item_id := item_id; category := c; subcategory := subcategory;
                fit := f; pattern := pattern; tags := tags; color := color;
                img := if truthy_str img then format_opt img
                       else ("https://placehold.co/300x400/" ++ lstrip "#" color
                             ++ "/FFFFFF?text=" ++ replace_char " " "+" subcategory)%string |}
      end
  end.

(** The dict returned by [ClothingItem.as_dict], the key [k] as field [k_]. *)
Record ItemFields := {
  item_id_ : string;
  category_ : string;
  subcategory_ : string;
  fit_ : string;
  pattern_ : string;
  tags_ : list string;
  color_ : string;
  img_ : string
}.

Definition as_dict (self : ClothingItem) : ItemFields :=
  {| item_id_ := item_id self;
     category_ := ItemCategory.value (category self);
     subcategory_ := subcategory self;
     fit_ := FitType.value (fit self);
     pattern_ := pattern self;
     tags_ := tags self;
     color_ := color self;
     img_ := img self |}.

Record Outfit := {
  outfit_id : string;
  items : list ClothingItem;
  compatibility_score : float;
  style_notes : list string
}.

(** ** StyleRuleEngine *)

(** The log lines of the removed items, in the order [rids]; [next(...)]
    raises [StopIteration] when no item has the identifier. *)
Fixpoint log_removed (items : list ClothingItem) (occasion : OccasionType.t)
  (rids : list string) (log_messages : list string) : result (list string) :=
  match rids with
  | [] => Ok log_messages
  | rid :: rids' =>
      match find (fun i => String.eqb (item_id i) rid) items with
      | None => Raise StopIteration
      | Some item =>
          log_removed items occasion rids'
            (log_messages
             ++ [("> Item " ++ rid ++ " (" ++ subcategory item
                  ++ "): Filtered (Not for " ++ OccasionType.value occasion
                  ++ ").")%string])
      end
  end.

(** [set_order] is the order in which Python iterates over the set
    [removed]; it is not specified by the language. The state
    [log_messages] of the engine goes in and comes out. *)
Definition filter_by_occasion (set_order : list string -> list string)
  (log_messages : list string) (items : list ClothingItem) (occasion : OccasionType.t)
  : result (list ClothingItem * list string) :=
  let log_messages :=
    log_messages
    ++ [("> Filtering for occasion: " ++ OccasionType.value occasion ++ "...")%string] in
  let filtered :=
    filter (fun item => py_in String.eqb (OccasionType.value occasion) (tags item))
      items in
  let removed :=
    set_diff string_dec
      (py_set string_dec (map item_id items))
      (py_set string_dec (map item_id filtered)) in
  match log_removed items occasion (set_order removed) log_messages with
  | Ok log_messages => Ok (filtered, log_messages)
  | Raise e => Raise e
  end.

(** The tests of one pass of the loop of [filter_by_user_rules]: the final
    values of [keep] and [reason]. *)
Definition user_rule (body_type : BodyType.t) (item : ClothingItem)
  : bool * option string :=
  let keep := true in
  let reason : option string := None in
  if BodyType.eqb body_type BodyType.TRIANGLE then
    let '(keep, reason) :=
      if ItemCategory.eqb (category item) ItemCategory.BOTTOM
         && FitType.eqb (fit item) FitType.SKINNY
      then (false, Some "Skinny bottoms not ideal for Triangle")
      else (keep, reason) in
    if ItemCategory.eqb (category item) ItemCategory.TOP
       && FitType.eqb (fit item) FitType.SHAPELESS
    then (false, Some "Shapeless tops not ideal for Triangle")
    else (keep, reason)
  else if BodyType.eqb body_type BodyType.INVERTED_TRIANGLE then
    if ItemCategory.eqb (category item) ItemCategory.TOP
       && String.eqb (pattern item) "bold"
    then (false, Some "Bold tops add too much volume for InvertedTriangle")
    else (keep, reason)
  else if BodyType.eqb body_type BodyType.RECTANGLE then
    if ItemCategory.eqb (category item) ItemCategory.DRESS
       && negb (FitType.eqb (fit item) FitType.A_LINE)
    then (false, Some "Prefer A-line dresses for Rectangle to create curves")
    else (keep, reason)
  else (keep, reason).

Definition filter_by_user_rules (log_messages : list string)
  (items : list ClothingItem) (body_type : BodyType.t)
  : list ClothingItem * list string :=
  if BodyType.eqb body_type BodyType.NONE then
    (items, log_messages ++ ["> No body type rules applied."])
  else
    let log_messages :=
      log_messages
      ++ [("> Applying rules for body type: " ++ BodyType.value body_type
           ++ "...")%string] in
    fold_left
      (fun '(filtered_items, log_messages) item =>
         let '(keep, reason) := user_rule body_type item in
         if keep then
           (filtered_items ++ [item],
            log_messages
            ++ [("> Item " ++ item_id item ++ " (" ++ subcategory item
                 ++ "): Passed user rules.")%string])
         else
           (filtered_items,
            log_messages
            ++ [("> Item " ++ item_id item ++ " (" ++ subcategory item
                 ++ "): Filtered (" ++ format_opt reason ++ ").")%string]))
      items ([], log_messages).

(** ** OutfitGenerator *)

(** The body of the loop over the items of [_calculate_score]. *)
Definition body_bonus (body_type : BodyType.t) (base_score : float) (it : ClothingItem)
  : float :=
  if BodyType.eqb body_type BodyType.TRIANGLE then
    let base_score :=
      if py_in ItemCategory.eqb (category it) [ItemCategory.TOP; ItemCategory.DRESS]
         && py_in FitType.eqb (fit it) [FitType.FITTED; FitType.STRUCTURED]
      then (base_score + 0.15)%float else base_score in
    if ItemCategory.eqb (category it) ItemCategory.BOTTOM
       && py_in FitType.eqb (fit it)
            [FitType.STRAIGHT; FitType.BOOT_CUT; FitType.WIDE_LEG]
    then (base_score + 0.1)%float else base_score
  else if BodyType.eqb body_type BodyType.INVERTED_TRIANGLE then
    let base_score :=
      if ItemCategory.eqb (category it) ItemCategory.TOP
         && py_in FitType.eqb (fit it) [FitType.RELAXED; FitType.SHAPELESS]
      then (base_score + 0.1)%float else base_score in
    if py_in ItemCategory.eqb (category it) [ItemCategory.BOTTOM; ItemCategory.DRESS]
       && py_in FitType.eqb (fit it) [FitType.A_LINE; FitType.WIDE_LEG]
    then (base_score + 0.15)%float else base_score
  else if BodyType.eqb body_type BodyType.RECTANGLE then
    if FitType.eqb (fit it) FitType.A_LINE
    then (base_score + 0.15)%float else base_score
  else base_score.

Definition is_bold (it : ClothingItem) : bool := String.eqb (pattern it) "bold".

Definition _calculate_score (items : list ClothingItem) (body_type : BodyType.t) : float :=
  let base_score := 0.6%float in
  (* body-type bonuses *)
  let base_score :=
    if negb (BodyType.eqb body_type BodyType.NONE)
    then fold_left (body_bonus body_type) items base_score
    else base_score in
  (* color variety bonus *)
  let base_score :=
    match items with
    | i0 :: i1 :: _ =>
        if negb (String.eqb (color i0) (color i1))
        then (base_score + 0.12)%float else base_score
    | _ => base_score
    end in
  (* pattern handling *)
  let base_score :=
    if (1 <? List.length items)%nat then
      let has_bold := existsb is_bold items in
      let all_bold := forallb is_bold items in
      let base_score :=
        if has_bold && negb all_bold then (base_score + 0.08)%float else base_score in
      if all_bold then (base_score - 0.12)%float else base_score
    else base_score in
  (* simple fit clash penalty example *)
  let base_score :=
    match items with
    | i0 :: i1 :: _ =>
        if FitType.eqb (fit i0) FitType.SHAPELESS
           && FitType.eqb (fit i1) FitType.WIDE_LEG
        then (base_score - 0.08)%float else base_score
    | _ => base_score
    end in
  (* clamp *)
  py_max 0.0 (py_min 1.0 base_score).

(** The em dash of the last note is its three UTF-8 bytes. *)
Definition _generate_notes (items : list ClothingItem) (body_type : BodyType.t)
  : list string :=
  let notes :=
    if BodyType.eqb body_type BodyType.TRIANGLE then
      ["Highlights the upper body to balance a triangle shape."]
    else if BodyType.eqb body_type BodyType.INVERTED_TRIANGLE then
      ["Adds volume to the lower body to balance an inverted triangle."]
    else if BodyType.eqb body_type BodyType.RECTANGLE then
      ["Creates definition and curves (A-line recommendations)."]
    else ["A classic and versatile combination."] in
  match items with
  | i0 :: i1 :: _ =>
      let notes :=
        if negb (String.eqb (color i0) (color i1)) then
          notes ++ [("The " ++ color i0 ++ " and " ++ color i1
                     ++ " tones complement each other.")%string]
        else notes ++ ["A chic monochromatic look."] in
      notes
      ++ ["Follows Rule of 3: consider adding an accessory to complete the look."]
  | _ =>
      notes
      ++ ["An elegant one-piece outfit — add shoes or outerwear to complete."]
  end.

(** The two nested loops and the loop over the dresses that fill
    [candidates]. *)
Definition build_candidates (tops bottoms dresses : list ClothingItem)
  : list (list ClothingItem) :=
  let candidates := [] in
  let candidates :=
    if truthy tops && truthy bottoms then
      fold_left
        (fun candidates t =>
           fold_left (fun candidates b => candidates ++ [[t; b]]) bottoms candidates)
        tops candidates
    else candidates in
  fold_left (fun candidates d => candidates ++ [[d]]) dresses candidates.

(** The loop [for idx, cand in enumerate(candidates)]. *)
Definition score_candidates (candidates : list (list ClothingItem))
  (body_type : BodyType.t) : list Outfit :=
  fold_left
    (fun scored '(idx, cand) =>
       let score := _calculate_score cand body_type in
       let notes := _generate_notes cand body_type in
       scored
       ++ [{| outfit_id := ("outfit_" ++ str_of_nat (idx + 1))%string;
              items := cand; compatibility_score := score; style_notes := notes |}])
    (combine (seq 0 (List.length candidates)) candidates) [].

(** The result is the tuple (outfits, log messages, identifiers of the items
    that passed the filters). *)
Definition generate_outfits (set_order : list string -> list string)
  (body_type : BodyType.t) (occasion : OccasionType.t)
  (inventory : list ClothingItem) (max_outfits : Z)
  : result (list Outfit * list string * list string) :=
  (* Stage 1: occasion filter *)
  match filter_by_occasion set_order [] inventory occasion with
  | Raise e => Raise e
  | Ok (occ_filtered, log_messages) =>
      (* Stage 2: user rules *)
      let '(final_items, log_messages) :=
        filter_by_user_rules log_messages occ_filtered body_type in
      let log_messages :=
        log_messages
        ++ [("> Final item pool has " ++ str_of_nat (List.length final_items)
             ++ " items.")%string] in
      (* categorize *)
      let tops :=
        filter (fun i => ItemCategory.eqb (category i) ItemCategory.TOP) final_items in
      let bottoms :=
        filter (fun i => ItemCategory.eqb (category i) ItemCategory.BOTTOM)
          final_items in
      let dresses :=
        filter (fun i => ItemCategory.eqb (category i) ItemCategory.DRESS)
          final_items in
      (* generate candidates *)
      let candidates := build_candidates tops bottoms dresses in
      let log_messages :=
        log_messages
        ++ [("> Generated " ++ str_of_nat (List.length candidates)
             ++ " candidate outfits.")%string] in
      if negb (truthy candidates) then
        Ok ([], log_messages, map item_id final_items)
      else
        (* score candidates *)
        let scored := score_candidates candidates body_type in
        (* sort by score desc *)
        let scored := sort_by_key_desc compatibility_score scored in
        let top := py_slice_to scored max_outfits in
        let log_messages :=
          log_messages
          ++ [("> Returning top " ++ str_of_nat (List.length top)
               ++ " outfits.")%string] in
        Ok (top, log_messages, map item_id final_items)
  end.

(** ** Sample inventory loader *)

(** The keyword arguments of one entry of [inventory_data]; none has the key
    [img]. *)
Definition ItemData : Type :=
  (string * string * string * string * string * list string * string)%type.

Definition inventory_data : list ItemData :=
  [("1", "top", "Fitted Blouse", "fitted", "solid", ["business"; "casual"], "#3B82F6");
   ("2", "top", "Bold Pattern Top", "fitted", "bold", ["casual"; "party"], "#F59E0B");
   ("3", "top", "Shapeless Sweater", "shapeless", "solid", ["casual"], "#9CA3AF");
   ("4", "top", "Structured Blazer", "structured", "solid", ["business"], "#1F2937");
   ("5", "top", "V-Neck Top", "fitted", "solid", ["casual"; "business"], "#10B981");
   ("11", "bottom", "Skinny Jeans", "skinny", "solid", ["casual"; "party"], "#6B7280");
   ("12", "bottom", "Boot-cut Trousers", "boot-cut", "solid", ["casual"; "business"],
    "#4B5563");
   ("13", "bottom", "A-Line Skirt", "a-line", "bold", ["casual"; "party"], "#EC4899");
   ("14", "bottom", "Wide-Leg Pants", "wide-leg", "solid", ["business"; "party"],
    "#064E3B");
   ("15", "bottom", "Straight Trousers", "straight", "solid", ["business"], "#374151");
   ("21", "dress", "A-Line Dress", "a-line", "bold", ["casual"; "party"], "#8B5CF6");
   ("22", "dress", "Sheath Dress", "fitted", "solid", ["business"; "party"], "#EF4444")].

(** The comprehension that builds a [ClothingItem] from the keyword arguments
    of each entry: the first constructor that raises ends it. *)
Fixpoint construct_all (data : list ItemData) : result (list ClothingItem) :=
  match data with
  | [] => Ok []
  | (item_id, category, subcategory, fit, pattern, tags, color) :: rest =>
      match new_item item_id category subcategory fit pattern tags color None with
      | Raise e => Raise e
      | Ok item =>
          match construct_all rest with
          | Raise e => Raise e
          | Ok items => Ok (item :: items)
          end
      end
  end.

Definition load_inventory : result (list ClothingItem) := construct_all inventory_data.

(** ** The specification's reading *)

(** The item is tagged for the occasion. *)
Definition tagged (occasion : OccasionType.t) (item : ClothingItem) : Prop :=
  In (OccasionType.value occasion) (tags item).

(** The item is removed by the rules of the body type. *)
Definition rule_removes (body_type : BodyType.t) (item : ClothingItem) : Prop :=
  (body_type = BodyType.TRIANGLE
   /\ ((category item = ItemCategory.BOTTOM /\ fit item = FitType.SKINNY)
       \/ (category item = ItemCategory.TOP /\ fit item = FitType.SHAPELESS)))
  \/ (body_type = BodyType.INVERTED_TRIANGLE
      /\ category item = ItemCategory.TOP /\ pattern item = "bold")
  \/ (body_type = BodyType.RECTANGLE
      /\ category item = ItemCategory.DRESS /\ fit item <> FitType.A_LINE).

(** The items that pass both stages, as a boolean test. *)
Definition passes (body_type : BodyType.t) (occasion : OccasionType.t)
  (item : ClothingItem) : bool :=
  py_in String.eqb (OccasionType.value occasion) (tags item)
  && fst (user_rule body_type item).

Definition of_category (c : ItemCategory.t) (item : ClothingItem) : bool :=
  ItemCategory.eqb (category item) c.

(** A candidate: a top and a bottom, or a dress, among [pool]. *)
Definition candidate_of (pool : list ClothingItem) (cand : list ClothingItem) : Prop :=
  (exists t b, cand = [t; b] /\ In t pool /\ In b pool
               /\ category t = ItemCategory.TOP /\ category b = ItemCategory.BOTTOM)
  \/ (exists d, cand = [d] /\ In d pool /\ category d = ItemCategory.DRESS).

(** The length of [l[:k]] for a list of [n] elements. *)
Definition slice_length (n : nat) (k : Z) : nat :=
  if (k <? 0)%Z then Z.to_nat (Z.max 0 (Z.of_nat n + k))
  else Nat.min (Z.to_nat k) n.

(** [a] comes before [b] in a list sorted by descending key. *)
Definition app_score_ge (a b : Outfit) : Prop :=
  (compatibility_score b <=? compatibility_score a)%float = true.

(** The outfits whose score equals that of [o]. *)
Definition same_score (o o' : Outfit) : bool :=
  (compatibility_score o' =? compatibility_score o)%float.

(** The items that pass both stages. *)
Definition pool (body_type : BodyType.t) (occasion : OccasionType.t)
  (inventory : list ClothingItem) : list ClothingItem :=
  filter (passes body_type occasion) inventory.

(** Every top with every bottom, then every dress. *)
Definition pairings (tops bottoms dresses : list ClothingItem)
  : list (list ClothingItem) :=
  map (fun '(t, b) => [t; b]) (list_prod tops bottoms) ++ map (fun d => [d]) dresses.

(** The candidates of a pool of items. *)
Definition candidates_of (items : list ClothingItem) : list (list ClothingItem) :=
  pairings (filter (of_category ItemCategory.TOP) items)
           (filter (of_category ItemCategory.BOTTOM) items)
           (filter (of_category ItemCategory.DRESS) items).

(** A score between 0 and 1. *)
Definition unit_score (s : float) : Prop :=
  (0 <=? s)%float = true /\ (s <=? 1)%float = true.

(** The identifier of an item is shared with no other item of the list. *)
Definition distinct_ids (items : list ClothingItem) : Prop :=
  NoDup (map item_id items).

(** The tests of the two filters. *)
Definition tagged_b (occasion : OccasionType.t) (item : ClothingItem) : bool :=
  py_in String.eqb (OccasionType.value occasion) (tags item).

Definition kept_b (body_type : BodyType.t) (item : ClothingItem) : bool :=
  fst (user_rule body_type item).

(** The outfit made of the candidate [snd p], whose index is [fst p]. *)
Definition outfit_at (body_type : BodyType.t) (p : nat * list ClothingItem) : Outfit :=
  {| outfit_id := ("outfit_" ++ str_of_nat (fst p + 1))%string;
     items := snd p;
     compatibility_score := _calculate_score (snd p) body_type;
     style_notes := _generate_notes (snd p) body_type |}.

(** The candidates scored, in the order they were built. *)
Definition scored_of (body_type : BodyType.t) (candidates : list (list ClothingItem))
  : list Outfit :=
  map (outfit_at body_type) (combine (seq 0 (List.length candidates)) candidates).

(** The fits that earn a dress the bonus of the body type. *)
Definition suits (body_type : BodyType.t) (f : FitType.t) : bool :=
  match body_type with
  | BodyType.TRIANGLE => py_in FitType.eqb f [FitType.FITTED; FitType.STRUCTURED]
  | BodyType.INVERTED_TRIANGLE => py_in FitType.eqb f [FitType.A_LINE; FitType.WIDE_LEG]
  | BodyType.RECTANGLE => FitType.eqb f FitType.A_LINE
  | BodyType.NONE => false
  end.

(** The score without any bonus and with both penalties. *)
Definition lowest_score : float := (0.6 - 0.12 - 0.08)%float.

(** An item reduced to what [_calculate_score] reads of it. *)
Definition feature_item (c : ItemCategory.t) (f : FitType.t) (bold : bool)
  (color : string) : ClothingItem :=
  {| item_id := EmptyString; category := c; subcategory := EmptyString; fit := f;
     pattern := if bold then "bold" else "solid"; tags := []; color := color;
     img := EmptyString |}.

Definition body_types : list BodyType.t :=
  [BodyType.TRIANGLE; BodyType.RECTANGLE; BodyType.INVERTED_TRIANGLE; BodyType.NONE].

Definition fits : list FitType.t :=
  [FitType.FITTED; FitType.STRUCTURED; FitType.RELAXED; FitType.SKINNY;
   FitType.STRAIGHT; FitType.BOOT_CUT; FitType.A_LINE; FitType.SHAPELESS;
   FitType.WIDE_LEG].

(** The sheath dress of the inventory, with an image of its own. *)
Definition pictured_dress : ClothingItem :=
  {| item_id := "22"; category := ItemCategory.DRESS; subcategory := "Sheath Dress";
     fit := FitType.FITTED; pattern := "solid"; tags := ["business"; "party"];
     color := "#EF4444"; img := "sheath.png" |}.

(** The inventory of [load_inventory]. *)
Definition sample_inventory : list ClothingItem :=
  match load_inventory with
  | Ok items => items
  | Raise _ => []
  end.

End App.

(* ================================================================== *)
(** * The order of floating-point numbers *)
(* ================================================================== *)

(** Every binary64 number but NaN has a rank in a lexicographic order of
    triples of integers; the comparisons of floats compare the ranks. *)
Module FloatOrder.

Definition rank (f : spec_float) : option (Z * Z * Z) :=
  match f with
  | S754_nan => None
  | S754_infinity true => Some (-2, 0, 0)%Z
  | S754_infinity false => Some (2, 0, 0)%Z
  | S754_zero _ => Some (0, 0, 0)%Z
  | S754_finite true m e => Some (-1, Z.opp e, Z.neg m)%Z
  | S754_finite false m e => Some (1, e, Z.pos m)%Z
  end.

Definition lex_compare (a b : Z * Z * Z) : comparison :=
  let '(a1, a2, a3) := a in
  let '(b1, b2, b3) := b in
  match (a1 ?= b1)%Z with
  | Eq => match (a2 ?= b2)%Z with
          | Eq => (a3 ?= b3)%Z
          | c => c
          end
  | c => c
  end.

Definition lex_lt (a b : Z * Z * Z) : Prop :=
  let '(a1, a2, a3) := a in
  let '(b1, b2, b3) := b in
  (a1 < b1 \/ (a1 = b1 /\ (a2 < b2 \/ (a2 = b2 /\ a3 < b3))))%Z.

(** [x] is a number: not NaN. *)
Definition number (x : float) : Prop := (x =? x)%float = true.

End FloatOrder.

(* ================================================================== *)
(** * Built-ins: membership, sets, filtering loops *)
(* ================================================================== *)

Section Membership.
Context {A : Type} (eqb : A -> A -> bool).
Hypothesis eqb_eq : forall x y, eqb x y = true <-> x = y.

Lemma py_in_true (x : A) (l : list A) : py_in eqb x l = true <-> In x l.
Proof.
  unfold py_in. rewrite existsb_exists. split.
  - intros [y [Hy Hxy]]. apply eqb_eq in Hxy. now subst.
  - intros H. exists x. split; [assumption | now apply eqb_eq].
Qed.

Lemma py_in_false (x : A) (l : list A) : py_in eqb x l = false <-> ~ In x l.
Proof.
  rewrite <- py_in_true. destruct (py_in eqb x l); split; congruence.
Qed.

End Membership.

Lemma FitType_eqb_eq (a b : FitType.t) : FitType.eqb a b = true <-> a = b.
Proof. destruct a, b; simpl; split; intros H; (reflexivity || discriminate H). Qed.

Lemma Color_eqb_eq (a b : Color.t) : Color.eqb a b = true <-> a = b.
Proof. destruct a, b; simpl; split; intros H; (reflexivity || discriminate H). Qed.

Lemma ItemCategory_eqb_eq (a b : ItemCategory.t) : ItemCategory.eqb a b = true <-> a = b.
Proof. destruct a, b; simpl; split; intros H; (reflexivity || discriminate H). Qed.

Section SetOfList.
Context {A : Type} (dec : forall x y : A, {x = y} + {x <> y}).

Lemma set_add_loop (l : list A) : forall s : set A,
  NoDup s ->
  NoDup (fold_left (fun s x => set_add dec x s) l s)
  /\ forall x, In x (fold_left (fun s x => set_add dec x s) l s) <-> In x s \/ In x l.
Proof.
  induction l as [|a l IH]; intros s Hs; simpl.
  - split; [assumption | intros x; tauto].
  - destruct (IH (set_add dec a s)) as [Hnd Hin].
    + now apply set_add_nodup.
    + split; [assumption |].
      intros x. rewrite Hin. rewrite set_add_iff. intuition.
Qed.

Lemma py_set_NoDup (l : list A) : NoDup (py_set dec l).
Proof. apply set_add_loop. constructor. Qed.

Lemma py_set_In (l : list A) (x : A) : In x (py_set dec l) <-> In x l.
Proof.
  unfold py_set. rewrite (proj2 (set_add_loop l (empty_set A) (NoDup_nil A))).
  simpl. tauto.
Qed.

(** [len(set(xs))] is the number of distinct members of [xs]. *)
Lemma py_set_length (l : list A) :
  List.length (py_set dec l) = List.length (nodup dec l).
Proof.
  apply Permutation_length, NoDup_Permutation.
  - apply py_set_NoDup.
  - apply NoDup_nodup.
  - intros x. rewrite py_set_In, nodup_In. tauto.
Qed.

End SetOfList.

(** The loop [acc = []; for x in l: if p(x): acc.append(x)] is [filter]. *)
Lemma append_loop_filter {A : Type} (p : A -> bool) (l : list A) : forall acc,
  fold_left (fun acc x => if p x then acc ++ [x] else acc) l acc = acc ++ filter p l.
Proof.
  induction l as [|a l IH]; intros acc; simpl.
  - now rewrite app_nil_r.
  - rewrite IH. destruct (p a); [| reflexivity].
    now rewrite <- app_assoc.
Qed.

Lemma filter_idempotent {A : Type} (p : A -> bool) (l : list A) :
  filter p (filter p l) = filter p l.
Proof.
  induction l as [|a l IH]; simpl; [reflexivity |].
  destruct (p a) eqn:E; simpl; [rewrite E, IH |]; auto.
Qed.

(* ================================================================== *)
(** * The rule engine's filters *)
(* ================================================================== *)

Module RuleEngineFacts.
Import RuleEngine ItemCategory.

Lemma filter_by_body_type_filter (items : list ClothingItem) (b : BodyType.t) :
  filter_by_body_type items b
  = filter (fun item => _is_item_compatible item (body_type_rules_get b)) items.
Proof. unfold filter_by_body_type. now rewrite append_loop_filter. Qed.

Lemma filter_by_occasion_filter (items : list ClothingItem) (occasion : OccasionInfo) :
  filter_by_occasion items occasion
  = filter (fun item =>
              _is_item_occasion_compatible item
                (occasion_rules_get (occasion_type occasion)) occasion) items.
Proof. unfold filter_by_occasion. now rewrite append_loop_filter. Qed.

(** Decide the tests on a category that is known. *)
Ltac decide_categories :=
  repeat match goal with
    | |- context [py_in ItemCategory.eqb ?x ?l] =>
        let v := eval compute in (py_in ItemCategory.eqb x l) in
        change (py_in ItemCategory.eqb x l) with v
    end.

(** Turn every membership test of the goal into a hypothesis on [In]. *)
Ltac split_memberships :=
  repeat match goal with
    | |- context [py_in FitType.eqb ?x ?l] =>
        let E := fresh "E" in
        destruct (py_in FitType.eqb x l) eqn:E;
        [apply (py_in_true _ FitType_eqb_eq) in E
        | apply (py_in_false _ FitType_eqb_eq) in E]
    | |- context [py_in Color.eqb ?x ?l] =>
        let E := fresh "E" in
        destruct (py_in Color.eqb x l) eqn:E;
        [apply (py_in_true _ Color_eqb_eq) in E
        | apply (py_in_false _ Color_eqb_eq) in E]
    | |- context [py_in String.eqb ?x ?l] =>
        let E := fresh "E" in
        destruct (py_in String.eqb x l) eqn:E;
        [apply (py_in_true _ String.eqb_eq) in E
        | apply (py_in_false _ String.eqb_eq) in E]
    | |- context [String.eqb ?x ?y] =>
        let E := fresh "E" in
        destruct (String.eqb x y) eqn:E;
        [apply String.eqb_eq in E | apply String.eqb_neq in E]
    end.

Lemma _is_item_compatible_keeps (b : BodyType.t) (item : ClothingItem) :
  _is_item_compatible item (body_type_rules_get b) = true <-> Spec.body_type_keeps b item.
Proof.
  unfold _is_item_compatible, Spec.body_type_keeps, body_type_rules_get,
    Spec.avoid_list, Spec.permitted_fits, Spec.recommended_color_set,
    Spec.permitted_weights.
  destruct b; cbn [_load_body_type_rules no_body_rules avoid_fits top_fit bottom_fit
                     recommended_colors fabric_weight];
    destruct (category item) eqn:C; cbn -[In py_in];
    decide_categories; cbn -[In py_in];
    split_memberships; cbn -[In py_in];
    intuition (discriminate || congruence || auto).
Qed.

Lemma _is_item_occasion_compatible_keeps (occasion : OccasionInfo) (item : ClothingItem) :
  _is_item_occasion_compatible item (occasion_rules_get (occasion_type occasion)) occasion
  = true <-> Spec.occasion_keeps occasion item.
Proof.
  unfold _is_item_occasion_compatible, Spec.occasion_keeps, occasion_rules_get,
    Spec.allowed_fits_of, Spec.weather_and_formality_ok, Spec.subcategory_whitelist.
  destruct (occasion_type occasion) eqn:O;
    cbn [_load_occasion_rules no_occasion_rules allowed_fits];
    destruct (weather occasion) eqn:W; destruct (category item) eqn:C;
    cbn -[In py_in]; split_memberships; cbn -[In py_in];
    intuition (discriminate || congruence || auto).
Qed.

End RuleEngineFacts.

(* ================================================================== *)
(** * Body-type and occasion filtering *)
(* ================================================================== *)

(** C2, as amended. [filter_by_body_type] keeps, in order, exactly the items
    that pass [_is_item_compatible], and an item passes iff it has no role
    (shoes, accessory), or its fit is not in the avoid-list of its role, its
    fit is in the permitted-fit list of its role, its color is in the
    recommended colors of its role, and its fabric weight is in the permitted
    weights of its role, each when the table specifies it; top, dress and
    outerwear share the top role, except that outerwear is exempt from the
    fabric-weight check; a body type without a table entry keeps every item. *)
Theorem filter_by_body_type_keeps : forall (items : list ClothingItem) (b : BodyType.t),
  RuleEngine.filter_by_body_type items b
  = filter (fun item =>
              RuleEngine._is_item_compatible item (RuleEngine.body_type_rules_get b))
           items
  /\ (forall item,
        RuleEngine._is_item_compatible item (RuleEngine.body_type_rules_get b) = true
        <-> Spec.body_type_keeps b item)
  /\ RuleEngine.filter_by_body_type items BodyType.HOURGLASS = items
  /\ RuleEngine.filter_by_body_type items BodyType.OVAL = items.
Proof.
  intros items b. split; [apply RuleEngineFacts.filter_by_body_type_filter |].
  split; [intros item; apply RuleEngineFacts._is_item_compatible_keeps |].
  split; rewrite RuleEngineFacts.filter_by_body_type_filter;
    (induction items as [|a l IH]; simpl; [reflexivity |];
     unfold RuleEngine._is_item_compatible at 1; simpl;
     rewrite !andb_false_r; simpl; now rewrite IH).
Qed.

(** C2, counterexample. A heavy outerwear item whose fit and color suit the
    triangle table is kept, although "heavy" is not a permitted top-role
    weight for the triangle body type. *)
Lemma filter_by_body_type_keeps_heavy_outerwear :
  RuleEngine.filter_by_body_type [Sample.heavy_coat] BodyType.TRIANGLE
  = [Sample.heavy_coat]
  /\ ~ Spec.body_type_keeps_claimed BodyType.TRIANGLE Sample.heavy_coat.
Proof.
  split; [reflexivity |].
  unfold Spec.body_type_keeps_claimed. cbn.
  intros [_ [_ [_ [H | [H | []]]]]]; discriminate H.
Qed.

(** C3, as amended. [filter_by_occasion] keeps, in order, exactly the items
    that pass [_is_item_occasion_compatible], and an item passes iff its fit
    is in the occasion's allowed-fits list when the occasion table has an
    entry for the occasion (formal and glamorous have none), its weight is
    not heavy in hot weather, not light in cold weather, and, for the
    business occasion only, a top's subcategory is one of "shirt", "blouse",
    "button-down". *)
Theorem filter_by_occasion_keeps : forall (items : list ClothingItem) (occasion : OccasionInfo),
  RuleEngine.filter_by_occasion items occasion
  = filter (fun item =>
              RuleEngine._is_item_occasion_compatible item
                (RuleEngine.occasion_rules_get (occasion_type occasion)) occasion)
           items
  /\ (forall item,
        RuleEngine._is_item_occasion_compatible item
          (RuleEngine.occasion_rules_get (occasion_type occasion)) occasion = true
        <-> Spec.occasion_keeps occasion item)
  /\ Spec.allowed_fits_of OccasionType.FORMAL = None
  /\ Spec.allowed_fits_of OccasionType.GLAMOROUS = None.
Proof.
  intros items occasion.
  split; [apply RuleEngineFacts.filter_by_occasion_filter |].
  split; [intros item; apply RuleEngineFacts._is_item_occasion_compatible_keeps |].
  split; reflexivity.
Qed.

(** C3, counterexample. For the formal occasion, which has no entry in the
    occasion table, a dress is kept although there is no allowed-fits list
    for its fit to be in. *)
Lemma filter_by_occasion_keeps_without_list :
  RuleEngine.filter_by_occasion [Sample.gown] Sample.formal_evening = [Sample.gown]
  /\ ~ Spec.occasion_keeps_claimed Sample.formal_evening Sample.gown.
Proof.
  split; [reflexivity |].
  unfold Spec.occasion_keeps_claimed. cbn. intros [[] _].
Qed.

(** C9. Both filters are idempotent: filtering the output of a filter again,
    with the same body type (resp. the same occasion), returns it unchanged. *)
Theorem filters_idempotent :
  forall (items : list ClothingItem) (b : BodyType.t) (occasion : OccasionInfo),
  RuleEngine.filter_by_body_type (RuleEngine.filter_by_body_type items b) b
  = RuleEngine.filter_by_body_type items b
  /\ RuleEngine.filter_by_occasion (RuleEngine.filter_by_occasion items occasion) occasion
     = RuleEngine.filter_by_occasion items occasion.
Proof.
  intros items b occasion. split.
  - rewrite !RuleEngineFacts.filter_by_body_type_filter. apply filter_idempotent.
  - rewrite !RuleEngineFacts.filter_by_occasion_filter. apply filter_idempotent.
Qed.

(* ================================================================== *)
(** * Scores *)
(* ================================================================== *)

Module ScoreFacts.
Import RuleEngine OutfitGenerator.

(** Counting distinct members commutes with an injective renaming. *)
Lemma nodup_map_length {A B : Type}
  (decA : forall x y : A, {x = y} + {x <> y})
  (decB : forall x y : B, {x = y} + {x <> y}) (f : A -> B) (l : list A) :
  (forall x y, f x = f y -> x = y) ->
  List.length (nodup decB (map f l)) = List.length (nodup decA l).
Proof.
  intros Hinj. rewrite <- (length_map f (nodup decA l)).
  apply Permutation_length, NoDup_Permutation.
  - apply NoDup_nodup.
  - apply Injective_map_NoDup; [exact Hinj | apply NoDup_nodup].
  - intros y. rewrite nodup_In, !in_map_iff.
    split; intros [x [Hx Hin]]; exists x; split; trivial;
      [apply nodup_In | apply nodup_In in Hin]; assumption.
Qed.

Lemma Color_value_inj (a b : Color.t) : Color.value a = Color.value b -> a = b.
Proof. destruct a, b; simpl; intros H; (reflexivity || discriminate H). Qed.

Lemma ItemCategory_value_inj (a b : ItemCategory.t) :
  ItemCategory.value a = ItemCategory.value b -> a = b.
Proof. destruct a, b; simpl; intros H; (reflexivity || discriminate H). Qed.

Lemma render_inj (a b : Spec.token) : Spec.render a = Spec.render b -> a = b.
Proof.
  destruct a as [p | c | c], b as [q | d | d]; simpl; intros H;
    try discriminate H; inversion H as [H'].
  - reflexivity.
  - now rewrite (Color_value_inj _ _ H').
  - now rewrite (ItemCategory_value_inj _ _ H').
Qed.

(** ** The set of elements *)

Lemma add_elements_tokens (item : ClothingItem) (s : set string) :
  add_elements s item
  = fold_left (fun s x => set_add string_dec x s)
      (map Spec.render (Spec.item_tokens item)) s.
Proof.
  unfold add_elements, Spec.item_tokens, truthy_str, format_opt.
  destruct (pattern item) as [p |].
  - destruct (string_dec p EmptyString) as [-> | Hp].
    + destruct (color item); reflexivity.
    + apply String.eqb_neq in Hp. rewrite Hp.
      destruct (color item); reflexivity.
  - destruct (color item); reflexivity.
Qed.

Lemma elements_loop_tokens (outfit : list ClothingItem) : forall s : set string,
  fold_left add_elements outfit s
  = fold_left (fun s x => set_add string_dec x s)
      (map Spec.render (flat_map Spec.item_tokens outfit)) s.
Proof.
  induction outfit as [|item outfit IH]; intros s; simpl; [reflexivity |].
  rewrite IH, add_elements_tokens, map_app, fold_left_app. reflexivity.
Qed.

Lemma elements_length (outfit : list ClothingItem) :
  List.length (fold_left add_elements outfit (empty_set string))
  = List.length (Spec.distinguishing_elements outfit).
Proof.
  rewrite elements_loop_tokens.
  change (fold_left _ ?l (empty_set string)) with (py_set string_dec l).
  rewrite py_set_length. apply nodup_map_length, render_inj.
Qed.

(** ** Volumes *)

(** The volume the code computes and the volume as an exact decimal depend on
    the item through its two adjustments only. *)
Lemma _estimate_volume_shifts (item : ClothingItem) (user : UserInfo) :
  _estimate_volume item user
  = _estimate_volume
      (Spec.shifted_item (Spec.fit_shift (fit item)) (Spec.weight_shift (weight item)))
      user.
Proof.
  unfold _estimate_volume, Spec.fit_shift, Spec.weight_shift.
  destruct (fit item); cbn [py_in existsb FitType.eqb orb];
    destruct (String.eqb (weight item) "heavy");
    destruct (String.eqb (weight item) "light"); reflexivity.
Qed.

Lemma weight_adjustment_shift (w : string) :
  Spec.weight_adjustment w
  = Spec.weight_adjustment
      (match Spec.weight_shift w with
       | Spec.Up => "heavy" | Spec.Down => "light" | Spec.Level => "medium"
       end).
Proof.
  unfold Spec.weight_adjustment, Spec.weight_shift.
  destruct (string_dec w "heavy") as [-> | Hh]; [reflexivity |].
  apply String.eqb_neq in Hh. rewrite Hh.
  destruct (string_dec w "light") as [-> | Hl]; [reflexivity |].
  apply String.eqb_neq in Hl. rewrite Hl. reflexivity.
Qed.

Lemma volume_shifts (item : ClothingItem) :
  Spec.volume item
  = Spec.volume
      (Spec.shifted_item (Spec.fit_shift (fit item)) (Spec.weight_shift (weight item))).
Proof.
  unfold Spec.volume. rewrite weight_adjustment_shift.
  unfold Spec.shifted_item. cbn [fit weight].
  destruct (fit item); reflexivity.
Qed.

Lemma shifts_all (x : Spec.shift) : In x Spec.shifts.
Proof. destruct x; cbn; tauto. Qed.

(** The tests of the code against the tests on exact decimals, for every
    pair of adjustments of a top-role item and a bottom. *)
Lemma balance_checked (user : UserInfo) :
  forallb (fun ft => forallb (fun wt => forallb (fun fb => forallb (fun wb =>
    let t := Spec.shifted_item ft wt in
    let b := Spec.shifted_item fb wb in
    Bool.eqb (Spec.exceeds (Spec.volume t) 0.7) (0.7 <? _estimate_volume t user)%float
    && (Qeq_bool (Qabs (Spec.volume t - Spec.volume b)) 0.3
        || Bool.eqb (Spec.exceeds (Qabs (Spec.volume t - Spec.volume b)) 0.3)
             (0.3 <? abs (_estimate_volume t user - _estimate_volume b user))%float))
    Spec.shifts) Spec.shifts) Spec.shifts) Spec.shifts
  = true.
Proof. vm_compute. reflexivity. Qed.

Lemma balance_agrees (t b : ClothingItem) (user : UserInfo) :
  Spec.exceeds (Spec.volume t) 0.7 = (0.7 <? _estimate_volume t user)%float
  /\ (Qeq_bool (Qabs (Spec.volume t - Spec.volume b)) 0.3 = false ->
      Spec.exceeds (Qabs (Spec.volume t - Spec.volume b)) 0.3
      = (0.3 <? abs (_estimate_volume t user - _estimate_volume b user))%float).
Proof.
  rewrite (_estimate_volume_shifts t), (_estimate_volume_shifts b),
    (volume_shifts t), (volume_shifts b).
  pose proof (balance_checked user) as H.
  rewrite forallb_forall in H. specialize (H _ (shifts_all (Spec.fit_shift (fit t)))).
  rewrite forallb_forall in H.
  specialize (H _ (shifts_all (Spec.weight_shift (weight t)))).
  rewrite forallb_forall in H. specialize (H _ (shifts_all (Spec.fit_shift (fit b)))).
  rewrite forallb_forall in H.
  specialize (H _ (shifts_all (Spec.weight_shift (weight b)))).
  cbv zeta in H. apply andb_prop in H. destruct H as [H1 H2].
  split; [now apply Bool.eqb_prop |].
  intros E. rewrite E in H2. now apply Bool.eqb_prop.
Qed.

Lemma find_filter {A : Type} (p : A -> bool) (l : list A) :
  find p l = hd_error (filter p l).
Proof.
  induction l as [|a l IH]; simpl; [reflexivity |].
  destruct (p a); [reflexivity | exact IH].
Qed.

Lemma tops_filter (outfit : list ClothingItem) :
  filter (fun item =>
            py_in ItemCategory.eqb (category item)
              [ItemCategory.TOP; ItemCategory.DRESS; ItemCategory.OUTERWEAR]) outfit
  = filter Spec.is_top_role outfit.
Proof.
  apply filter_ext. intros item. unfold Spec.is_top_role.
  destruct (category item); reflexivity.
Qed.

Lemma bottoms_filter (outfit : list ClothingItem) :
  filter (fun item => ItemCategory.eqb (category item) ItemCategory.BOTTOM) outfit
  = filter Spec.is_bottom outfit.
Proof.
  apply filter_ext. intros item. unfold Spec.is_bottom.
  destruct (category item); reflexivity.
Qed.

(** ** The proportion score *)

Lemma score_outfit_proportions_spec (outfit : list ClothingItem) (user : UserInfo) :
  Spec.on_boundary outfit = false ->
  score_outfit_proportions outfit user = Spec.proportion_score outfit.
Proof.
  unfold score_outfit_proportions, Spec.proportion_score, Spec.rule_of_three_factor,
    Spec.balance_factor, Spec.on_boundary.
  rewrite elements_length, tops_filter, bottoms_filter, !find_filter.
  destruct (filter Spec.is_top_role outfit) as [|t ts];
    destruct (filter Spec.is_bottom outfit) as [|b bs];
    cbn [hd_error]; intros Hb;
    try (destruct (List.length (Spec.distinguishing_elements outfit) <? 3)%nat;
         reflexivity).
  destruct (balance_agrees t b user) as [Ht Hd].
  destruct (balance_agrees b t user) as [Hb' _].
  rewrite (Hd Hb), Ht, Hb'.
  destruct (List.length (Spec.distinguishing_elements outfit) <? 3)%nat;
    destruct (0.7 <? _estimate_volume t user)%float;
    destruct (0.7 <? _estimate_volume b user)%float; cbn [andb]; try reflexivity;
    destruct (0.3 <? abs (_estimate_volume t user - _estimate_volume b user))%float;
    reflexivity.
Qed.

(** Membership in a list of float constants. *)
Ltac in_values := cbv [In]; repeat (first [left; reflexivity | right]).

Lemma score_outfit_proportions_values (outfit : list ClothingItem) (user : UserInfo) :
  In (score_outfit_proportions outfit user) Spec.rule_score_values.
Proof.
  unfold score_outfit_proportions, Spec.rule_score_values.
  rewrite tops_filter, bottoms_filter.
  destruct (List.length (fold_left add_elements outfit (empty_set string)) <? 3)%nat;
    destruct (filter Spec.is_top_role outfit) as [|t ts];
    destruct (filter Spec.is_bottom outfit) as [|b bs];
    try solve [in_values];
    destruct (0.7 <? _estimate_volume t user)%float;
    destruct (0.7 <? _estimate_volume b user)%float;
    cbn [andb]; try solve [in_values];
    destruct (0.3 <? abs (_estimate_volume t user - _estimate_volume b user))%float;
    in_values.
Qed.

(** ** The heuristic score *)

Lemma heuristic_spec (outfit : list ClothingItem) :
  _predict_ml_compatibility (map _item_to_dict outfit) = Spec.heuristic_by_items outfit.
Proof.
  unfold _predict_ml_compatibility, Spec.heuristic_by_items, Spec.formality_score,
    Spec.color_score, Spec.category_score_by_items, Spec.distinct_colors, Spec.mean3.
  rewrite !map_map, length_map. cbn [dict_color dict_formality_level _item_to_dict].
  rewrite py_set_length.
  rewrite <- (map_map color Color.value).
  rewrite (nodup_map_length color_eq_dec string_dec Color.value _ Color_value_inj).
  destruct outfit as [|item outfit]; [reflexivity |].
  cbn [map py_max_list py_min_list]. reflexivity.
Qed.

Lemma heuristic_values (outfit : list ClothingItem) (ml : float) :
  Spec.heuristic_by_items outfit = Ok ml -> In ml Spec.ml_score_values.
Proof.
  unfold Spec.heuristic_by_items, Spec.formality_score, Spec.color_score,
    Spec.category_score_by_items.
  destruct outfit as [|item outfit]; [discriminate |].
  cbn [map py_max_list py_min_list].
  intros H. injection H as <-.
  unfold Spec.distinct_colors.
  repeat match goal with
    | |- context [if ?c then _ else _] => destruct c
    end;
    unfold Spec.ml_score_values; cbn [flat_map map app]; in_values.
Qed.

Lemma heuristic_defined (outfit : list ClothingItem) :
  outfit <> [] -> exists ml, Spec.heuristic_by_items outfit = Ok ml.
Proof.
  unfold Spec.heuristic_by_items, Spec.formality_score.
  destruct outfit as [|item outfit]; [congruence |].
  cbn [map py_max_list py_min_list]. eauto.
Qed.

(** ** Compatibility scores *)

Lemma final_score_values (r m : float) :
  In r Spec.rule_score_values -> In m Spec.ml_score_values ->
  In (0.6 * r + 0.4 * m)%float Spec.score_values.
Proof.
  intros Hr Hm. unfold Spec.score_values. apply in_flat_map.
  exists r. split; [assumption |].
  apply in_map_iff. exists m. split; [reflexivity | assumption].
Qed.

Lemma score_values_in_bounds : forallb Spec.score_in_bounds Spec.score_values = true.
Proof. vm_compute. reflexivity. Qed.

End ScoreFacts.

(* ================================================================== *)
(** * The random source never makes the generator raise *)
(* ================================================================== *)

Module GenFacts.

Lemma ensures_ret {A : Type} (a : A) (P : A -> Prop) : P a -> ensures (ret a) P.
Proof. intros H g. exists a, g. split; [reflexivity | exact H]. Qed.

Lemma ensures_bind {A B : Type} (m : Gen A) (k : A -> Gen B)
  (P : A -> Prop) (Q : B -> Prop) :
  ensures m P -> (forall a, P a -> ensures (k a) Q) -> ensures (bind m k) Q.
Proof.
  intros Hm Hk g. destruct (Hm g) as [a [g' [E Pa]]].
  destruct (Hk a Pa g') as [b [g'' [E' Qb]]].
  exists b, g''. unfold bind. rewrite E. split; assumption.
Qed.

Lemma ensures_weaken {A : Type} (m : Gen A) (P Q : A -> Prop) :
  ensures m P -> (forall a, P a -> Q a) -> ensures m Q.
Proof.
  intros Hm HPQ g. destruct (Hm g) as [a [g' [E Pa]]].
  exists a, g'. split; [exact E | now apply HPQ].
Qed.

Lemma ensures_lift {A : Type} (a : A) (P : A -> Prop) : P a -> ensures (lift (Ok a)) P.
Proof. intros H g. exists a, g. split; [reflexivity | exact H]. Qed.

Lemma random_random_ok : ensures random_random (fun _ => True).
Proof. intros g. eexists. eexists. split; [reflexivity | exact I]. Qed.

Lemma randbelow_ok (n : nat) : (0 < n)%nat -> ensures (randbelow n) (fun i => (i < n)%nat).
Proof.
  intros Hn g. eexists. eexists. split; [reflexivity |].
  cbn beta.
  pose proof (Z.mod_pos_bound (g 0%nat) (Z.of_nat n) ltac:(lia)). lia.
Qed.

Lemma random_choice_ok {A : Type} (seq : list A) :
  truthy seq = true -> ensures (random_choice seq) (fun x => In x seq).
Proof.
  destruct seq as [|x seq]; [discriminate |]. intros _.
  unfold random_choice.
  apply ensures_bind with (P := fun i => (i < List.length (x :: seq))%nat).
  - apply randbelow_ok. simpl. lia.
  - intros i Hi. apply ensures_ret. now apply nth_In.
Qed.

Lemma random_randint_ok (a b : Z) :
  (a <= b)%Z -> ensures (random_randint a b) (fun n => (a <= n <= b)%Z).
Proof.
  intros Hab. unfold random_randint.
  destruct (b <? a)%Z eqn:E; [apply Z.ltb_lt in E; lia |].
  apply ensures_bind with (P := fun i => (i < Z.to_nat (b - a + 1))%nat).
  - apply randbelow_ok. lia.
  - intros i Hi. apply ensures_ret. lia.
Qed.

Lemma remove_nth_length {A : Type} (l : list A) : forall i,
  (i < List.length l)%nat -> List.length (remove_nth i l) = Nat.pred (List.length l).
Proof.
  induction l as [|x l IH]; intros i Hi; simpl in *; [lia |].
  destruct i as [|i]; [reflexivity |].
  simpl. rewrite IH by lia. destruct l; simpl in *; lia.
Qed.

Lemma sample_from_ok {A : Type} (k : nat) : forall pool : list A,
  (k <= List.length pool)%nat ->
  ensures (sample_from pool k) (fun l => List.length l = k).
Proof.
  induction k as [|k IH]; intros pool Hk; simpl.
  - now apply ensures_ret.
  - destruct pool as [|x pool]; [simpl in Hk; lia |].
    apply ensures_bind with (P := fun j => (j < List.length (x :: pool))%nat).
    + apply randbelow_ok. simpl. lia.
    + intros j Hj.
      apply ensures_bind with (P := fun l => List.length l = k).
      * apply IH. rewrite remove_nth_length by exact Hj. simpl in *. lia.
      * intros rest Hrest. apply ensures_ret. simpl. now rewrite Hrest.
Qed.

Lemma random_sample_ok {A : Type} (population : list A) (k : Z) :
  (0 <= k <= Z.of_nat (List.length population))%Z ->
  ensures (random_sample population k) (fun _ => True).
Proof.
  intros Hk. unfold random_sample.
  destruct (k <? 0)%Z eqn:E1; [apply Z.ltb_lt in E1; lia |].
  destruct (Z.of_nat (List.length population) <? k)%Z eqn:E2;
    [apply Z.ltb_lt in E2; lia |].
  cbn [orb].
  eapply ensures_weaken; [apply sample_from_ok; lia | trivial].
Qed.

(** Whatever the buckets and the draws, [_create_candidate_outfit] returns:
    every [random.choice] is guarded, and the sample size is within the
    bucket. *)
Lemma _create_candidate_outfit_ok (categorized_items : Buckets) (user : UserInfo) :
  ensures (OutfitGenerator._create_candidate_outfit categorized_items user)
    (fun _ => True).
Proof.
  unfold OutfitGenerator._create_candidate_outfit.
  eapply ensures_bind; [apply random_random_ok |]. intros r _.
  eapply ensures_bind with (P := fun _ => True).
  - destruct ((r <? 0.3)%float && truthy (dresses categorized_items)) eqn:E.
    + apply andb_prop in E. destruct E as [_ E].
      eapply ensures_bind; [apply (random_choice_ok _ E) |].
      intros; now apply ensures_ret.
    + destruct (truthy (tops categorized_items)) eqn:Et;
        destruct (truthy (bottoms categorized_items)) eqn:Eb; cbn [andb];
        try now apply ensures_ret.
      eapply ensures_bind; [apply (random_choice_ok _ Et) |]. intros top _.
      eapply ensures_bind; [apply (random_choice_ok _ Eb) |]. intros bottom _.
      now apply ensures_ret.
  - intros [candidate |] _; [| now apply ensures_ret].
    eapply ensures_bind with (P := fun _ => True).
    + destruct (truthy (outerwear categorized_items)) eqn:Eo;
        [| now apply ensures_ret].
      eapply ensures_bind; [apply random_random_ok |]. intros r' _.
      destruct (r' <? 0.4)%float; [| now apply ensures_ret].
      eapply ensures_bind; [apply (random_choice_ok _ Eo) |].
      intros; now apply ensures_ret.
    + intros candidate1 _.
      eapply ensures_bind with (P := fun _ => True).
      * destruct (truthy (shoes categorized_items)) eqn:Es;
          [| now apply ensures_ret].
        eapply ensures_bind; [apply (random_choice_ok _ Es) |].
        intros; now apply ensures_ret.
      * intros candidate2 _.
        eapply ensures_bind with (P := fun _ => True);
          [| intros; now apply ensures_ret].
        destruct (truthy (accessories categorized_items)) eqn:Ea;
          [| now apply ensures_ret].
        eapply ensures_bind; [apply (random_randint_ok 1 2); lia |].
        intros n Hn. cbn beta in Hn.
        eapply ensures_bind; [apply random_sample_ok; lia |].
        intros; now apply ensures_ret.
Qed.

End GenFacts.

(* ================================================================== *)
(** * The generation loop *)
(* ================================================================== *)

Module LoopFacts.
Import OutfitGenerator GenFacts.

Lemma has_category_of_mem (c : ItemCategory.t) (outfit : list ClothingItem) :
  set_mem category_eq_dec c (py_set category_eq_dec (map category outfit)) = true ->
  Spec.has_category c outfit.
Proof.
  intros H. apply set_mem_correct1 in H. apply py_set_In in H.
  apply in_map_iff in H. destruct H as [item [Hc Hin]].
  exists item. split; assumption.
Qed.

Lemma _is_valid_outfit_structure (outfit : list ClothingItem) (request : OutfitRequest) :
  _is_valid_outfit outfit request = true ->
  Spec.has_category ItemCategory.DRESS outfit
  \/ (Spec.has_category ItemCategory.TOP outfit
      /\ Spec.has_category ItemCategory.BOTTOM outfit).
Proof.
  unfold _is_valid_outfit.
  destruct (truthy outfit); cbn [negb]; [| discriminate].
  destruct (set_mem category_eq_dec ItemCategory.DRESS _) eqn:Ed.
  - intros _. left. now apply has_category_of_mem.
  - destruct (set_mem category_eq_dec ItemCategory.TOP _) eqn:Et;
      destruct (set_mem category_eq_dec ItemCategory.BOTTOM _) eqn:Eb;
      cbn [andb orb]; try discriminate.
    intros _. right. split; now apply has_category_of_mem.
Qed.

Lemma recorded_score_value (request : OutfitRequest) (o : Outfit) :
  Spec.recorded request o -> In (compatibility_score o) Spec.score_values.
Proof.
  intros [_ [ml [Hml ->]]].
  apply ScoreFacts.final_score_values.
  - apply ScoreFacts.score_outfit_proportions_values.
  - rewrite ScoreFacts.heuristic_spec in Hml.
    now apply ScoreFacts.heuristic_values with (outfit := items o).
Qed.

Lemma sequential_ids_snoc (n : nat) :
  Spec.sequential_ids (n + 1)
  = Spec.sequential_ids n ++ [("outfit_" ++ str_of_nat (n + 1))%string].
Proof.
  unfold Spec.sequential_ids.
  rewrite Nat.add_1_r, seq_S, map_app. reflexivity.
Qed.

(** One pass of the loop keeps the invariant and counts one attempt. *)
Lemma loop_body_invariant (request : OutfitRequest) (categorized_items : Buckets)
  (st : loop_state) :
  loop_cond request st = true ->
  Spec.loop_invariant request st ->
  ensures (loop_body request categorized_items st)
    (fun st' => Spec.loop_invariant request st' /\ attempt st' = S (attempt st)).
Proof.
  intros Hcond [Hrec [Hlen [Hids Hatt]]].
  unfold loop_cond in Hcond. apply andb_prop in Hcond. destruct Hcond as [Hc1 Hc2].
  apply Z.ltb_lt in Hc1. apply Nat.ltb_lt in Hc2.
  assert (Hkeep : forall A (a : A),
             ensures (ret {| outfits := outfits st; attempt := S (attempt st) |})
               (fun st' => Spec.loop_invariant request st'
                           /\ attempt st' = S (attempt st))).
  { intros. apply ensures_ret. unfold Spec.loop_invariant. cbn [outfits attempt].
    repeat split; trivial. }
  unfold loop_body.
  eapply ensures_bind; [apply _create_candidate_outfit_ok |].
  intros [candidate |] _; [| now apply (Hkeep unit tt)].
  destruct (truthy candidate && _is_valid_outfit candidate request) eqn:E;
    [| now apply (Hkeep unit tt)].
  apply andb_prop in E. destruct E as [Etruthy Evalid].
  destruct (ScoreFacts.heuristic_defined candidate) as [ml Hml].
  { destruct candidate; [discriminate | congruence]. }
  rewrite <- ScoreFacts.heuristic_spec in Hml.
  rewrite Hml.
  eapply ensures_bind; [apply (ensures_lift ml (fun x => x = ml)); reflexivity |].
  intros ml' ->. apply ensures_ret.
  unfold Spec.loop_invariant. cbn [outfits attempt].
  rewrite length_app. cbn [List.length].
  repeat split.
  - apply Forall_app. split; [assumption |].
    constructor; [| constructor].
    split; [exact Evalid |]. exists ml. split; [exact Hml | reflexivity].
  - lia.
  - rewrite map_app, Hids, sequential_ids_snoc. reflexivity.
  - lia.
Qed.

(** With fuel for the attempts that remain, the loop ends, in a state where
    its condition is false. *)
Lemma while_loop_invariant (request : OutfitRequest) (categorized_items : Buckets) :
  forall (fuel : nat) (st : loop_state),
  (max_generation_attempts - attempt st <= fuel)%nat ->
  Spec.loop_invariant request st ->
  ensures (while_loop fuel request categorized_items st)
    (fun st' => Spec.loop_invariant request st' /\ loop_cond request st' = false).
Proof.
  induction fuel as [|fuel IH]; intros st Hfuel Hinv;
    cbn [while_loop]; destruct (loop_cond request st) eqn:Hcond;
    try (apply ensures_ret; split; assumption).
  - exfalso. unfold loop_cond in Hcond. apply andb_prop in Hcond.
    destruct Hcond as [_ Hc]. apply Nat.ltb_lt in Hc. lia.
  - eapply ensures_bind; [apply (loop_body_invariant _ _ _ Hcond Hinv) |].
    intros st' [Hinv' Hatt]. apply IH; [lia | exact Hinv'].
Qed.

Lemma collect_outfits_invariant (fuel : nat) (request : OutfitRequest) :
  (max_generation_attempts <= fuel)%nat ->
  ensures (collect_outfits fuel request)
    (fun st => Spec.loop_invariant request st /\ loop_cond request st = false).
Proof.
  intros Hfuel. unfold collect_outfits. apply while_loop_invariant.
  - cbn [attempt]. lia.
  - unfold Spec.loop_invariant. cbn [outfits attempt List.length map].
    repeat split; [constructor | lia | lia].
Qed.

(** Without a dress, and without a top or without a bottom, an attempt
    produces no candidate. *)
Lemma loop_body_no_candidate (request : OutfitRequest) (categorized_items : Buckets)
  (st : loop_state) (g : rng) :
  dresses categorized_items = [] ->
  tops categorized_items = [] \/ bottoms categorized_items = [] ->
  loop_body request categorized_items st g
  = Ok ({| outfits := outfits st; attempt := S (attempt st) |}, rng_tail g).
Proof.
  intros Hd Htb.
  unfold loop_body, _create_candidate_outfit, random_random, draw.
  rewrite Hd. cbn [truthy]. unfold bind, ret. cbv beta iota.
  rewrite andb_false_r.
  destruct Htb as [-> | ->]; cbn [truthy andb]; [reflexivity |].
  rewrite andb_false_r. reflexivity.
Qed.

Lemma while_loop_no_candidate (request : OutfitRequest) (categorized_items : Buckets) :
  dresses categorized_items = [] ->
  tops categorized_items = [] \/ bottoms categorized_items = [] ->
  forall (fuel : nat) (st : loop_state) (g : rng),
  (max_generation_attempts - attempt st <= fuel)%nat ->
  (attempt st <= max_generation_attempts)%nat ->
  exists st' g',
    while_loop fuel request categorized_items st g = Ok (st', g')
    /\ outfits st' = outfits st
    /\ (attempt st' <= max_generation_attempts)%nat.
Proof.
  intros Hd Htb.
  induction fuel as [|fuel IH]; intros st g Hfuel Hatt;
    cbn [while_loop]; destruct (loop_cond request st) eqn:Hcond;
    try solve [exists st, g; repeat split; trivial].
  - exfalso. unfold loop_cond in Hcond. apply andb_prop in Hcond.
    destruct Hcond as [_ Hc]. apply Nat.ltb_lt in Hc. lia.
  - unfold loop_cond in Hcond. apply andb_prop in Hcond.
    destruct Hcond as [_ Hc]. apply Nat.ltb_lt in Hc.
    unfold bind. rewrite (loop_body_no_candidate _ _ _ _ Hd Htb).
    destruct (IH {| outfits := outfits st; attempt := S (attempt st) |} (rng_tail g))
      as [st' [g' [E [Ho Ha]]]]; cbn [attempt outfits]; try lia.
    exists st', g'. repeat split; assumption.
Qed.

Lemma py_slice_to_all {A : Type} (l : list A) (k : Z) :
  (Z.of_nat (List.length l) <= Z.max 0 k)%Z -> py_slice_to l k = l.
Proof.
  intros H. unfold py_slice_to. destruct (k <? 0)%Z eqn:E.
  - apply Z.ltb_lt in E. destruct l; [apply firstn_nil |].
    cbn [List.length] in H. lia.
  - apply Z.ltb_ge in E. apply firstn_all2. lia.
Qed.

End LoopFacts.

(* ================================================================== *)
(** * Sorting by score *)
(* ================================================================== *)

Section Sorting.
Import OutfitGenerator.

(** The scores that occur all lie in [V], on which the float comparisons
    behave as a total preorder. *)
Variable V : list float.
Hypothesis order_ok : forall x y z,
  In x V -> In y V -> In z V -> Spec.score_order_ok x y z = true.

Let scored (o : Outfit) : Prop := In (compatibility_score o) V.

Lemma order_facts (x y z : float) :
  In x V -> In y V -> In z V ->
  ((x <? y)%float = false -> (y <=? x)%float = true)
  /\ ((x <? y)%float = true -> (x <=? y)%float = true)
  /\ ((z <=? y)%float = true -> (y <=? x)%float = true -> (z <=? x)%float = true)
  /\ ((x <? y)%float = true -> (x =? z)%float = true -> (y =? z)%float = true -> False).
Proof.
  intros Hx Hy Hz. pose proof (order_ok x y z Hx Hy Hz) as H.
  unfold Spec.score_order_ok in H.
  repeat (apply andb_prop in H; destruct H as [H ?]).
  repeat split; intros.
  - rewrite H3 in H. exact H.
  - rewrite H3 in H2. exact H2.
  - rewrite H3, H4 in H1. exact H1.
  - rewrite H3, H4, H5 in H0. discriminate H0.
Qed.

Lemma insert_by_score_In (o a : Outfit) (l : list Outfit) :
  In a (insert_by_score o l) <-> a = o \/ In a l.
Proof.
  induction l as [|b l IH]; simpl; [intuition |].
  destruct (compatibility_score o <? compatibility_score b)%float; simpl.
  - rewrite IH. intuition.
  - intuition.
Qed.

Lemma insert_by_score_perm (o : Outfit) (l : list Outfit) :
  Permutation (insert_by_score o l) (o :: l).
Proof.
  induction l as [|b l IH]; simpl; [reflexivity |].
  destruct (compatibility_score o <? compatibility_score b)%float; [| reflexivity].
  rewrite IH. apply perm_swap.
Qed.

Lemma insert_by_score_sorted (o : Outfit) (l : list Outfit) :
  scored o -> Forall scored l ->
  StronglySorted Spec.score_ge l ->
  StronglySorted Spec.score_ge (insert_by_score o l).
Proof.
  intros Ho. induction l as [|b l IH]; intros Hl Hs; simpl.
  - repeat constructor.
  - inversion Hl as [|? ? Hb Hl']; subst. inversion Hs as [|? ? Hs' Hge]; subst.
    destruct (compatibility_score o <? compatibility_score b)%float eqn:E.
    + constructor; [now apply IH |].
      apply Forall_forall. intros a Ha. apply insert_by_score_In in Ha.
      destruct Ha as [-> | Ha].
      * unfold Spec.score_ge. now apply (order_facts _ _ _ Ho Hb Ho).
      * rewrite Forall_forall in Hge. now apply Hge.
    + constructor; [assumption |].
      assert (Hob : Spec.score_ge o b).
      { unfold Spec.score_ge. now apply (order_facts _ _ _ Ho Hb Ho). }
      constructor; [exact Hob |].
      apply Forall_forall. intros a Ha.
      rewrite Forall_forall in Hge, Hl'.
      unfold Spec.score_ge in *.
      apply (order_facts _ _ _ Ho Hb (Hl' a Ha)); [now apply Hge | exact Hob].
Qed.

Lemma sort_by_score_desc_perm (l : list Outfit) : Permutation (sort_by_score_desc l) l.
Proof.
  induction l as [|o l IH]; simpl; [reflexivity |].
  rewrite insert_by_score_perm. now constructor.
Qed.

Lemma sort_by_score_desc_scored (l : list Outfit) :
  Forall scored l -> Forall scored (sort_by_score_desc l).
Proof.
  intros H. rewrite Forall_forall in *. intros o Ho. apply H.
  now apply (Permutation_in _ (sort_by_score_desc_perm l)).
Qed.

Lemma sort_by_score_desc_sorted (l : list Outfit) :
  Forall scored l -> StronglySorted Spec.score_ge (sort_by_score_desc l).
Proof.
  induction l as [|o l IH]; intros H; simpl; [constructor |].
  inversion H; subst.
  apply insert_by_score_sorted; auto using sort_by_score_desc_scored.
Qed.

Lemma insert_by_score_filter (c o : Outfit) (l : list Outfit) :
  scored c -> scored o -> Forall scored l ->
  filter (Spec.same_score c) (insert_by_score o l)
  = filter (Spec.same_score c) (o :: l).
Proof.
  intros Hc Ho. induction l as [|b l IH]; intros Hl; [reflexivity |].
  inversion Hl as [|? ? Hb Hl']; subst. cbn [insert_by_score].
  destruct (compatibility_score o <? compatibility_score b)%float eqn:E;
    [| reflexivity].
  cbn [filter] in *. rewrite (IH Hl').
  destruct (Spec.same_score c b) eqn:Eb; destruct (Spec.same_score c o) eqn:Eo;
    try reflexivity.
  exfalso. unfold Spec.same_score in *.
  now apply (order_facts _ _ _ Ho Hb Hc).
Qed.

(** The sort keeps the outfits of any one score in their original order. *)
Lemma sort_by_score_desc_stable (c : Outfit) (l : list Outfit) :
  scored c -> Forall scored l ->
  filter (Spec.same_score c) (sort_by_score_desc l) = filter (Spec.same_score c) l.
Proof.
  intros Hc. induction l as [|o l IH]; intros Hl; [reflexivity |].
  inversion Hl; subst. cbn [sort_by_score_desc fold_right].
  rewrite insert_by_score_filter; auto using sort_by_score_desc_scored.
  cbn [filter]. fold (sort_by_score_desc l). rewrite IH by assumption. reflexivity.
Qed.

End Sorting.

Lemma score_values_order : forall x y z,
  In x Spec.score_values -> In y Spec.score_values -> In z Spec.score_values ->
  Spec.score_order_ok x y z = true.
Proof.
  assert (H : forallb (fun x =>
                forallb (fun y =>
                  forallb (Spec.score_order_ok x y) Spec.score_values)
                  Spec.score_values)
                Spec.score_values = true) by (vm_compute; reflexivity).
  intros x y z Hx Hy Hz.
  rewrite forallb_forall in H. specialize (H x Hx).
  rewrite forallb_forall in H. specialize (H y Hy).
  rewrite forallb_forall in H. exact (H z Hz).
Qed.

(* ================================================================== *)
(** * The generator's result *)
(* ================================================================== *)

Module GenerateFacts.
Import OutfitGenerator.

(** With fuel for [max_generation_attempts] passes, [generate_outfits]
    returns the sorted list of the outfits the loop collected: the final
    slice removes nothing. *)
Lemma generate_outfits_result (fuel : nat) (request : OutfitRequest) (g : rng) :
  (max_generation_attempts <= fuel)%nat ->
  exists st g',
    collect_outfits fuel request g = Ok (st, g')
    /\ Spec.loop_invariant request st
    /\ loop_cond request st = false
    /\ generate_outfits fuel request g = Ok (sort_by_score_desc (outfits st)).
Proof.
  intros Hfuel.
  destruct (LoopFacts.collect_outfits_invariant fuel request Hfuel g)
    as [st [g' [E [Hinv Hcond]]]].
  exists st, g'. split; [exact E |]. split; [exact Hinv |]. split; [exact Hcond |].
  unfold generate_outfits. rewrite E.
  rewrite LoopFacts.py_slice_to_all; [reflexivity |].
  rewrite (Permutation_length (sort_by_score_desc_perm (outfits st))).
  apply Hinv.
Qed.

Lemma recorded_scored (request : OutfitRequest) (l : list Outfit) :
  Forall (Spec.recorded request) l ->
  Forall (fun o => In (compatibility_score o) Spec.score_values) l.
Proof.
  intros H. eapply Forall_impl; [| exact H].
  intros o. apply LoopFacts.recorded_score_value.
Qed.

Lemma recorded_sorted (request : OutfitRequest) (l : list Outfit) :
  Forall (Spec.recorded request) l ->
  Forall (Spec.recorded request) (sort_by_score_desc l).
Proof.
  intros H. rewrite Forall_forall in *. intros o Ho. apply H.
  now apply (Permutation_in _ (sort_by_score_desc_perm l)).
Qed.

Lemma score_in_bounds_bounded (f : float) :
  Spec.score_in_bounds f = true -> Spec.score_bounded f.
Proof.
  unfold Spec.score_in_bounds, Spec.score_bounded. intros H.
  repeat (apply andb_prop in H; destruct H as [H ?]).
  destruct (Spec.float_to_Q f) as [q |]; [| discriminate].
  apply andb_prop in H0. destruct H0 as [Hlo Hhi].
  apply Qle_bool_iff in Hlo, Hhi.
  repeat split; try assumption. exists q. repeat split; assumption.
Qed.

Lemma rule_score_values_bound (r : float) :
  In r Spec.rule_score_values -> (0 <=? r)%float = true /\ (r <=? 1.2)%float = true.
Proof.
  assert (H : forallb (fun r => (0 <=? r)%float && (r <=? 1.2)%float)
                Spec.rule_score_values = true) by (vm_compute; reflexivity).
  intros Hr. rewrite forallb_forall in H. now apply andb_prop, H.
Qed.

Lemma ml_score_values_bound (m : float) :
  In m Spec.ml_score_values ->
  (0 <=? m)%float = true /\ (m <=? (0.9 + 0.9 + 0.8) / 3)%float = true.
Proof.
  assert (H : forallb (fun m => (0 <=? m)%float && (m <=? (0.9 + 0.9 + 0.8) / 3)%float)
                Spec.ml_score_values = true) by (vm_compute; reflexivity).
  intros Hm. rewrite forallb_forall in H. now apply andb_prop, H.
Qed.

End GenerateFacts.

(* ================================================================== *)
(** * Claims on scores and style notes *)
(* ================================================================== *)

(** C4, the code at the failing input. A relaxed top and a straight bottom,
    both of medium weight, have the volumes 0.8 and 0.5, which do not differ
    by more than 0.3: the claimed score is 1. [score_outfit_proportions]
    returns 1.2, because the binary64 difference of its two volumes is just
    above 0.3; for a fitted top (volume 0.2) and the same bottom, whose
    volumes differ by 0.3 as well, it returns 1. Wherever the two volumes do
    not differ by exactly 0.3 the code returns the claimed score: 1.0, times
    0.7 below 3 distinct elements, times 0.6, 1.2 or 1 by the volumes of the
    first top-role item and the first bottom. *)
Theorem score_outfit_proportions_boundary :
  (forall user,
     RuleEngine.score_outfit_proportions [Sample.blouse; Sample.jeans] user = 1.2%float)
  /\ (Spec.volume Sample.blouse == 0.8)%Q
  /\ (Spec.volume Sample.jeans == 0.5)%Q
  /\ Spec.proportion_score [Sample.blouse; Sample.jeans] = 1%float
  /\ (1.2 =? 1)%float = false
  /\ (forall user,
        RuleEngine.score_outfit_proportions [Sample.shirt; Sample.jeans] user = 1%float)
  /\ (Spec.volume Sample.shirt == 0.2)%Q
  /\ (forall outfit user,
        Spec.on_boundary outfit = false ->
        RuleEngine.score_outfit_proportions outfit user = Spec.proportion_score outfit).
Proof.
  split; [intros user; vm_compute; reflexivity |].
  split; [vm_compute; reflexivity |].
  split; [vm_compute; reflexivity |].
  split; [vm_compute; reflexivity |].
  split; [vm_compute; reflexivity |].
  split; [intros user; vm_compute; reflexivity |].
  split; [vm_compute; reflexivity |].
  intros outfit user. apply ScoreFacts.score_outfit_proportions_spec.
Qed.

(** C5, the code at the failing input. For the candidate of one dress and two
    accessories, which [generate_outfits] builds from the dress request, the
    category score is 0.9 although the outfit has only 2 distinct categories:
    the heuristic counts items, the claimed score ([heuristic_claimed]) counts
    categories, and the two differ. *)
Theorem heuristic_counts_items_not_categories :
  (exists o,
      OutfitGenerator.generate_outfits 1000 Sample.dress_request Sample.ones = Ok [o]
      /\ items o = [Sample.gown; Sample.belt; Sample.scarf])
  /\ Spec.distinct_categories [Sample.gown; Sample.belt; Sample.scarf] = 2%nat
  /\ OutfitGenerator._predict_ml_compatibility
       (map OutfitGenerator._item_to_dict [Sample.gown; Sample.belt; Sample.scarf])
     = Ok (Spec.mean3 0.7 0.9 0.6)
  /\ Spec.heuristic_claimed [Sample.gown; Sample.belt; Sample.scarf]
     = Ok (Spec.mean3 0.7 0.8 0.6)
  /\ (Spec.mean3 0.7 0.9 0.6 =? Spec.mean3 0.7 0.8 0.6)%float = false.
Proof.
  split; [eexists; split; vm_compute; reflexivity |].
  repeat split; vm_compute; reflexivity.
Qed.

(** C10, as amended. The style notes are the note of the user's body type,
    for the triangle, inverted-triangle and rectangle body types only (none
    for hourglass and oval), followed by one color note: the monochromatic
    text when the outfit has at most 2 distinct non-patterned colors, the
    coordinated-palette text otherwise. *)
Theorem _generate_style_notes_exact :
  forall (outfit : list ClothingItem) (user : UserInfo),
  OutfitGenerator._generate_style_notes outfit user
  = match Spec.body_type_note (body_type user) with
    | Some note => [note]
    | None => []
    end ++ [Spec.color_note outfit].
Proof.
  intros outfit user.
  unfold OutfitGenerator._generate_style_notes, Spec.color_note,
    Spec.distinct_plain_colors.
  rewrite py_set_length.
  replace (map color (filter (fun item => negb (Color.eqb (color item) Color.PATTERNED))
                        outfit))
    with (filter (fun c => negb (Color.eqb c Color.PATTERNED)) (map color outfit)).
  - destruct (body_type user); cbn [BodyType.eqb Spec.body_type_note app];
      destruct (_ <=? 2)%nat; reflexivity.
  - induction outfit as [|item outfit IH]; simpl; [reflexivity |].
    destruct (negb (Color.eqb (color item) Color.PATTERNED)); simpl; now rewrite IH.
Qed.

(** C10, counterexample. For an hourglass user the notes are the color note
    alone: one string, not two. *)
Lemma _generate_style_notes_hourglass_single :
  OutfitGenerator._generate_style_notes [Sample.gown] Sample.hourglass_user
  = [Spec.color_note [Sample.gown]]
  /\ ~ Spec.two_notes_claimed [Sample.gown] Sample.hourglass_user.
Proof.
  split; [reflexivity |].
  intros [note H]. vm_compute in H. discriminate H.
Qed.

(* ================================================================== *)
(** * Claims on the generated outfits *)
(* ================================================================== *)

(** C1. Whatever the request and the draws, [generate_outfits] returns, and
    every outfit it returns contains a dress, or a top and a bottom. *)
Theorem generate_outfits_structurally_valid :
  forall (fuel : nat) (request : OutfitRequest) (g : rng),
  (OutfitGenerator.max_generation_attempts <= fuel)%nat ->
  exists outs,
    OutfitGenerator.generate_outfits fuel request g = Ok outs
    /\ Forall Spec.structurally_valid outs.
Proof.
  intros fuel request g Hfuel.
  destruct (GenerateFacts.generate_outfits_result fuel request g Hfuel)
    as [st [g' [_ [[Hrec _] [_ E]]]]].
  eexists. split; [exact E |].
  apply GenerateFacts.recorded_sorted in Hrec.
  eapply Forall_impl; [| exact Hrec].
  intros o [Hvalid _]. unfold Spec.structurally_valid.
  now apply LoopFacts._is_valid_outfit_structure with (request := request).
Qed.

Lemma generate_outfits_structurally_valid_witness :
  (OutfitGenerator.max_generation_attempts <= 1000)%nat
  /\ exists outs,
       OutfitGenerator.generate_outfits 1000 Sample.request Sample.draws = Ok outs
       /\ Forall Spec.structurally_valid outs.
Proof.
  split; [unfold OutfitGenerator.max_generation_attempts; lia |].
  apply (generate_outfits_structurally_valid 1000 Sample.request Sample.draws).
  unfold OutfitGenerator.max_generation_attempts. lia.
Defined.

(** C6, as amended. Whatever the request and the draws, [generate_outfits]
    returns the outfits the loop collected (whose identifiers number them in
    generation order), sorted by descending score, the outfits of any one
    score in the order they were generated; its length is at most
    [max_outfits] when that is not negative, and 0 otherwise. *)
Theorem generate_outfits_sorted_stable :
  forall (fuel : nat) (request : OutfitRequest) (g : rng),
  (OutfitGenerator.max_generation_attempts <= fuel)%nat ->
  exists st g' outs,
    OutfitGenerator.collect_outfits fuel request g = Ok (st, g')
    /\ OutfitGenerator.generate_outfits fuel request g = Ok outs
    /\ map outfit_id (OutfitGenerator.outfits st)
       = Spec.sequential_ids (List.length (OutfitGenerator.outfits st))
    /\ Permutation outs (OutfitGenerator.outfits st)
    /\ StronglySorted Spec.score_ge outs
    /\ Forall (fun o => filter (Spec.same_score o) outs
                        = filter (Spec.same_score o) (OutfitGenerator.outfits st))
         outs
    /\ (Z.of_nat (List.length outs) <= Z.max 0 (max_outfits request))%Z.
Proof.
  intros fuel request g Hfuel.
  destruct (GenerateFacts.generate_outfits_result fuel request g Hfuel)
    as [st [g' [Ec [[Hrec [Hlen [Hids _]]] [_ E]]]]].
  pose proof (GenerateFacts.recorded_scored _ _ Hrec) as Hscored.
  exists st, g', (OutfitGenerator.sort_by_score_desc (OutfitGenerator.outfits st)).
  repeat split; try assumption.
  - apply sort_by_score_desc_perm.
  - apply (sort_by_score_desc_sorted _ score_values_order _ Hscored).
  - apply Forall_forall. intros o Ho.
    apply (sort_by_score_desc_stable _ score_values_order); [| exact Hscored].
    rewrite Forall_forall in Hscored. apply Hscored.
    now apply (Permutation_in _ (sort_by_score_desc_perm _)).
  - now rewrite (Permutation_length (sort_by_score_desc_perm _)).
Qed.

Lemma generate_outfits_sorted_stable_witness :
  (OutfitGenerator.max_generation_attempts <= 1000)%nat
  /\ exists st g' outs,
       OutfitGenerator.collect_outfits 1000 Sample.request Sample.draws = Ok (st, g')
       /\ OutfitGenerator.generate_outfits 1000 Sample.request Sample.draws = Ok outs
       /\ map outfit_id (OutfitGenerator.outfits st)
          = Spec.sequential_ids (List.length (OutfitGenerator.outfits st))
       /\ Permutation outs (OutfitGenerator.outfits st)
       /\ StronglySorted Spec.score_ge outs
       /\ Forall (fun o => filter (Spec.same_score o) outs
                           = filter (Spec.same_score o) (OutfitGenerator.outfits st))
            outs
       /\ (Z.of_nat (List.length outs) <= Z.max 0 (max_outfits Sample.request))%Z.
Proof.
  split; [unfold OutfitGenerator.max_generation_attempts; lia |].
  apply (generate_outfits_sorted_stable 1000 Sample.request Sample.draws).
  unfold OutfitGenerator.max_generation_attempts. lia.
Defined.

(** C6, counterexample. A request for [-1] outfits gets the empty list, whose
    length is not at most [-1]. *)
Lemma generate_outfits_negative_max :
  OutfitGenerator.generate_outfits 1000 Sample.negative_request Sample.draws = Ok []
  /\ ~ Spec.within_max_outfits Sample.negative_request [].
Proof.
  split; [vm_compute; reflexivity |].
  unfold Spec.within_max_outfits. cbn. lia.
Qed.

(** C7. When the filtered inventory has no top, no bottom and no dress,
    [generate_outfits] leaves its loop after at most
    [max_generation_attempts] (1000) attempts and returns the empty list,
    without raising, whatever the draws. *)
Theorem generate_outfits_empty_buckets :
  forall (fuel : nat) (request : OutfitRequest) (g : rng),
  (OutfitGenerator.max_generation_attempts <= fuel)%nat ->
  tops (OutfitGenerator.categorized_inventory request) = [] ->
  bottoms (OutfitGenerator.categorized_inventory request) = [] ->
  dresses (OutfitGenerator.categorized_inventory request) = [] ->
  exists st g',
    OutfitGenerator.collect_outfits fuel request g = Ok (st, g')
    /\ OutfitGenerator.outfits st = []
    /\ (OutfitGenerator.attempt st <= 1000)%nat
    /\ OutfitGenerator.generate_outfits fuel request g = Ok [].
Proof.
  intros fuel request g Hfuel Ht Hb Hd.
  destruct (LoopFacts.while_loop_no_candidate request
              (OutfitGenerator.categorized_inventory request) Hd (or_introl Ht)
              fuel {| OutfitGenerator.outfits := []; OutfitGenerator.attempt := 0 |} g)
    as [st [g' [E [Ho Ha]]]].
  - cbn [OutfitGenerator.attempt]. lia.
  - cbn [OutfitGenerator.attempt]. lia.
  - exists st, g'. cbn [OutfitGenerator.outfits] in Ho.
    repeat split; try assumption.
    unfold OutfitGenerator.generate_outfits, OutfitGenerator.collect_outfits.
    rewrite E, Ho. cbn [OutfitGenerator.sort_by_score_desc fold_right].
    unfold py_slice_to. destruct (max_outfits request <? 0)%Z; now rewrite firstn_nil.
Qed.

Lemma generate_outfits_empty_buckets_witness :
  (OutfitGenerator.max_generation_attempts <= 1000)%nat
  /\ tops (OutfitGenerator.categorized_inventory Sample.skinny_request) = []
  /\ bottoms (OutfitGenerator.categorized_inventory Sample.skinny_request) = []
  /\ dresses (OutfitGenerator.categorized_inventory Sample.skinny_request) = []
  /\ exists st g',
       OutfitGenerator.collect_outfits 1000 Sample.skinny_request Sample.draws
       = Ok (st, g')
       /\ OutfitGenerator.outfits st = []
       /\ (OutfitGenerator.attempt st <= 1000)%nat
       /\ OutfitGenerator.generate_outfits 1000 Sample.skinny_request Sample.draws
          = Ok [].
Proof.
  split; [unfold OutfitGenerator.max_generation_attempts; lia |]. repeat (split; [reflexivity |]).
  apply (generate_outfits_empty_buckets 1000 Sample.skinny_request Sample.draws);
    [unfold OutfitGenerator.max_generation_attempts; lia
    | reflexivity | reflexivity | reflexivity].
Defined.

(** C8. Whatever the request and the draws, every returned outfit has the
    score [0.6 * rule_score + 0.4 * heuristic_score] of its items, where the
    rule score is at most 1.2 and the heuristic score at most
    [(0.9 + 0.9 + 0.8) / 3]; the score is at least 0 and at most 16/15, both
    as floats and as exact values. *)
Theorem generate_outfits_score_bounds :
  forall (fuel : nat) (request : OutfitRequest) (g : rng),
  (OutfitGenerator.max_generation_attempts <= fuel)%nat ->
  exists outs,
    OutfitGenerator.generate_outfits fuel request g = Ok outs
    /\ Forall
         (fun o =>
            exists ml,
              let rule_score :=
                RuleEngine.score_outfit_proportions (items o) (user_info request) in
              OutfitGenerator._predict_ml_compatibility
                (map OutfitGenerator._item_to_dict (items o)) = Ok ml
              /\ compatibility_score o = (0.6 * rule_score + 0.4 * ml)%float
              /\ (rule_score <=? 1.2)%float = true
              /\ (ml <=? (0.9 + 0.9 + 0.8) / 3)%float = true
              /\ Spec.score_bounded (compatibility_score o))
         outs.
Proof.
  intros fuel request g Hfuel.
  destruct (GenerateFacts.generate_outfits_result fuel request g Hfuel)
    as [st [g' [_ [[Hrec _] [_ E]]]]].
  eexists. split; [exact E |].
  apply GenerateFacts.recorded_sorted in Hrec.
  eapply Forall_impl; [| exact Hrec].
  intros o Ho. pose proof (LoopFacts.recorded_score_value _ _ Ho) as Hv.
  destruct Ho as [_ [ml [Hml Hscore]]].
  exists ml. cbv zeta.
  split; [exact Hml |]. split; [exact Hscore |]. split; [| split].
  - apply GenerateFacts.rule_score_values_bound,
      ScoreFacts.score_outfit_proportions_values.
  - apply GenerateFacts.ml_score_values_bound.
    rewrite ScoreFacts.heuristic_spec in Hml.
    now apply ScoreFacts.heuristic_values with (outfit := items o).
  - apply GenerateFacts.score_in_bounds_bounded.
    pose proof ScoreFacts.score_values_in_bounds as H.
    rewrite forallb_forall in H. now apply H.
Qed.

Lemma generate_outfits_score_bounds_witness :
  (OutfitGenerator.max_generation_attempts <= 1000)%nat
  /\ exists outs,
       OutfitGenerator.generate_outfits 1000 Sample.request Sample.draws = Ok outs
       /\ Forall
            (fun o =>
               exists ml,
                 let rule_score :=
                   RuleEngine.score_outfit_proportions (items o)
                     (user_info Sample.request) in
                 OutfitGenerator._predict_ml_compatibility
                   (map OutfitGenerator._item_to_dict (items o)) = Ok ml
                 /\ compatibility_score o = (0.6 * rule_score + 0.4 * ml)%float
                 /\ (rule_score <=? 1.2)%float = true
                 /\ (ml <=? (0.9 + 0.9 + 0.8) / 3)%float = true
                 /\ Spec.score_bounded (compatibility_score o))
            outs.
Proof.
  split; [unfold OutfitGenerator.max_generation_attempts; lia |].
  apply (generate_outfits_score_bounds 1000 Sample.request Sample.draws).
  unfold OutfitGenerator.max_generation_attempts. lia.
Defined.

(* ================================================================== *)
(** * Further properties of the rule engine *)
(* ================================================================== *)

Module RuleEngineMore.
Import RuleEngine.

Lemma filter_comm {A : Type} (p q : A -> bool) (l : list A) :
  filter p (filter q l) = filter q (filter p l).
Proof.
  induction l as [|a l IH]; simpl; [reflexivity |].
  destruct (p a) eqn:Ep, (q a) eqn:Eq; simpl; rewrite ?Ep, ?Eq, IH; reflexivity.
Qed.

Lemma filter_length_le {A : Type} (p : A -> bool) (l : list A) :
  (List.length (filter p l) <= List.length l)%nat.
Proof.
  induction l as [|a l IH]; simpl; [lia |]. destruct (p a); simpl; lia.
Qed.

(** The fit tests come first: a dress is tested against [top_fit]. *)
Lemma dress_needs_top_fit (item : ClothingItem) (rules : BodyRules) (l : list FitType.t) :
  category item = ItemCategory.DRESS ->
  top_fit rules = Some l ->
  _is_item_compatible item rules = true ->
  In (fit item) l.
Proof.
  intros Hc Ht. unfold _is_item_compatible. rewrite Hc, Ht.
  cbn [py_in existsb ItemCategory.eqb orb andb].
  destruct (py_in FitType.eqb (fit item) l) eqn:E.
  - intros _. now apply (py_in_true _ FitType_eqb_eq).
  - cbn [negb]. destruct (match avoid_fits rules with Some _ => _ | None => _ end);
      discriminate.
Qed.

Lemma no_bottom_filter (outfit : list ClothingItem) :
  Forall (fun item => category item <> ItemCategory.BOTTOM) outfit ->
  filter Spec.is_bottom outfit = [].
Proof.
  induction 1 as [|item l Hc _ IH]; [reflexivity |].
  cbn [filter]. unfold Spec.is_bottom at 1.
  destruct (category item); try exact IH. congruence.
Qed.

(** The range of a volume, and when it exceeds 0.7. *)
Lemma volume_facts (item : ClothingItem) (user : UserInfo) :
  (0.1 <=? RuleEngine._estimate_volume item user)%float = true
  /\ (RuleEngine._estimate_volume item user <=? 0.9)%float = true
  /\ ((0.7 <? RuleEngine._estimate_volume item user)%float = true
      <-> In (fit item) [FitType.OVERSIZED; FitType.RELAXED]
          /\ weight item <> "light").
Proof.
  unfold RuleEngine._estimate_volume.
  destruct (fit item) eqn:F; cbn [py_in existsb FitType.eqb orb];
    destruct (String.eqb (weight item) "heavy") eqn:Eh;
    destruct (String.eqb (weight item) "light") eqn:El;
    repeat match goal with
      | H : String.eqb _ _ = true |- _ => apply String.eqb_eq in H
      | H : String.eqb _ _ = false |- _ => apply String.eqb_neq in H
      end;
    (split; [reflexivity | split; [reflexivity |]]);
    cbn -[In]; split; intros H;
    try discriminate H; try reflexivity;
    try (split; [cbn; tauto | congruence]);
    destruct H as [Hin Hw]; cbn in Hin; try congruence; intuition discriminate.
Qed.

End RuleEngineMore.

(** X1. The two filters commute: filtering by occasion after body type gives
    the same list as filtering by body type after occasion. *)
Theorem filters_commute :
  forall (items : list ClothingItem) (b : BodyType.t) (occasion : OccasionInfo),
  RuleEngine.filter_by_occasion (RuleEngine.filter_by_body_type items b) occasion
  = RuleEngine.filter_by_body_type (RuleEngine.filter_by_occasion items occasion) b.
Proof.
  intros items b occasion.
  rewrite !RuleEngineFacts.filter_by_occasion_filter,
    !RuleEngineFacts.filter_by_body_type_filter.
  apply RuleEngineMore.filter_comm.
Qed.

(** X2. Each filter only removes items: it distributes over the
    concatenation of two inventories, and its result is never longer than its
    input and holds items of the input only. *)
Theorem filters_select :
  forall (l1 l2 : list ClothingItem) (b : BodyType.t) (occasion : OccasionInfo),
  RuleEngine.filter_by_body_type (l1 ++ l2) b
  = RuleEngine.filter_by_body_type l1 b ++ RuleEngine.filter_by_body_type l2 b
  /\ RuleEngine.filter_by_occasion (l1 ++ l2) occasion
     = RuleEngine.filter_by_occasion l1 occasion
       ++ RuleEngine.filter_by_occasion l2 occasion
  /\ (List.length (RuleEngine.filter_by_body_type l1 b) <= List.length l1)%nat
  /\ (List.length (RuleEngine.filter_by_occasion l1 occasion) <= List.length l1)%nat
  /\ Forall (fun item => In item l1) (RuleEngine.filter_by_body_type l1 b)
  /\ Forall (fun item => In item l1) (RuleEngine.filter_by_occasion l1 occasion).
Proof.
  intros l1 l2 b occasion.
  rewrite !RuleEngineFacts.filter_by_occasion_filter,
    !RuleEngineFacts.filter_by_body_type_filter, !filter_app.
  repeat split;
    try apply RuleEngineMore.filter_length_le;
    apply Forall_forall; intros item H; now apply filter_In in H.
Qed.

(** X3. For every body type that has a rule table, a dress whose fit is
    listed under the table's [dress_fit] is rejected: dresses are tested
    against [top_fit], and [dress_fit] is never read. *)
Theorem dress_fit_never_accepted :
  forall (b : BodyType.t) (rules : BodyRules) (l : list FitType.t) (item : ClothingItem),
  RuleEngine._load_body_type_rules b = Some rules ->
  dress_fit rules = Some l ->
  category item = ItemCategory.DRESS ->
  In (fit item) l ->
  RuleEngine._is_item_compatible item (RuleEngine.body_type_rules_get b) = false
  /\ RuleEngine.filter_by_body_type [item] b = [].
Proof.
  intros b rules l item Hr Hd Hc Hin.
  assert (H : RuleEngine._is_item_compatible item (RuleEngine.body_type_rules_get b)
              = false).
  { destruct (RuleEngine._is_item_compatible item (RuleEngine.body_type_rules_get b))
      eqn:E; [exfalso | reflexivity].
    unfold RuleEngine.body_type_rules_get in E. rewrite Hr in E.
    destruct b; cbn in Hr; inversion Hr; subst rules; cbn in Hd; inversion Hd; subst l;
      (eapply RuleEngineMore.dress_needs_top_fit in E; [| exact Hc | reflexivity]);
      cbn in Hin, E; destruct Hin as [Hin | []]; rewrite <- Hin in E;
      intuition discriminate. }
  split; [exact H |].
  rewrite RuleEngineFacts.filter_by_body_type_filter. cbn [filter]. now rewrite H.
Qed.

Lemma dress_fit_never_accepted_witness :
  RuleEngine._load_body_type_rules BodyType.TRIANGLE
  = Some (RuleEngine.body_type_rules_get BodyType.TRIANGLE)
  /\ dress_fit (RuleEngine.body_type_rules_get BodyType.TRIANGLE)
     = Some [FitType.A_LINE]
  /\ category Sample.gown = ItemCategory.DRESS
  /\ In (fit Sample.gown) [FitType.A_LINE]
  /\ RuleEngine._is_item_compatible Sample.gown
       (RuleEngine.body_type_rules_get BodyType.TRIANGLE) = false
  /\ RuleEngine.filter_by_body_type [Sample.gown] BodyType.TRIANGLE = [].
Proof.
  repeat (split; [first [reflexivity | left; reflexivity] |]).
  apply (dress_fit_never_accepted BodyType.TRIANGLE
           (RuleEngine.body_type_rules_get BodyType.TRIANGLE) [FitType.A_LINE]
           Sample.gown);
    first [reflexivity | left; reflexivity].
Defined.

(** X4. The volume estimate of every item lies in [0.1, 0.9], and it exceeds
    0.7, the threshold of the bulky-on-bulky penalty, exactly for an
    oversized or relaxed item whose fabric weight is not "light". *)
Theorem _estimate_volume_range :
  forall (item : ClothingItem) (user : UserInfo),
  (0.1 <=? RuleEngine._estimate_volume item user)%float = true
  /\ (RuleEngine._estimate_volume item user <=? 0.9)%float = true
  /\ ((0.7 <? RuleEngine._estimate_volume item user)%float = true
      <-> In (fit item) [FitType.OVERSIZED; FitType.RELAXED]
          /\ weight item <> "light").
Proof. intros item user. apply RuleEngineMore.volume_facts. Qed.

(** X5. The proportion score of any list of items is one of six values
    between [0.7 * 0.6] and [1.2]; without a bottom item the balance rule is
    skipped and the score is 1.0 or 0.7; the empty list scores 0.7. *)
Theorem score_outfit_proportions_range :
  forall (outfit : list ClothingItem) (user : UserInfo),
  In (RuleEngine.score_outfit_proportions outfit user) Spec.rule_score_values
  /\ (0.7 * 0.6 <=? RuleEngine.score_outfit_proportions outfit user)%float = true
  /\ (RuleEngine.score_outfit_proportions outfit user <=? 1.2)%float = true
  /\ (Forall (fun item => category item <> ItemCategory.BOTTOM) outfit ->
      In (RuleEngine.score_outfit_proportions outfit user) [1.0; 1.0 * 0.7]%float)
  /\ RuleEngine.score_outfit_proportions [] user = (1.0 * 0.7)%float.
Proof.
  intros outfit user.
  pose proof (ScoreFacts.score_outfit_proportions_values outfit user) as Hv.
  assert (Hb : forallb (fun s => (0.7 * 0.6 <=? s)%float && (s <=? 1.2)%float)
                 Spec.rule_score_values = true) by (vm_compute; reflexivity).
  rewrite forallb_forall in Hb. specialize (Hb _ Hv). apply andb_prop in Hb.
  split; [exact Hv |]. split; [apply Hb |]. split; [apply Hb |].
  split; [| reflexivity].
  intros Hnb. unfold RuleEngine.score_outfit_proportions.
  rewrite ScoreFacts.bottoms_filter.
  replace (filter Spec.is_bottom outfit) with (@nil ClothingItem).
  - destruct (_ <? 3)%nat; destruct (filter _ outfit); cbn [In]; auto.
  - symmetry. now apply RuleEngineMore.no_bottom_filter.
Qed.

(* ================================================================== *)
(** * Buckets and candidates *)
(* ================================================================== *)

Module CandidateFacts.
Import OutfitGenerator GenFacts Candidates.

(** ** [_categorize_items] *)

Lemma _categorize_items_snoc (l : list ClothingItem) (a : ClothingItem) :
  _categorize_items (l ++ [a])
  = let c := _categorize_items l in
    match category a with
    | ItemCategory.TOP =>
        {| tops := tops c ++ [a]; bottoms := bottoms c; dresses := dresses c;
           outerwear := outerwear c; shoes := shoes c; accessories := accessories c |}
    | ItemCategory.BOTTOM =>
        {| tops := tops c; bottoms := bottoms c ++ [a]; dresses := dresses c;
           outerwear := outerwear c; shoes := shoes c; accessories := accessories c |}
    | ItemCategory.DRESS =>
        {| tops := tops c; bottoms := bottoms c; dresses := dresses c ++ [a];
           outerwear := outerwear c; shoes := shoes c; accessories := accessories c |}
    | ItemCategory.OUTERWEAR =>
        {| tops := tops c; bottoms := bottoms c; dresses := dresses c;
           outerwear := outerwear c ++ [a]; shoes := shoes c;
           accessories := accessories c |}
    | ItemCategory.SHOES =>
        {| tops := tops c; bottoms := bottoms c; dresses := dresses c;
           outerwear := outerwear c; shoes := shoes c ++ [a];
           accessories := accessories c |}
    | ItemCategory.ACCESSORY =>
        {| tops := tops c; bottoms := bottoms c; dresses := dresses c;
           outerwear := outerwear c; shoes := shoes c;
           accessories := accessories c ++ [a] |}
    end.
Proof. unfold _categorize_items. rewrite fold_left_app. reflexivity. Qed.

Lemma _categorize_items_filter (items : list ClothingItem) :
  tops (_categorize_items items) = filter (in_category ItemCategory.TOP) items
  /\ bottoms (_categorize_items items) = filter (in_category ItemCategory.BOTTOM) items
  /\ dresses (_categorize_items items) = filter (in_category ItemCategory.DRESS) items
  /\ outerwear (_categorize_items items)
     = filter (in_category ItemCategory.OUTERWEAR) items
  /\ shoes (_categorize_items items) = filter (in_category ItemCategory.SHOES) items
  /\ accessories (_categorize_items items)
     = filter (in_category ItemCategory.ACCESSORY) items.
Proof.
  induction items as [|a l IH] using rev_ind; [repeat split |].
  destruct IH as [H1 [H2 [H3 [H4 [H5 H6]]]]].
  rewrite _categorize_items_snoc, !filter_app. cbv zeta.
  rewrite <- H1, <- H2, <- H3, <- H4, <- H5, <- H6.
  cbn [filter]. unfold in_category.
  destruct (category a);
    cbn [ItemCategory.eqb tops bottoms dresses outerwear shoes accessories];
    rewrite ?app_nil_r; repeat split.
Qed.

Lemma category_count (items : list ClothingItem) :
  (List.length (filter (in_category ItemCategory.TOP) items)
   + List.length (filter (in_category ItemCategory.BOTTOM) items)
   + List.length (filter (in_category ItemCategory.DRESS) items)
   + List.length (filter (in_category ItemCategory.OUTERWEAR) items)
   + List.length (filter (in_category ItemCategory.SHOES) items)
   + List.length (filter (in_category ItemCategory.ACCESSORY) items)
   = List.length items)%nat.
Proof.
  unfold in_category. induction items as [|a l IH]; [reflexivity |].
  cbn [filter]. destruct (category a); cbn [ItemCategory.eqb List.length]; lia.
Qed.

Lemma in_category_true (c : ItemCategory.t) (item : ClothingItem) :
  in_category c item = true <-> category item = c.
Proof. unfold in_category. apply ItemCategory_eqb_eq. Qed.

Lemma filter_in_category (c : ItemCategory.t) (items : list ClothingItem) :
  Forall (fun item => category item = c) (filter (in_category c) items).
Proof.
  apply Forall_forall. intros item H. apply filter_In in H.
  now apply in_category_true.
Qed.

Lemma _categorize_items_well_categorized (items : list ClothingItem) :
  well_categorized (_categorize_items items).
Proof.
  destruct (_categorize_items_filter items) as [H1 [H2 [H3 [H4 [H5 H6]]]]].
  unfold well_categorized. rewrite H1, H2, H3, H4, H5, H6.
  repeat split; apply filter_in_category.
Qed.

(** ** [_is_valid_outfit] *)

Lemma mem_of_has_category (c : ItemCategory.t) (outfit : list ClothingItem) :
  Spec.has_category c outfit ->
  set_mem category_eq_dec c (py_set category_eq_dec (map category outfit)) = true.
Proof.
  intros [item [Hin Hc]]. apply set_mem_correct2. apply py_set_In.
  apply in_map_iff. exists item. split; assumption.
Qed.

Lemma _is_valid_outfit_complete (outfit : list ClothingItem) (request : OutfitRequest) :
  Spec.has_category ItemCategory.DRESS outfit
  \/ (Spec.has_category ItemCategory.TOP outfit
      /\ Spec.has_category ItemCategory.BOTTOM outfit) ->
  _is_valid_outfit outfit request = true.
Proof.
  intros H. unfold _is_valid_outfit.
  assert (Hne : truthy outfit = true).
  { destruct outfit; [| reflexivity].
    destruct H as [[x [[] _]] | [[x [[] _]] _]]. }
  rewrite Hne. cbn [negb].
  destruct H as [Hd | [Ht Hb]].
  - rewrite (mem_of_has_category _ _ Hd). now rewrite orb_true_r.
  - now rewrite (mem_of_has_category _ _ Ht), (mem_of_has_category _ _ Hb).
Qed.

(** ** Sampling *)

Lemma nth_remove_nth_perm {A : Type} (d : A) (l : list A) : forall j,
  (j < List.length l)%nat -> Permutation (nth j l d :: remove_nth j l) l.
Proof.
  induction l as [|x l IH]; intros j Hj; [simpl in Hj; lia |].
  destruct j as [|j]; [reflexivity |].
  cbn [nth remove_nth]. destruct l as [|y l'].
  - simpl in Hj. lia.
  - change (remove_nth (S j) (x :: y :: l')) with (x :: remove_nth j (y :: l')).
    rewrite perm_swap. constructor. apply IH. simpl in *. lia.
Qed.

Lemma sample_from_drawn {A : Type} (k : nat) : forall pool : list A,
  (k <= List.length pool)%nat ->
  ensures (sample_from pool k)
    (fun l => List.length l = k /\ drawn_from l pool).
Proof.
  induction k as [|k IH]; intros pool Hk; simpl.
  - apply ensures_ret. split; [reflexivity |]. exists pool. reflexivity.
  - destruct pool as [|x pool]; [simpl in Hk; lia |].
    apply ensures_bind with (P := fun j => (j < List.length (x :: pool))%nat).
    + apply randbelow_ok. simpl. lia.
    + intros j Hj.
      apply ensures_bind
        with (P := fun l => List.length l = k
                            /\ drawn_from l (remove_nth j (x :: pool))).
      * apply IH. rewrite remove_nth_length by exact Hj. simpl in *. lia.
      * intros rest [Hlen [more Hperm]]. apply ensures_ret.
        split; [simpl; now rewrite Hlen |].
        exists more. cbn [app]. rewrite Hperm.
        now apply nth_remove_nth_perm.
Qed.

Lemma truthy_false {A : Type} (l : list A) : truthy l = false -> l = [].
Proof. destruct l; [reflexivity | discriminate]. Qed.

(** ** [_create_candidate_outfit] *)

Lemma _create_candidate_outfit_shape (c : Buckets) (user : UserInfo) :
  ensures (_create_candidate_outfit c user)
    (fun r =>
       match r with
       | Some candidate => candidate_shape c candidate
       | None => tops c = [] \/ bottoms c = []
       end).
Proof.
  unfold _create_candidate_outfit.
  eapply ensures_bind; [apply random_random_ok |]. intros r _.
  eapply ensures_bind
    with (P := fun base => match base with
                           | Some b => base_of c b
                           | None => tops c = [] \/ bottoms c = []
                           end).
  - destruct ((r <? 0.3)%float && truthy (dresses c)) eqn:E.
    + apply andb_prop in E. destruct E as [_ E].
      eapply ensures_bind; [apply (random_choice_ok _ E) |].
      intros d Hd. apply ensures_ret. left. eauto.
    + destruct (truthy (tops c)) eqn:Et; destruct (truthy (bottoms c)) eqn:Eb;
        cbn [andb];
        try (apply ensures_ret;
             first [left; now apply truthy_false | right; now apply truthy_false]).
      eapply ensures_bind; [apply (random_choice_ok _ Et) |]. intros t Ht.
      eapply ensures_bind; [apply (random_choice_ok _ Eb) |]. intros b Hb.
      apply ensures_ret. right. eauto.
  - intros [base |] Hbase; [| now apply ensures_ret].
    eapply ensures_bind
      with (P := fun cand => exists ow, cand = base ++ ow /\ outerwear_of c ow).
    { destruct (truthy (outerwear c)) eqn:Eo.
      - eapply ensures_bind; [apply random_random_ok |]. intros r' _.
        destruct (r' <? 0.4)%float.
        + eapply ensures_bind; [apply (random_choice_ok _ Eo) |].
          intros o Ho. apply ensures_ret. exists [o]. split; [reflexivity |].
          right. eauto.
        + apply ensures_ret. exists []. split; [now rewrite app_nil_r | now left].
      - apply ensures_ret. exists []. split; [now rewrite app_nil_r | now left]. }
    intros cand1 [ow [-> How]].
    eapply ensures_bind
      with (P := fun cand => exists sh, cand = (base ++ ow) ++ sh /\ shoes_of c sh).
    { unfold shoes_of. destruct (shoes c) as [|s0 ss] eqn:Es.
      - apply ensures_ret. exists []. split; [now rewrite app_nil_r | reflexivity].
      - cbn [truthy].
        eapply ensures_bind; [apply random_choice_ok; reflexivity |].
        intros s Hs. apply ensures_ret. exists [s]. split; [reflexivity |]. eauto. }
    intros cand2 [sh [-> Hsh]].
    eapply ensures_bind
      with (P := fun cand => exists accs,
                   cand = ((base ++ ow) ++ sh) ++ accs /\ accessories_of c accs).
    { unfold accessories_of. destruct (accessories c) as [|a0 acs] eqn:Ea.
      - apply ensures_ret. exists []. split; [now rewrite app_nil_r |].
        split; [exists []; reflexivity | reflexivity].
      - cbn [truthy].
        eapply ensures_bind; [apply (random_randint_ok 1 2); lia |].
        intros n Hn. cbn beta in Hn.
        unfold random_sample.
        destruct (Z.min n (Z.of_nat (List.length (a0 :: acs))) <? 0)%Z eqn:E1;
          [apply Z.ltb_lt in E1; lia |].
        destruct (Z.of_nat (List.length (a0 :: acs))
                  <? Z.min n (Z.of_nat (List.length (a0 :: acs))))%Z eqn:E2;
          [apply Z.ltb_lt in E2; lia |].
        cbn [orb].
        eapply ensures_bind; [apply sample_from_drawn; lia |].
        intros accs [Hlen Hdrawn]. apply ensures_ret.
        exists accs. split; [reflexivity |]. split; [exact Hdrawn |].
        rewrite Hlen. cbn [List.length] in *. lia. }
    intros cand3 [accs [-> Haccs]]. apply ensures_ret.
    exists base, ow, sh, accs. rewrite <- !app_assoc.
    split; [reflexivity |]. repeat (split; [assumption |]). assumption.
Qed.

Lemma shape_length (c : Buckets) (candidate : list ClothingItem) :
  candidate_shape c candidate -> (1 <= List.length candidate <= 6)%nat.
Proof.
  intros [base [ow [sh [accs [-> [Hb [Ho [Hs [_ Ha]]]]]]]]].
  rewrite !length_app.
  assert (1 <= List.length base <= 2)%nat
    by (destruct Hb as [[d [-> _]] | [t [b [-> _]]]]; simpl; lia).
  assert (List.length ow <= 1)%nat
    by (destruct Ho as [-> | [o [-> _]]]; simpl; lia).
  assert (List.length sh <= 1)%nat.
  { unfold shoes_of in Hs. destruct (shoes c); [subst; simpl; lia |].
    destruct Hs as [s [-> _]]. simpl. lia. }
  assert (List.length accs <= 2)%nat.
  { destruct (accessories c); [subst; simpl; lia | lia]. }
  lia.
Qed.

Lemma drawn_from_In {A : Type} (l pool : list A) (x : A) :
  drawn_from l pool -> In x l -> In x pool.
Proof.
  intros [rest Hperm] Hin. apply (Permutation_in _ Hperm).
  apply in_or_app. now left.
Qed.

(** The members of a candidate, by bucket. *)
Lemma shape_In (c : Buckets) (candidate : list ClothingItem) (item : ClothingItem) :
  candidate_shape c candidate -> In item candidate ->
  In item (tops c) \/ In item (bottoms c) \/ In item (dresses c)
  \/ In item (outerwear c) \/ In item (shoes c) \/ In item (accessories c).
Proof.
  intros [base [ow [sh [accs [-> [Hb [Ho [Hs [Ha _]]]]]]]]] Hin.
  rewrite !in_app_iff in Hin. destruct Hin as [Hin | [Hin | [Hin | Hin]]].
  - destruct Hb as [[d [-> Hd]] | [t [b [-> [Ht Hb]]]]]; simpl in Hin.
    + destruct Hin as [<- | []]. tauto.
    + destruct Hin as [<- | [<- | []]]; tauto.
  - destruct Ho as [-> | [o [-> Ho]]]; simpl in Hin; [tauto |].
    destruct Hin as [<- | []]. tauto.
  - unfold shoes_of in Hs. destruct (shoes c) as [|s0 ss]; [subst; simpl in Hin; tauto |].
    destruct Hs as [s [-> Hs]]. simpl in Hin. destruct Hin as [<- | []]. tauto.
  - pose proof (drawn_from_In _ _ _ Ha Hin). tauto.
Qed.

(** A candidate assembled from well-categorized buckets is valid. *)
Lemma shape_valid (c : Buckets) (candidate : list ClothingItem) (request : OutfitRequest) :
  well_categorized c -> candidate_shape c candidate ->
  truthy candidate && _is_valid_outfit candidate request = true.
Proof.
  intros [Ht [Hb [Hd _]]] Hshape.
  pose proof (shape_length _ _ Hshape) as Hlen.
  assert (Hne : truthy candidate = true)
    by (destruct candidate; [simpl in Hlen; lia | reflexivity]).
  rewrite Hne. cbn [andb]. apply _is_valid_outfit_complete.
  destruct Hshape as [base [ow [sh [accs [-> [Hbase _]]]]]].
  rewrite Forall_forall in Ht, Hb, Hd.
  destruct Hbase as [[d [-> Hin]] | [t [b [-> [Hint Hinb]]]]].
  - left. exists d. split; [now left | now apply Hd].
  - right. split.
    + exists t. split; [now left | now apply Ht].
    + exists b. split; [right; now left | now apply Hb].
Qed.

End CandidateFacts.

(* ================================================================== *)
(** * The loop, attempt by attempt *)
(* ================================================================== *)

Module LoopMore.
Import OutfitGenerator GenFacts Candidates.

Lemma ensures_conj {A : Type} (m : Gen A) (P Q : A -> Prop) :
  ensures m P -> ensures m Q -> ensures m (fun a => P a /\ Q a).
Proof.
  intros HP HQ g.
  destruct (HP g) as [a [g' [E Pa]]]. destruct (HQ g) as [a' [g'' [E' Qa]]].
  rewrite E in E'. inversion E'; subst. exists a', g''. auto.
Qed.

Lemma categorized_inventory_well_categorized (request : OutfitRequest) :
  well_categorized (categorized_inventory request).
Proof. apply CandidateFacts._categorize_items_well_categorized. Qed.

(** In [generate_outfits] every candidate passes the validity test. *)
Lemma candidate_always_valid (request : OutfitRequest) :
  ensures (_create_candidate_outfit (categorized_inventory request) (user_info request))
    (fun r =>
       match r with
       | Some candidate =>
           candidate_shape (categorized_inventory request) candidate
           /\ truthy candidate && _is_valid_outfit candidate request = true
       | None =>
           tops (categorized_inventory request) = []
           \/ bottoms (categorized_inventory request) = []
       end).
Proof.
  eapply ensures_weaken; [apply CandidateFacts._create_candidate_outfit_shape |].
  intros [candidate |] H; [| exact H].
  split; [exact H |].
  apply CandidateFacts.shape_valid with (c := categorized_inventory request);
    [apply categorized_inventory_well_categorized | exact H].
Qed.

(** What one pass of the loop does to the state. *)
Lemma loop_body_step (request : OutfitRequest) (st : loop_state) :
  ensures (loop_body request (categorized_inventory request) st)
    (fun st' =>
       attempt st' = S (attempt st)
       /\ ((outfits st' = outfits st
            /\ (tops (categorized_inventory request) = []
                \/ bottoms (categorized_inventory request) = []))
           \/ exists o, outfits st' = outfits st ++ [o] /\ built request o)).
Proof.
  unfold loop_body.
  eapply ensures_bind; [apply candidate_always_valid |].
  intros [candidate |] H.
  - destruct H as [Hshape Hvalid]. rewrite Hvalid.
    destruct (ScoreFacts.heuristic_defined candidate) as [ml Hml].
    { apply andb_prop in Hvalid. destruct Hvalid as [Hne _].
      destruct candidate; [discriminate | congruence]. }
    rewrite <- ScoreFacts.heuristic_spec in Hml. rewrite Hml.
    eapply ensures_bind; [apply (ensures_lift ml (fun _ => True)); exact I |].
    intros ml' _. apply ensures_ret. cbn [outfits attempt].
    split; [reflexivity |]. right. eexists. split; [reflexivity |].
    unfold built. cbn [items outfit_occasion_type style_notes]. auto.
  - apply ensures_ret. cbn [outfits attempt]. split; [reflexivity |]. left. auto.
Qed.

(** The rule of the [while] loop, for any invariant. *)
Lemma while_loop_rule (request : OutfitRequest) (categorized_items : Buckets)
  (Inv : loop_state -> Prop) :
  (forall st, loop_cond request st = true -> Inv st ->
              ensures (loop_body request categorized_items st)
                (fun st' => Inv st' /\ attempt st' = S (attempt st))) ->
  forall (fuel : nat) (st : loop_state),
  (max_generation_attempts - attempt st <= fuel)%nat ->
  Inv st ->
  ensures (while_loop fuel request categorized_items st)
    (fun st' => Inv st' /\ loop_cond request st' = false).
Proof.
  intros Hstep.
  induction fuel as [|fuel IH]; intros st Hfuel Hinv;
    cbn [while_loop]; destruct (loop_cond request st) eqn:Hcond;
    try (apply ensures_ret; split; assumption).
  - exfalso. unfold loop_cond in Hcond. apply andb_prop in Hcond.
    destruct Hcond as [_ Hc]. apply Nat.ltb_lt in Hc. lia.
  - eapply ensures_bind; [apply (Hstep _ Hcond Hinv) |].
    intros st' [Hinv' Hatt]. apply IH; [lia | exact Hinv'].
Qed.

Lemma loop_progress_step (request : OutfitRequest) (st : loop_state) :
  loop_cond request st = true ->
  Spec.loop_invariant request st /\ loop_progress request st ->
  ensures (loop_body request (categorized_inventory request) st)
    (fun st' => (Spec.loop_invariant request st' /\ loop_progress request st')
                /\ attempt st' = S (attempt st)).
Proof.
  intros Hcond [Hinv [Hbuilt Hlen]].
  eapply ensures_weaken.
  - apply ensures_conj;
      [apply (LoopFacts.loop_body_invariant _ _ _ Hcond Hinv) | apply loop_body_step].
  - cbn beta. intros st' [[Hinv' Hatt] [_ Hstep]].
    split; [| exact Hatt]. split; [exact Hinv' |].
    unfold loop_progress.
    destruct Hstep as [[Ho _] | [o [Ho Hb]]]; rewrite Ho; split.
    + exact Hbuilt.
    + lia.
    + apply Forall_app. split; [exact Hbuilt | now constructor].
    + rewrite length_app. cbn [List.length]. lia.
Qed.

Lemma initial_state_invariant (request : OutfitRequest) :
  Spec.loop_invariant request {| outfits := []; attempt := 0 |}
  /\ loop_progress request {| outfits := []; attempt := 0 |}.
Proof.
  unfold Spec.loop_invariant, loop_progress.
  cbn [outfits attempt List.length map].
  repeat split; try constructor; lia.
Qed.

(** The state in which [generate_outfits] leaves its loop, and its result. *)
Lemma generate_outfits_progress (fuel : nat) (request : OutfitRequest) (g : rng) :
  (max_generation_attempts <= fuel)%nat ->
  exists st g',
    collect_outfits fuel request g = Ok (st, g')
    /\ Spec.loop_invariant request st
    /\ loop_progress request st
    /\ loop_cond request st = false
    /\ generate_outfits fuel request g = Ok (sort_by_score_desc (outfits st)).
Proof.
  intros Hfuel.
  destruct (GenerateFacts.generate_outfits_result fuel request g Hfuel)
    as [st [g' [E [Hinv [Hcond Hgen]]]]].
  destruct (while_loop_rule request (categorized_inventory request)
              (fun st => Spec.loop_invariant request st /\ loop_progress request st)
              (loop_progress_step request) fuel {| outfits := []; attempt := 0 |}
              ltac:(cbn [attempt]; lia) (initial_state_invariant request) g)
    as [st' [g'' [E' [[_ Hprog] _]]]].
  unfold collect_outfits in E. rewrite E in E'. inversion E'; subst st' g''.
  exists st, g'. auto.
Qed.

(** With a top and a bottom in the buckets every attempt gives an outfit. *)
Lemma loop_full_step (request : OutfitRequest) (st : loop_state) :
  tops (categorized_inventory request) <> [] ->
  bottoms (categorized_inventory request) <> [] ->
  loop_cond request st = true ->
  Spec.loop_invariant request st /\ List.length (outfits st) = attempt st ->
  ensures (loop_body request (categorized_inventory request) st)
    (fun st' => (Spec.loop_invariant request st'
                 /\ List.length (outfits st') = attempt st')
                /\ attempt st' = S (attempt st)).
Proof.
  intros Ht Hb Hcond [Hinv Hlen].
  eapply ensures_weaken.
  - apply ensures_conj;
      [apply (LoopFacts.loop_body_invariant _ _ _ Hcond Hinv) | apply loop_body_step].
  - cbn beta. intros st' [[Hinv' Hatt] [_ Hstep]].
    split; [| exact Hatt]. split; [exact Hinv' |].
    destruct Hstep as [[_ [H | H]] | [o [Ho _]]]; try contradiction.
    rewrite Ho, length_app. cbn [List.length]. lia.
Qed.

Lemma str_of_nat_inj (n m : nat) : str_of_nat n = str_of_nat m -> n = m.
Proof.
  unfold str_of_nat. intros H.
  apply DecimalNat.Unsigned.to_uint_inj.
  assert (H' : Some (Nat.to_uint n) = Some (Nat.to_uint m)).
  { rewrite <- !DecimalString.NilEmpty.usu. now rewrite H. }
  now inversion H'.
Qed.

Lemma sequential_ids_NoDup (n : nat) : NoDup (Spec.sequential_ids n).
Proof.
  unfold Spec.sequential_ids. apply Injective_map_NoDup; [| apply seq_NoDup].
  intros a b H. inversion H as [H']. now apply str_of_nat_inj.
Qed.

(** The members of the buckets passed both filters. *)
Lemma bucket_passed_filters (request : OutfitRequest) (item : ClothingItem) :
  let c := categorized_inventory request in
  In item (tops c) \/ In item (bottoms c) \/ In item (dresses c)
  \/ In item (outerwear c) \/ In item (shoes c) \/ In item (accessories c) ->
  passed_filters request item.
Proof.
  cbv zeta. unfold categorized_inventory.
  destruct (CandidateFacts._categorize_items_filter
              (RuleEngine.filter_by_occasion
                 (RuleEngine.filter_by_body_type (inventory request)
                    (body_type (user_info request)))
                 (occasion_info request)))
    as [H1 [H2 [H3 [H4 [H5 H6]]]]].
  rewrite H1, H2, H3, H4, H5, H6.
  rewrite RuleEngineFacts.filter_by_occasion_filter,
    RuleEngineFacts.filter_by_body_type_filter.
  intros H.
  assert (Hin : In item
                  (filter (fun item =>
                     RuleEngine._is_item_occasion_compatible item
                       (RuleEngine.occasion_rules_get
                          (occasion_type (occasion_info request)))
                       (occasion_info request))
                     (filter (fun item =>
                        RuleEngine._is_item_compatible item
                          (RuleEngine.body_type_rules_get
                             (body_type (user_info request))))
                        (inventory request)))).
  { repeat (destruct H as [H | H]; [apply filter_In in H; apply H |]).
    apply filter_In in H. apply H. }
  apply filter_In in Hin. destruct Hin as [Hin Hocc].
  apply filter_In in Hin. destruct Hin as [Hin Hbody].
  repeat split; assumption.
Qed.

End LoopMore.

(* ================================================================== *)
(** * The two rule tables together *)
(* ================================================================== *)

Module TableFacts.
Import RuleEngine OutfitGenerator Candidates.

Lemma no_members {A : Type} (l : list A) : (forall x, In x l -> False) -> l = [].
Proof.
  destruct l as [|a l]; [reflexivity |]. intros H. destruct (H a). now left.
Qed.

(** Decide the two filters on an item whose category and fit are known. *)
Ltac decide_filters H1 H2 :=
  unfold _is_item_compatible in H1; unfold _is_item_occasion_compatible in H2;
  match goal with
  | Hc : category ?item = _ |- _ =>
      rewrite Hc in H1; rewrite ?Hc in H2;
      destruct (fit item); cbn in H1, H2;
      first [discriminate H1 | discriminate H2]
  end.


Lemma table_pair_dead (b : BodyType.t) (occasion : OccasionInfo) :
  In b table_body_types ->
  In (occasion_type occasion) table_occasions ->
  (forall item,
      category item = ItemCategory.TOP ->
      _is_item_compatible item (body_type_rules_get b) = true ->
      _is_item_occasion_compatible item
        (occasion_rules_get (occasion_type occasion)) occasion = true ->
      False)
  \/ (forall item,
        category item = ItemCategory.BOTTOM ->
        _is_item_compatible item (body_type_rules_get b) = true ->
        _is_item_occasion_compatible item
          (occasion_rules_get (occasion_type occasion)) occasion = true ->
        False).
Proof.
  intros Hb Ho. unfold table_body_types, table_occasions in *. cbn [In] in Hb, Ho.
  destruct Hb as [<- | [<- | [<- | []]]];
    destruct Ho as [Ho | [Ho | [Ho | []]]];
    first
      [ left; intros item Hc H1 H2; rewrite <- Ho in H2; decide_filters H1 H2
      | right; intros item Hc H1 H2; rewrite <- Ho in H2; decide_filters H1 H2 ].
Qed.

Lemma bucket_empty (request : OutfitRequest) (c : ItemCategory.t)
  (bucket : Buckets -> list ClothingItem) :
  (forall item, In item (bucket (categorized_inventory request)) ->
                category item = c /\ passed_filters request item) ->
  (forall item,
      category item = c ->
      _is_item_compatible item
        (body_type_rules_get (body_type (user_info request))) = true ->
      _is_item_occasion_compatible item
        (occasion_rules_get (occasion_type (occasion_info request)))
        (occasion_info request) = true ->
      False) ->
  bucket (categorized_inventory request) = [].
Proof.
  intros Hmem Hdead. apply no_members. intros item Hin.
  destruct (Hmem item Hin) as [Hc [_ [H1 H2]]]. exact (Hdead item Hc H1 H2).
Qed.

Lemma tops_members (request : OutfitRequest) (item : ClothingItem) :
  In item (tops (categorized_inventory request)) ->
  category item = ItemCategory.TOP /\ passed_filters request item.
Proof.
  intros Hin. split.
  - pose proof (LoopMore.categorized_inventory_well_categorized request) as [H _].
    rewrite Forall_forall in H. now apply H.
  - apply LoopMore.bucket_passed_filters. tauto.
Qed.

Lemma bottoms_members (request : OutfitRequest) (item : ClothingItem) :
  In item (bottoms (categorized_inventory request)) ->
  category item = ItemCategory.BOTTOM /\ passed_filters request item.
Proof.
  intros Hin. split.
  - pose proof (LoopMore.categorized_inventory_well_categorized request) as [_ [H _]].
    rewrite Forall_forall in H. now apply H.
  - apply LoopMore.bucket_passed_filters. tauto.
Qed.



(** A candidate from buckets that lack a top or a bottom is built on a dress. *)
Lemma shape_dress_based (c : Buckets) (candidate : list ClothingItem) :
  well_categorized c ->
  tops c = [] \/ bottoms c = [] ->
  candidate_shape c candidate ->
  (exists d rest, candidate = d :: rest /\ category d = ItemCategory.DRESS)
  /\ Forall (fun item => category item <> ItemCategory.TOP
                         /\ category item <> ItemCategory.BOTTOM) candidate.
Proof.
  intros [Ht [Hb [Hd [Ho [Hs Ha]]]]] Hempty
    [base [ow [sh [accs [-> [Hbase [How [Hsh [Hacc _]]]]]]]]].
  rewrite Forall_forall in Hd, Ho, Hs, Ha.
  destruct Hbase as [[d [-> Hin]] | [t [b [_ [Hint Hinb]]]]].
  - split.
    + exists d, (ow ++ sh ++ accs). split; [reflexivity | now apply Hd].
    + apply Forall_forall. intros item Hitem.
      cbn [app In] in Hitem. rewrite !in_app_iff in Hitem.
      assert (Hcat : category item = ItemCategory.DRESS
                     \/ category item = ItemCategory.OUTERWEAR
                     \/ category item = ItemCategory.SHOES
                     \/ category item = ItemCategory.ACCESSORY).
      { destruct Hitem as [<- | [Hitem | [Hitem | Hitem]]].
        - left. now apply Hd.
        - destruct How as [-> | [o [-> Hin']]]; [destruct Hitem |].
          destruct Hitem as [<- | []]. right. left. now apply Ho.
        - unfold shoes_of in Hsh. destruct (shoes c) eqn:E; [subst; destruct Hitem |].
          destruct Hsh as [s [-> Hin']]. destruct Hitem as [<- | []].
          right. right. left. apply Hs. exact Hin'.
        - right. right. right. apply Ha.
          now apply (CandidateFacts.drawn_from_In _ _ _ Hacc). }
      split; intros Hc; rewrite Hc in Hcat; intuition discriminate.
  - exfalso. destruct Hempty as [E | E]; rewrite E in *; contradiction.
Qed.

End TableFacts.

(* ================================================================== *)
(** * Further properties of the generator *)
(* ================================================================== *)

(** X6. [_categorize_items] partitions the items by category: each bucket
    is, in order, the items of its category, and the six buckets together
    hold as many items as the input. *)
Theorem _categorize_items_partition :
  forall items : list ClothingItem,
  let c := OutfitGenerator._categorize_items items in
  tops c = filter (Candidates.in_category ItemCategory.TOP) items
  /\ bottoms c = filter (Candidates.in_category ItemCategory.BOTTOM) items
  /\ dresses c = filter (Candidates.in_category ItemCategory.DRESS) items
  /\ outerwear c = filter (Candidates.in_category ItemCategory.OUTERWEAR) items
  /\ shoes c = filter (Candidates.in_category ItemCategory.SHOES) items
  /\ accessories c = filter (Candidates.in_category ItemCategory.ACCESSORY) items
  /\ (List.length (tops c) + List.length (bottoms c) + List.length (dresses c)
      + List.length (outerwear c) + List.length (shoes c)
      + List.length (accessories c) = List.length items)%nat.
Proof.
  intros items. cbv zeta.
  destruct (CandidateFacts._categorize_items_filter items)
    as [H1 [H2 [H3 [H4 [H5 H6]]]]].
  rewrite H1, H2, H3, H4, H5, H6.
  repeat (split; [reflexivity |]). apply CandidateFacts.category_count.
Qed.

(** X7. [_is_valid_outfit] accepts a list of items exactly when it holds a
    dress, or a top and a bottom; the request is not consulted and the empty
    list is rejected. *)
Theorem _is_valid_outfit_iff :
  forall (outfit : list ClothingItem) (request : OutfitRequest),
  (OutfitGenerator._is_valid_outfit outfit request = true
   <-> Spec.has_category ItemCategory.DRESS outfit
       \/ (Spec.has_category ItemCategory.TOP outfit
           /\ Spec.has_category ItemCategory.BOTTOM outfit))
  /\ OutfitGenerator._is_valid_outfit [] request = false.
Proof.
  intros outfit request. split; [| reflexivity]. split.
  - apply LoopFacts._is_valid_outfit_structure.
  - apply CandidateFacts._is_valid_outfit_complete.
Qed.

(** X8. Whatever the buckets and the draws, [_create_candidate_outfit]
    returns without raising. A candidate is a dress, or a top followed by a
    bottom, then at most one outerwear item, one pair of shoes when there are
    shoes, and one or two accessories taken at distinct positions, each item
    from its bucket: between 1 and 6 items. No candidate is returned only
    when the top or the bottom bucket is empty. *)
Theorem _create_candidate_outfit_result :
  forall (c : Buckets) (user : UserInfo) (g : rng),
  exists r g',
    OutfitGenerator._create_candidate_outfit c user g = Ok (r, g')
    /\ match r with
       | Some candidate =>
           Candidates.candidate_shape c candidate
           /\ (1 <= List.length candidate <= 6)%nat
       | None => tops c = [] \/ bottoms c = []
       end.
Proof.
  intros c user g.
  destruct (CandidateFacts._create_candidate_outfit_shape c user g)
    as [r [g' [E H]]].
  exists r, g'. split; [exact E |].
  destruct r as [candidate |]; [| exact H].
  split; [exact H | now apply CandidateFacts.shape_length with (c := c)].
Qed.

(** X9. In [generate_outfits] the validity test never rejects a candidate:
    every candidate assembled from the categorized inventory is non-empty and
    valid, so an attempt is lost only when no candidate is returned. *)
Theorem candidates_pass_validity :
  forall (request : OutfitRequest) (g : rng),
  exists r g',
    OutfitGenerator._create_candidate_outfit
      (OutfitGenerator.categorized_inventory request) (user_info request) g
    = Ok (r, g')
    /\ match r with
       | Some candidate =>
           truthy candidate && OutfitGenerator._is_valid_outfit candidate request
           = true
       | None =>
           tops (OutfitGenerator.categorized_inventory request) = []
           \/ bottoms (OutfitGenerator.categorized_inventory request) = []
       end.
Proof.
  intros request g.
  destruct (LoopMore.candidate_always_valid request g) as [r [g' [E H]]].
  exists r, g'. split; [exact E |].
  destruct r as [candidate |]; [apply H | exact H].
Qed.

(** X10. Every item of every returned outfit belongs to the request's
    inventory and passed both the body-type and the occasion filter; every
    returned outfit has the shape of a candidate and 1 to 6 items. *)
Theorem generate_outfits_items_filtered :
  forall (fuel : nat) (request : OutfitRequest) (g : rng),
  (OutfitGenerator.max_generation_attempts <= fuel)%nat ->
  exists outs,
    OutfitGenerator.generate_outfits fuel request g = Ok outs
    /\ Forall
         (fun o =>
            Forall (Candidates.passed_filters request) (items o)
            /\ Candidates.candidate_shape
                 (OutfitGenerator.categorized_inventory request) (items o)
            /\ (1 <= List.length (items o) <= 6)%nat)
         outs.
Proof.
  intros fuel request g Hfuel.
  destruct (LoopMore.generate_outfits_progress fuel request g Hfuel)
    as [st [g' [_ [_ [[Hbuilt _] [_ E]]]]]].
  eexists. split; [exact E |].
  apply Forall_forall. intros o Ho.
  apply (Permutation_in _ (sort_by_score_desc_perm _)) in Ho.
  rewrite Forall_forall in Hbuilt. destruct (Hbuilt o Ho) as [Hshape _].
  split; [| split; [exact Hshape | now apply CandidateFacts.shape_length in Hshape]].
  apply Forall_forall. intros item Hitem.
  apply LoopMore.bucket_passed_filters.
  now apply CandidateFacts.shape_In with (candidate := items o).
Qed.

Lemma generate_outfits_items_filtered_witness :
  (OutfitGenerator.max_generation_attempts <= 1000)%nat
  /\ exists outs,
       OutfitGenerator.generate_outfits 1000 Sample.request Sample.draws = Ok outs
       /\ Forall
            (fun o =>
               Forall (Candidates.passed_filters Sample.request) (items o)
               /\ Candidates.candidate_shape
                    (OutfitGenerator.categorized_inventory Sample.request) (items o)
               /\ (1 <= List.length (items o) <= 6)%nat)
            outs.
Proof.
  split; [unfold OutfitGenerator.max_generation_attempts; lia |].
  apply (generate_outfits_items_filtered 1000 Sample.request Sample.draws).
  unfold OutfitGenerator.max_generation_attempts. lia.
Defined.

(** X11. The returned outfits have pairwise distinct identifiers, and each
    carries the occasion type of the request and the style notes of its own
    items. *)
Theorem generate_outfits_metadata :
  forall (fuel : nat) (request : OutfitRequest) (g : rng),
  (OutfitGenerator.max_generation_attempts <= fuel)%nat ->
  exists outs,
    OutfitGenerator.generate_outfits fuel request g = Ok outs
    /\ NoDup (map outfit_id outs)
    /\ Forall
         (fun o =>
            outfit_occasion_type o = occasion_type (occasion_info request)
            /\ style_notes o
               = OutfitGenerator._generate_style_notes (items o) (user_info request))
         outs.
Proof.
  intros fuel request g Hfuel.
  destruct (LoopMore.generate_outfits_progress fuel request g Hfuel)
    as [st [g' [_ [[_ [_ [Hids _]]] [[Hbuilt _] [_ E]]]]]].
  eexists. split; [exact E |]. split.
  - apply (Permutation_NoDup
             (Permutation_map outfit_id
                (Permutation_sym (sort_by_score_desc_perm (OutfitGenerator.outfits st))))).
    rewrite Hids. apply LoopMore.sequential_ids_NoDup.
  - apply Forall_forall. intros o Ho.
    apply (Permutation_in _ (sort_by_score_desc_perm _)) in Ho.
    rewrite Forall_forall in Hbuilt. apply (Hbuilt o Ho).
Qed.

Lemma generate_outfits_metadata_witness :
  (OutfitGenerator.max_generation_attempts <= 1000)%nat
  /\ exists outs,
       OutfitGenerator.generate_outfits 1000 Sample.request Sample.draws = Ok outs
       /\ NoDup (map outfit_id outs)
       /\ Forall
            (fun o =>
               outfit_occasion_type o = occasion_type (occasion_info Sample.request)
               /\ style_notes o
                  = OutfitGenerator._generate_style_notes (items o)
                      (user_info Sample.request))
            outs.
Proof.
  split; [unfold OutfitGenerator.max_generation_attempts; lia |].
  apply (generate_outfits_metadata 1000 Sample.request Sample.draws).
  unfold OutfitGenerator.max_generation_attempts. lia.
Defined.

Module CountFacts.
Import OutfitGenerator Candidates.

Lemma generate_outfits_full (fuel : nat) (request : OutfitRequest) (g : rng) :
  (max_generation_attempts <= fuel)%nat ->
  tops (categorized_inventory request) <> [] ->
  bottoms (categorized_inventory request) <> [] ->
  exists st g',
    collect_outfits fuel request g = Ok (st, g')
    /\ Spec.loop_invariant request st
    /\ List.length (outfits st) = attempt st
    /\ loop_cond request st = false
    /\ generate_outfits fuel request g = Ok (sort_by_score_desc (outfits st)).
Proof.
  intros Hfuel Ht Hb.
  destruct (GenerateFacts.generate_outfits_result fuel request g Hfuel)
    as [st [g' [E [Hinv [Hcond Hgen]]]]].
  destruct (LoopMore.while_loop_rule request (categorized_inventory request)
              (fun st => Spec.loop_invariant request st
                         /\ List.length (outfits st) = attempt st)
              (fun st => LoopMore.loop_full_step request st Ht Hb)
              fuel {| outfits := []; attempt := 0 |}
              ltac:(cbn [attempt]; lia)
              (conj (proj1 (LoopMore.initial_state_invariant request)) eq_refl) g)
    as [st' [g'' [E' [[_ Hlen] _]]]].
  unfold collect_outfits in E. rewrite E in E'. inversion E'; subst st' g''.
  exists st, g'. auto.
Qed.

(** When nothing is requested the loop is not entered. *)
Lemma collect_outfits_nothing (fuel : nat) (request : OutfitRequest) (g : rng) :
  (max_outfits request <= 0)%Z ->
  collect_outfits fuel request g = Ok ({| outfits := []; attempt := 0 |}, g).
Proof.
  intros H. unfold collect_outfits.
  assert (Hc : loop_cond request {| outfits := []; attempt := 0 |} = false).
  { unfold loop_cond. cbn [outfits List.length].
    destruct (Z.of_nat 0 <? max_outfits request)%Z eqn:E; [| reflexivity].
    apply Z.ltb_lt in E. lia. }
  destruct fuel; cbn [while_loop]; rewrite Hc; reflexivity.
Qed.




End CountFacts.

(** X12. When the filtered inventory has at least one top and one bottom,
    every attempt gives an outfit: [generate_outfits] returns exactly
    [max_outfits] outfits, or 1000 when more are requested, and none for a
    negative request. *)
Theorem generate_outfits_full_count :
  forall (fuel : nat) (request : OutfitRequest) (g : rng),
  (OutfitGenerator.max_generation_attempts <= fuel)%nat ->
  tops (OutfitGenerator.categorized_inventory request) <> [] ->
  bottoms (OutfitGenerator.categorized_inventory request) <> [] ->
  exists outs,
    OutfitGenerator.generate_outfits fuel request g = Ok outs
    /\ Z.of_nat (List.length outs) = Z.min (Z.max 0 (max_outfits request)) 1000.
Proof.
  intros fuel request g Hfuel Ht Hb.
  destruct (CountFacts.generate_outfits_full fuel request g Hfuel Ht Hb)
    as [st [g' [_ [[_ [Hmax [_ Hatt]]] [Hlen [Hcond E]]]]]].
  eexists. split; [exact E |].
  rewrite (Permutation_length (sort_by_score_desc_perm _)).
  unfold OutfitGenerator.loop_cond in Hcond.
  unfold OutfitGenerator.max_generation_attempts in *.
  apply andb_false_iff in Hcond. destruct Hcond as [Hc | Hc].
  - apply Z.ltb_ge in Hc. lia.
  - apply Nat.ltb_ge in Hc. lia.
Qed.

Lemma generate_outfits_full_count_witness :
  (OutfitGenerator.max_generation_attempts <= 1000)%nat
  /\ tops (OutfitGenerator.categorized_inventory Sample.request) <> []
  /\ bottoms (OutfitGenerator.categorized_inventory Sample.request) <> []
  /\ exists outs,
       OutfitGenerator.generate_outfits 1000 Sample.request Sample.draws = Ok outs
       /\ Z.of_nat (List.length outs)
          = Z.min (Z.max 0 (max_outfits Sample.request)) 1000.
Proof.
  split; [unfold OutfitGenerator.max_generation_attempts; lia |].
  split; [vm_compute; discriminate |]. split; [vm_compute; discriminate |].
  apply (generate_outfits_full_count 1000 Sample.request Sample.draws);
    [unfold OutfitGenerator.max_generation_attempts; lia
    | vm_compute; discriminate | vm_compute; discriminate].
Defined.

(** X13. The loop makes at most 1000 attempts and no attempt gives more than
    one outfit; when fewer outfits than [max_outfits] are returned, exactly
    1000 attempts were made; when [max_outfits] is not positive, none is
    made. *)
Theorem generate_outfits_attempts :
  forall (fuel : nat) (request : OutfitRequest) (g : rng),
  (OutfitGenerator.max_generation_attempts <= fuel)%nat ->
  exists st g' outs,
    OutfitGenerator.collect_outfits fuel request g = Ok (st, g')
    /\ OutfitGenerator.generate_outfits fuel request g = Ok outs
    /\ List.length outs = List.length (OutfitGenerator.outfits st)
    /\ (List.length outs <= OutfitGenerator.attempt st <= 1000)%nat
    /\ ((Z.of_nat (List.length outs) < max_outfits request)%Z ->
        OutfitGenerator.attempt st = 1000%nat)
    /\ ((max_outfits request <= 0)%Z -> OutfitGenerator.attempt st = 0%nat).
Proof.
  intros fuel request g Hfuel.
  destruct (LoopMore.generate_outfits_progress fuel request g Hfuel)
    as [st [g' [Ec [[_ [_ [_ Hatt]]] [[_ Hlen] [Hcond E]]]]]].
  exists st, g', (OutfitGenerator.sort_by_score_desc (OutfitGenerator.outfits st)).
  rewrite (Permutation_length (sort_by_score_desc_perm _)).
  unfold OutfitGenerator.max_generation_attempts in Hatt.
  repeat split; try assumption.
  - intros Hfew. unfold OutfitGenerator.loop_cond in Hcond.
    unfold OutfitGenerator.max_generation_attempts in Hcond.
    apply andb_false_iff in Hcond. destruct Hcond as [Hc | Hc].
    + apply Z.ltb_ge in Hc. lia.
    + apply Nat.ltb_ge in Hc. lia.
  - intros Hnone.
    rewrite (CountFacts.collect_outfits_nothing fuel request g Hnone) in Ec.
    inversion Ec. reflexivity.
Qed.

Lemma generate_outfits_attempts_witness :
  (OutfitGenerator.max_generation_attempts <= 1000)%nat
  /\ exists st g' outs,
       OutfitGenerator.collect_outfits 1000 Sample.business_request Sample.draws
       = Ok (st, g')
       /\ OutfitGenerator.generate_outfits 1000 Sample.business_request Sample.draws
          = Ok outs
       /\ List.length outs = List.length (OutfitGenerator.outfits st)
       /\ (List.length outs <= OutfitGenerator.attempt st <= 1000)%nat
       /\ ((Z.of_nat (List.length outs) < max_outfits Sample.business_request)%Z ->
           OutfitGenerator.attempt st = 1000%nat)
       /\ ((max_outfits Sample.business_request <= 0)%Z ->
           OutfitGenerator.attempt st = 0%nat).
Proof.
  split; [unfold OutfitGenerator.max_generation_attempts; lia |].
  apply (generate_outfits_attempts 1000 Sample.business_request Sample.draws).
  unfold OutfitGenerator.max_generation_attempts. lia.
Defined.



(** X15. For a shopper whose body type has a rule table (triangle,
    inverted triangle, rectangle) and an occasion that has one (casual,
    business, party), no top or no bottom passes both filters: every returned
    outfit is built on a dress and holds no top and no bottom. *)
Theorem generate_outfits_dress_based :
  forall (fuel : nat) (request : OutfitRequest) (g : rng),
  (OutfitGenerator.max_generation_attempts <= fuel)%nat ->
  In (body_type (user_info request)) Candidates.table_body_types ->
  In (occasion_type (occasion_info request)) Candidates.table_occasions ->
  exists outs,
    OutfitGenerator.generate_outfits fuel request g = Ok outs
    /\ Forall Candidates.dress_based outs.
Proof.
  intros fuel request g Hfuel Hb Ho.
  destruct (LoopMore.generate_outfits_progress fuel request g Hfuel)
    as [st [g' [_ [_ [[Hbuilt _] [_ E]]]]]].
  eexists. split; [exact E |].
  assert (Hempty : tops (OutfitGenerator.categorized_inventory request) = []
                   \/ bottoms (OutfitGenerator.categorized_inventory request) = []).
  { destruct (TableFacts.table_pair_dead _ (occasion_info request) Hb Ho) as [H | H].
    - left. apply (TableFacts.bucket_empty request ItemCategory.TOP tops);
        [apply TableFacts.tops_members | exact H].
    - right. apply (TableFacts.bucket_empty request ItemCategory.BOTTOM bottoms);
        [apply TableFacts.bottoms_members | exact H]. }
  apply Forall_forall. intros o Hin.
  apply (Permutation_in _ (sort_by_score_desc_perm _)) in Hin.
  rewrite Forall_forall in Hbuilt. destruct (Hbuilt o Hin) as [Hshape _].
  apply (TableFacts.shape_dress_based _ _
           (LoopMore.categorized_inventory_well_categorized request) Hempty Hshape).
Qed.

Lemma generate_outfits_dress_based_witness :
  (OutfitGenerator.max_generation_attempts <= 1000)%nat
  /\ In (body_type (user_info Sample.business_request)) Candidates.table_body_types
  /\ In (occasion_type (occasion_info Sample.business_request))
        Candidates.table_occasions
  /\ exists outs,
       OutfitGenerator.generate_outfits 1000 Sample.business_request Sample.ones
       = Ok outs
       /\ Forall Candidates.dress_based outs.
Proof.
  split; [unfold OutfitGenerator.max_generation_attempts; lia |].
  split; [left; reflexivity |]. split; [right; left; reflexivity |].
  apply (generate_outfits_dress_based 1000 Sample.business_request Sample.ones);
    [unfold OutfitGenerator.max_generation_attempts; lia
    | left; reflexivity | right; left; reflexivity].
Defined.



(** X17. [_predict_ml_compatibility] raises [ValueError] on the empty list
    (the [max] of no formality level); on any other list of dicts it returns
    one of eight values, between [(0.7 + 0.8 + 0.6) / 3] and
    [(0.9 + 0.9 + 0.8) / 3]. *)
Theorem _predict_ml_compatibility_values :
  forall dicts : list ItemDict,
  match dicts with
  | [] => OutfitGenerator._predict_ml_compatibility dicts = Raise ValueError
  | _ :: _ =>
      exists ml,
        OutfitGenerator._predict_ml_compatibility dicts = Ok ml
        /\ In ml Spec.ml_score_values
        /\ ((0.7 + 0.8 + 0.6) / 3 <=? ml)%float = true
        /\ (ml <=? (0.9 + 0.9 + 0.8) / 3)%float = true
  end.
Proof.
  intros [|d dicts]; [reflexivity |].
  unfold OutfitGenerator._predict_ml_compatibility.
  cbn [map py_max_list py_min_list]. eexists. split; [reflexivity |].
  match goal with
  | |- In ?v _ /\ _ => assert (Hin : In v Spec.ml_score_values)
  end.
  { repeat match goal with
      | |- context [if ?c then _ else _] => destruct c
      end;
      unfold Spec.ml_score_values, Spec.mean3; cbn [flat_map map app];
      ScoreFacts.in_values. }
  split; [exact Hin |].
  assert (Hb : forallb (fun m => ((0.7 + 0.8 + 0.6) / 3 <=? m)%float
                                 && (m <=? (0.9 + 0.9 + 0.8) / 3)%float)
                 Spec.ml_score_values = true) by (vm_compute; reflexivity).
  rewrite forallb_forall in Hb. apply andb_prop. exact (Hb _ Hin).
Qed.

(** X18. The features [_item_to_dict] computes for an item: the formality
    level lies in [0.1, 0.9], the color intensity is 0.8, 0.3 or 0.5, the
    pattern intensity is 0.8 or 0.2, and the pattern label is never empty
    (an absent or empty pattern is labelled "none"). *)
Theorem _item_to_dict_features :
  forall item : ClothingItem,
  let d := OutfitGenerator._item_to_dict item in
  (0.1 <=? dict_formality_level d)%float = true
  /\ (dict_formality_level d <=? 0.9)%float = true
  /\ In (dict_color_intensity d) [0.8; 0.3; 0.5]%float
  /\ In (dict_pattern_intensity d) [0.8; 0.2]%float
  /\ dict_pattern d <> "".
Proof.
  intros item. cbv zeta.
  cbn [OutfitGenerator._item_to_dict dict_formality_level dict_color_intensity
         dict_pattern_intensity dict_pattern].
  split; [| split; [| split; [| split]]].
  - unfold OutfitGenerator._estimate_formality_level.
    destruct (fit item), (category item); reflexivity.
  - unfold OutfitGenerator._estimate_formality_level.
    destruct (fit item), (category item); reflexivity.
  - unfold OutfitGenerator._estimate_color_intensity.
    destruct (color item); cbn; auto.
  - destruct (truthy_str (pattern item)); cbn; auto.
  - unfold truthy_str, format_opt. destruct (pattern item) as [p |]; [| discriminate].
    destruct (String.eqb p "") eqn:E; cbn [negb]; [discriminate |].
    now apply String.eqb_neq.
Qed.

(* ================================================================== *)
(** * The order of floating-point numbers *)
(* ================================================================== *)

(** The comparisons of binary64 numbers, read through their specification
    ([ltb_spec], [leb_spec], [eqb_spec]). *)
Module FloatOrderFacts.
Import FloatOrder.

Lemma lex_compare_spec (a b : Z * Z * Z) :
  match lex_compare a b with
  | Lt => lex_lt a b
  | Eq => a = b
  | Gt => lex_lt b a
  end.
Proof.
  destruct a as [[a1 a2] a3], b as [[b1 b2] b3]. unfold lex_compare, lex_lt.
  destruct (Z.compare_spec a1 b1); try lia.
  destruct (Z.compare_spec a2 b2); try lia.
  destruct (Z.compare_spec a3 b3); try lia.
  congruence.
Qed.

Lemma SFcompare_rank (f1 f2 : spec_float) :
  SFcompare f1 f2
  = match rank f1, rank f2 with
    | Some a, Some b => Some (lex_compare a b)
    | _, _ => None
    end.
Proof.
  destruct f1 as [s1 | s1 | | s1 m1 e1], f2 as [s2 | s2 | | s2 m2 e2];
    try destruct s1; try destruct s2; try reflexivity.
  unfold SFcompare, rank, lex_compare.
  change (-1 ?= -1)%Z with Eq. cbv iota.
  rewrite Z.compare_opp, (Z.compare_antisym e1 e2).
  destruct (e1 ?= e2)%Z; reflexivity.
Qed.

(** What the three comparisons say about the ranks. *)
Lemma ltb_rank (x y : float) :
  (x <? y)%float = true <->
  exists a b, rank (Prim2SF x) = Some a /\ rank (Prim2SF y) = Some b /\ lex_lt a b.
Proof.
  rewrite FloatAxioms.ltb_spec. unfold SFltb. rewrite SFcompare_rank.
  destruct (rank (Prim2SF x)) as [a |], (rank (Prim2SF y)) as [b |];
    try (split; [discriminate | intros [? [? [? [? _]]]]; discriminate]).
  pose proof (lex_compare_spec a b) as H.
  destruct (lex_compare a b); split; intros H'; try discriminate; try reflexivity.
  - destruct H' as [a' [b' [Ha [Hb Hlt]]]]. inversion Ha; inversion Hb; subst.
    destruct b' as [[b1 b2] b3]. unfold lex_lt in Hlt. lia.
  - exists a, b. auto.
  - destruct H' as [a' [b' [Ha [Hb Hlt]]]]. inversion Ha; inversion Hb; subst.
    destruct a' as [[a1 a2] a3], b' as [[b1 b2] b3]. unfold lex_lt in *. lia.
Qed.

Lemma leb_rank (x y : float) :
  (x <=? y)%float = true <->
  exists a b, rank (Prim2SF x) = Some a /\ rank (Prim2SF y) = Some b
              /\ (lex_lt a b \/ a = b).
Proof.
  rewrite FloatAxioms.leb_spec. unfold SFleb. rewrite SFcompare_rank.
  destruct (rank (Prim2SF x)) as [a |], (rank (Prim2SF y)) as [b |];
    try (split; [discriminate | intros [? [? [? [? _]]]]; discriminate]).
  pose proof (lex_compare_spec a b) as H.
  destruct (lex_compare a b); split; intros H'; try discriminate; try reflexivity.
  - exists a, b. auto.
  - exists a, b. auto.
  - destruct H' as [a' [b' [Ha [Hb Hle]]]]. inversion Ha; inversion Hb; subst.
    destruct a' as [[a1 a2] a3], b' as [[b1 b2] b3]. unfold lex_lt in *.
    destruct Hle as [Hle | Hle]; [| inversion Hle; subst]; lia.
Qed.

Lemma eqb_rank (x y : float) :
  (x =? y)%float = true <->
  exists a, rank (Prim2SF x) = Some a /\ rank (Prim2SF y) = Some a.
Proof.
  rewrite FloatAxioms.eqb_spec. unfold SFeqb. rewrite SFcompare_rank.
  destruct (rank (Prim2SF x)) as [a |], (rank (Prim2SF y)) as [b |];
    try (split; [discriminate | intros [? [? ?]]; discriminate]).
  pose proof (lex_compare_spec a b) as H.
  destruct (lex_compare a b); split; intros H'; try discriminate; try reflexivity.
  - subst. eauto.
  - destruct H' as [a' [Ha Hb]]. inversion Ha; inversion Hb; subst.
    destruct a' as [[a1 a2] a3]. unfold lex_lt in H. lia.
  - destruct H' as [a' [Ha Hb]]. inversion Ha; inversion Hb; subst.
    destruct a' as [[a1 a2] a3]. unfold lex_lt in H. lia.
Qed.

Lemma number_rank (x : float) : number x <-> exists a, rank (Prim2SF x) = Some a.
Proof.
  unfold number. rewrite eqb_rank. split.
  - intros [a [H _]]. eauto.
  - intros [a H]. eauto.
Qed.

Lemma ltb_leb (x y : float) : (x <? y)%float = true -> (x <=? y)%float = true.
Proof.
  rewrite ltb_rank, leb_rank. intros [a [b [Ha [Hb H]]]]. eauto 6.
Qed.

Lemma ltb_number (x y : float) : (x <? y)%float = true -> number x /\ number y.
Proof.
  rewrite ltb_rank, !number_rank. intros [a [b [Ha [Hb _]]]]. eauto.
Qed.

Lemma leb_number (x y : float) : (x <=? y)%float = true -> number x /\ number y.
Proof.
  rewrite leb_rank, !number_rank. intros [a [b [Ha [Hb _]]]]. eauto.
Qed.

Lemma leb_refl (x : float) : number x -> (x <=? x)%float = true.
Proof.
  rewrite number_rank, leb_rank. intros [a Ha]. exists a, a. auto.
Qed.

Lemma not_ltb_leb (x y : float) :
  number x -> number y -> (x <? y)%float = false -> (y <=? x)%float = true.
Proof.
  rewrite !number_rank, leb_rank. intros [a Ha] [b Hb] H.
  exists b, a. split; [exact Hb |]. split; [exact Ha |].
  pose proof (lex_compare_spec a b) as Hc.
  destruct (lex_compare a b) eqn:E; auto.
  exfalso. assert (Hlt : (x <? y)%float = true) by (apply ltb_rank; eauto).
  congruence.
Qed.

Lemma leb_trans (x y z : float) :
  (x <=? y)%float = true -> (y <=? z)%float = true -> (x <=? z)%float = true.
Proof.
  rewrite !leb_rank.
  intros [a [b [Ha [Hb Hab]]]] [b' [c [Hb' [Hc Hbc]]]].
  rewrite Hb in Hb'. inversion Hb'; subst b'.
  exists a, c. split; [exact Ha |]. split; [exact Hc |].
  destruct a as [[a1 a2] a3], b as [[b1 b2] b3], c as [[c1 c2] c3].
  unfold lex_lt in *.
  destruct Hab as [Hab | Hab]; destruct Hbc as [Hbc | Hbc];
    try (inversion Hab; subst); try (inversion Hbc; subst); auto; left; lia.
Qed.

Lemma ltb_eqb_absurd (x y z : float) :
  (x <? y)%float = true -> (x =? z)%float = true -> (y =? z)%float = true -> False.
Proof.
  rewrite ltb_rank, !eqb_rank.
  intros [a [b [Ha [Hb Hlt]]]] [a' [Ha' Hz]] [b' [Hb' Hz']].
  rewrite Ha in Ha'. rewrite Hb in Hb'. rewrite Hz in Hz'.
  inversion Ha'; inversion Hb'; inversion Hz'; subst.
  destruct b' as [[b1 b2] b3]. unfold lex_lt in Hlt. lia.
Qed.

End FloatOrderFacts.

(** [sort_by_key_desc]: a stable sort by descending key, when no key is NaN. *)
Section SortByKeyFacts.
Context {A : Type} (key : A -> float).

Let numbered (x : A) : Prop := FloatOrder.number (key x).
Let key_ge (a b : A) : Prop := (key b <=? key a)%float = true.
Let same_key (c a : A) : bool := (key a =? key c)%float.

Lemma insert_by_key_In (x a : A) (l : list A) :
  In a (insert_by_key key x l) <-> a = x \/ In a l.
Proof.
  induction l as [|b l IH]; simpl; [intuition |].
  destruct (key x <? key b)%float; simpl.
  - rewrite IH. intuition.
  - intuition.
Qed.

Lemma insert_by_key_perm (x : A) (l : list A) :
  Permutation (insert_by_key key x l) (x :: l).
Proof.
  induction l as [|b l IH]; simpl; [reflexivity |].
  destruct (key x <? key b)%float; [| reflexivity].
  rewrite IH. apply perm_swap.
Qed.

Lemma insert_by_key_sorted (x : A) (l : list A) :
  numbered x -> Forall numbered l ->
  StronglySorted key_ge l -> StronglySorted key_ge (insert_by_key key x l).
Proof.
  intros Hx. induction l as [|b l IH]; intros Hl Hs; simpl.
  - repeat constructor.
  - inversion Hl as [|? ? Hb Hl']; subst. inversion Hs as [|? ? Hs' Hge]; subst.
    destruct (key x <? key b)%float eqn:E.
    + constructor; [now apply IH |].
      apply Forall_forall. intros a Ha. apply insert_by_key_In in Ha.
      destruct Ha as [-> | Ha].
      * now apply FloatOrderFacts.ltb_leb.
      * rewrite Forall_forall in Hge. now apply Hge.
    + constructor; [assumption |].
      assert (Hxb : key_ge x b) by now apply FloatOrderFacts.not_ltb_leb.
      constructor; [exact Hxb |].
      apply Forall_forall. intros a Ha. rewrite Forall_forall in Hge.
      apply (FloatOrderFacts.leb_trans _ (key b)); [now apply Hge | exact Hxb].
Qed.

Lemma sort_by_key_desc_perm (l : list A) : Permutation (sort_by_key_desc key l) l.
Proof.
  induction l as [|x l IH]; simpl; [reflexivity |].
  rewrite insert_by_key_perm. now constructor.
Qed.

Lemma sort_by_key_desc_sorted (l : list A) :
  Forall numbered l -> StronglySorted key_ge (sort_by_key_desc key l).
Proof.
  induction l as [|x l IH]; intros H; simpl; [constructor |].
  inversion H; subst. apply insert_by_key_sorted; auto.
  apply Forall_forall. intros a Ha.
  apply (Permutation_in _ (sort_by_key_desc_perm l)) in Ha.
  rewrite Forall_forall in H3. now apply H3.
Qed.

Lemma insert_by_key_filter (c x : A) (l : list A) :
  filter (same_key c) (insert_by_key key x l) = filter (same_key c) (x :: l).
Proof.
  induction l as [|b l IH]; [reflexivity |]. cbn [insert_by_key].
  destruct (key x <? key b)%float eqn:E; [| reflexivity].
  cbn [filter] in *. rewrite IH.
  destruct (same_key c b) eqn:Eb; destruct (same_key c x) eqn:Ex; try reflexivity.
  exfalso. exact (FloatOrderFacts.ltb_eqb_absurd _ _ _ E Ex Eb).
Qed.

(** The sort keeps the elements of any one key in their original order. *)
Lemma sort_by_key_desc_stable (c : A) (l : list A) :
  filter (same_key c) (sort_by_key_desc key l) = filter (same_key c) l.
Proof.
  induction l as [|x l IH]; [reflexivity |].
  cbn [sort_by_key_desc fold_right]. rewrite insert_by_key_filter.
  cbn [filter]. fold (sort_by_key_desc key l). now rewrite IH.
Qed.

End SortByKeyFacts.

(* ================================================================== *)
(** * app.py: the two filters *)
(* ================================================================== *)

Module AppFilterFacts.
Import App.

Lemma find_item_id (items : list ClothingItem) (rid : string) :
  In rid (map item_id items) ->
  exists item, find (fun i => String.eqb (item_id i) rid) items = Some item.
Proof.
  induction items as [|a items IH]; intros H; [destruct H |].
  cbn [find]. destruct (String.eqb (item_id a) rid) eqn:E; [eauto |].
  destruct H as [H | H]; [| now apply IH].
  apply String.eqb_neq in E. contradiction.
Qed.

(** Every identifier logged is the identifier of an item: [next] finds it. *)
Lemma log_removed_ok (items : list ClothingItem) (occasion : OccasionType.t)
  (rids : list string) : forall log,
  (forall rid, In rid rids -> In rid (map item_id items)) ->
  exists lines,
    log_removed items occasion rids log = Ok (log ++ lines)
    /\ List.length lines = List.length rids.
Proof.
  induction rids as [|rid rids IH]; intros log H.
  - exists []. now rewrite app_nil_r.
  - cbn [log_removed].
    destruct (find_item_id items rid) as [item E]; [apply H; now left |].
    rewrite E.
    destruct (IH (log ++ [("> Item " ++ rid ++ " (" ++ subcategory item
                            ++ "): Filtered (Not for " ++ OccasionType.value occasion
                            ++ ").")%string])) as [lines [E' Hlen]].
    { intros r Hr. apply H. now right. }
    eexists (_ :: lines). rewrite E'. rewrite <- app_assoc. cbn [app List.length].
    split; [reflexivity | now rewrite Hlen].
Qed.

Lemma tagged_b_true (occasion : OccasionType.t) (item : ClothingItem) :
  tagged_b occasion item = true <-> tagged occasion item.
Proof. unfold tagged_b, tagged. apply py_in_true. apply String.eqb_eq. Qed.

(** The set [removed]: the identifiers of items none of whose namesakes is
    tagged. *)
Lemma removed_In (items : list ClothingItem) (occasion : OccasionType.t) (rid : string) :
  In rid (set_diff string_dec (py_set string_dec (map item_id items))
            (py_set string_dec (map item_id (filter (tagged_b occasion) items))))
  <-> (exists item, In item items /\ item_id item = rid)
      /\ (forall item, In item items -> item_id item = rid -> ~ tagged occasion item).
Proof.
  rewrite set_diff_iff, !py_set_In, !in_map_iff. split.
  - intros [[item [Hid Hin]] Hno]. split; [eauto |].
    intros item' Hin' Hid' Ht. apply Hno. exists item'. split; [exact Hid' |].
    apply filter_In. split; [exact Hin' | now apply tagged_b_true].
  - intros [[item [Hin Hid]] Hno]. split; [eauto |].
    intros [item' [Hid' Hin']]. apply filter_In in Hin'. destruct Hin' as [Hin' Ht].
    apply (Hno item' Hin' Hid'). now apply tagged_b_true.
Qed.

Lemma removed_NoDup (items : list ClothingItem) (occasion : OccasionType.t) :
  NoDup (set_diff string_dec (py_set string_dec (map item_id items))
           (py_set string_dec (map item_id (filter (tagged_b occasion) items)))).
Proof. apply set_diff_nodup; apply py_set_NoDup. Qed.

(** The removed identifiers are identifiers of distinct untagged items. *)
Lemma removed_length (items : list ClothingItem) (occasion : OccasionType.t) :
  (List.length
     (set_diff string_dec (py_set string_dec (map item_id items))
        (py_set string_dec (map item_id (filter (tagged_b occasion) items))))
   + List.length (filter (tagged_b occasion) items)
   <= List.length items)%nat.
Proof.
  rewrite <- (filter_length (tagged_b occasion) items).
  rewrite Nat.add_comm. apply Nat.add_le_mono_l.
  rewrite <- (length_map item_id (filter _ items)).
  apply NoDup_incl_length; [apply removed_NoDup |].
  intros rid H. apply removed_In in H. destruct H as [[item [Hin Hid]] Hno].
  apply in_map_iff. exists item. split; [exact Hid |].
  apply filter_In. split; [exact Hin |].
  destruct (tagged_b occasion item) eqn:E; [| reflexivity].
  exfalso. apply (Hno item Hin Hid). now apply tagged_b_true.
Qed.

Lemma NoDup_map_injective {A B : Type} (f : A -> B) (l : list A) :
  NoDup (map f l) -> forall x y, In x l -> In y l -> f x = f y -> x = y.
Proof.
  induction l as [|a l IH]; intros H x y Hx Hy E; [destruct Hx |].
  cbn [map] in H. inversion H as [|? ? Hnot Hnd]; subst.
  destruct Hx as [-> | Hx], Hy as [-> | Hy]; auto.
  - exfalso. apply Hnot. rewrite E. now apply in_map.
  - exfalso. apply Hnot. rewrite <- E. now apply in_map.
Qed.

(** With distinct identifiers, the removed identifiers are those of the
    untagged items, one each. *)
Lemma removed_length_distinct (items : list ClothingItem) (occasion : OccasionType.t) :
  distinct_ids items ->
  (List.length
     (set_diff string_dec (py_set string_dec (map item_id items))
        (py_set string_dec (map item_id (filter (tagged_b occasion) items))))
   + List.length (filter (tagged_b occasion) items)
   = List.length items)%nat.
Proof.
  intros Hd. apply Nat.le_antisymm; [apply removed_length |].
  rewrite <- (filter_length (tagged_b occasion) items).
  rewrite Nat.add_comm. apply Nat.add_le_mono_r.
  rewrite <- (length_map item_id (filter _ items)).
  apply NoDup_incl_length.
  - clear - Hd. unfold distinct_ids in Hd.
    induction items as [|a items IH]; [constructor |].
    cbn [map] in Hd. inversion Hd as [|? ? Hnot Hnd]; subst. cbn [filter].
    destruct (negb (tagged_b occasion a)); [| now apply IH].
    cbn [map]. constructor; [| now apply IH].
    intros H. apply Hnot. apply in_map_iff in H. destruct H as [x [Hx Hin]].
    apply filter_In in Hin. apply in_map_iff. exists x. tauto.
  - intros rid H. apply in_map_iff in H. destruct H as [item [Hid Hin]].
    apply filter_In in Hin. destruct Hin as [Hin Hneg].
    apply removed_In. split; [eauto |].
    intros item' Hin' Hid' Ht.
    assert (item' = item).
    { apply (NoDup_map_injective item_id items Hd); congruence. }
    subst item'. apply tagged_b_true in Ht. rewrite Ht in Hneg. discriminate.
Qed.

Lemma filter_by_occasion_ok (set_order : list string -> list string)
  (log : list string) (items : list ClothingItem) (occasion : OccasionType.t) :
  (forall s, Permutation (set_order s) s) ->
  exists lines,
    filter_by_occasion set_order log items occasion
    = Ok (filter (tagged_b occasion) items,
          (log ++ [("> Filtering for occasion: " ++ OccasionType.value occasion
                    ++ "...")%string]) ++ lines)
    /\ (List.length lines + List.length (filter (tagged_b occasion) items)
        <= List.length items)%nat
    /\ (distinct_ids items ->
        (List.length lines + List.length (filter (tagged_b occasion) items)
         = List.length items)%nat).
Proof.
  intros Hperm. unfold filter_by_occasion.
  fold (tagged_b occasion).
  set (removed := set_diff _ _ _).
  destruct (log_removed_ok items occasion (set_order removed)
              (log ++ [("> Filtering for occasion: " ++ OccasionType.value occasion
                        ++ "...")%string])) as [lines [E Hlen]].
  { intros rid Hr. apply (Permutation_in _ (Hperm removed)) in Hr.
    apply removed_In in Hr. destruct Hr as [[item [Hin Hid]] _].
    apply in_map_iff. eauto. }
  exists lines. rewrite E. split; [reflexivity |].
  rewrite Hlen, (Permutation_length (Hperm removed)).
  split; [apply removed_length | apply removed_length_distinct].
Qed.

(** [user_rule] removes an item exactly when a rule of the body type does. *)
Lemma user_rule_keep (body_type : BodyType.t) (item : ClothingItem) :
  fst (user_rule body_type item) = true <-> ~ rule_removes body_type item.
Proof.
  unfold user_rule, rule_removes.
  destruct body_type; cbn [BodyType.eqb].
  - destruct (category item) eqn:Ec, (fit item) eqn:Ef; cbn; split; intros H;
      try reflexivity; try discriminate;
      try (intros [[_ [[? ?] | [? ?]]] | [[? _] | [? _]]]; discriminate);
      exfalso; apply H; auto.
  - destruct (category item) eqn:Ec, (fit item) eqn:Ef; cbn; split; intros H;
      try reflexivity; try discriminate;
      try (intros [[? _] | [[? _] | [_ [? ?]]]]; congruence);
      exfalso; apply H; right; right; repeat split; discriminate.
  - destruct (category item) eqn:Ec; cbn [ItemCategory.eqb andb];
      try (split; [intros _ [[? _] | [[_ [? _]] | [? _]]]; discriminate
                  | reflexivity]).
    destruct (String.eqb (pattern item) "bold") eqn:Ep; cbn; split; intros H;
      try reflexivity; try discriminate.
    + exfalso. apply H. right. left. apply String.eqb_eq in Ep. auto.
    + apply String.eqb_neq in Ep.
      intros [[? _] | [[_ [_ ?]] | [? _]]]; try discriminate. contradiction.
  - cbn. split; [| reflexivity].
    intros _ [[? _] | [[? _] | [? _]]]; discriminate.
Qed.

Lemma user_rules_loop (body_type : BodyType.t) (items : list ClothingItem) :
  forall kept log,
  exists lines,
    fold_left
      (fun '(filtered_items, log_messages) item =>
         let '(keep, reason) := user_rule body_type item in
         if keep then
           (filtered_items ++ [item],
            log_messages
            ++ [("> Item " ++ item_id item ++ " (" ++ subcategory item
                 ++ "): Passed user rules.")%string])
         else
           (filtered_items,
            log_messages
            ++ [("> Item " ++ item_id item ++ " (" ++ subcategory item
                 ++ "): Filtered (" ++ format_opt reason ++ ").")%string]))
      items (kept, log)
    = (kept ++ filter (kept_b body_type) items, log ++ lines)
    /\ List.length lines = List.length items.
Proof.
  induction items as [|a items IH]; intros kept log.
  - exists []. now rewrite !app_nil_r.
  - cbn [fold_left filter]. unfold kept_b at 1.
    destruct (user_rule body_type a) as [keep reason]. cbn [fst].
    destruct keep.
    + destruct (IH (kept ++ [a])
                  (log ++ [("> Item " ++ item_id a ++ " (" ++ subcategory a
                            ++ "): Passed user rules.")%string]))
        as [lines [E Hlen]].
      eexists (_ :: lines). rewrite E, <- !app_assoc. cbn [app List.length].
      split; [reflexivity | now rewrite Hlen].
    + destruct (IH kept
                  (log ++ [("> Item " ++ item_id a ++ " (" ++ subcategory a
                            ++ "): Filtered (" ++ format_opt reason ++ ").")%string]))
        as [lines [E Hlen]].
      eexists (_ :: lines). rewrite E, <- !app_assoc. cbn [app List.length].
      split; [reflexivity | now rewrite Hlen].
Qed.

Lemma kept_b_none (item : ClothingItem) : kept_b BodyType.NONE item = true.
Proof. reflexivity. Qed.

Lemma filter_all {A : Type} (p : A -> bool) (l : list A) :
  (forall x, p x = true) -> filter p l = l.
Proof.
  intros H. induction l as [|a l IH]; [reflexivity |].
  cbn [filter]. now rewrite H, IH.
Qed.

Lemma filter_by_user_rules_ok (log : list string) (items : list ClothingItem)
  (body_type : BodyType.t) :
  exists lines,
    filter_by_user_rules log items body_type
    = (filter (kept_b body_type) items, log ++ lines)
    /\ List.length lines
       = if BodyType.eqb body_type BodyType.NONE then 1%nat
         else S (List.length items).
Proof.
  unfold filter_by_user_rules.
  destruct (BodyType.eqb body_type BodyType.NONE) eqn:E.
  - destruct body_type; try discriminate.
    eexists [_]. rewrite (filter_all _ _ kept_b_none). split; reflexivity.
  - destruct (user_rules_loop body_type items []
                (log ++ [("> Applying rules for body type: "
                          ++ BodyType.value body_type ++ "...")%string]))
      as [lines [E' Hlen]].
    eexists (_ :: lines). rewrite E', <- app_assoc. cbn [app List.length].
    split; [reflexivity | now rewrite Hlen].
Qed.

Lemma filter_filter {A : Type} (p q : A -> bool) (l : list A) :
  filter q (filter p l) = filter (fun x => p x && q x) l.
Proof.
  induction l as [|a l IH]; [reflexivity |]. cbn [filter].
  destruct (p a); cbn [filter andb]; [destruct (q a) |]; now rewrite IH.
Qed.

End AppFilterFacts.

(* ================================================================== *)
(** * app.py: candidates, scores and the generator *)
(* ================================================================== *)

Module AppGeneratorFacts.
Import App.

Lemma append_loop_map {A B : Type} (f : A -> B) (l : list A) : forall acc,
  fold_left (fun acc x => acc ++ [f x]) l acc = acc ++ map f l.
Proof.
  induction l as [|a l IH]; intros acc; cbn [fold_left map].
  - now rewrite app_nil_r.
  - rewrite IH, <- app_assoc. reflexivity.
Qed.

Lemma list_prod_nil_r {A B : Type} (l : list A) : list_prod l (@nil B) = [].
Proof. induction l as [|a l IH]; [reflexivity | exact IH]. Qed.

Lemma pairs_loop (bottoms : list ClothingItem) (tops : list ClothingItem) :
  forall candidates,
  fold_left
    (fun candidates t =>
       fold_left (fun candidates b => candidates ++ [[t; b]]) bottoms candidates)
    tops candidates
  = candidates ++ map (fun '(t, b) => [t; b]) (list_prod tops bottoms).
Proof.
  induction tops as [|t tops IH]; intros candidates; cbn [fold_left list_prod map].
  - now rewrite app_nil_r.
  - rewrite IH, (append_loop_map (fun b => [t; b])), map_app, map_map, <- app_assoc.
    reflexivity.
Qed.

Lemma build_candidates_pairings (tops bottoms dresses : list ClothingItem) :
  build_candidates tops bottoms dresses = pairings tops bottoms dresses.
Proof.
  unfold build_candidates, pairings.
  rewrite (append_loop_map (fun d => [d])). f_equal.
  destruct tops as [|t tops]; [reflexivity |].
  destruct bottoms as [|b bottoms].
  - now rewrite list_prod_nil_r.
  - cbn [truthy andb]. now rewrite pairs_loop.
Qed.

Lemma pairings_length (tops bottoms dresses : list ClothingItem) :
  List.length (pairings tops bottoms dresses)
  = (List.length tops * List.length bottoms + List.length dresses)%nat.
Proof. unfold pairings. now rewrite length_app, !length_map, length_prod. Qed.

Lemma of_category_true (c : ItemCategory.t) (item : ClothingItem) :
  of_category c item = true <-> category item = c.
Proof. unfold of_category. destruct (category item), c; cbn; split; congruence. Qed.

Lemma candidates_of_candidate (items : list ClothingItem) (cand : list ClothingItem) :
  In cand (candidates_of items) -> candidate_of items cand.
Proof.
  unfold candidates_of, pairings. rewrite in_app_iff, !in_map_iff.
  intros [[[t b] [E H]] | [d [E H]]].
  - apply in_prod_iff in H. rewrite !filter_In, !of_category_true in H.
    left. exists t, b. symmetry in E. tauto.
  - rewrite filter_In, of_category_true in H.
    right. exists d. symmetry in E. tauto.
Qed.

(** The clamp. *)
Lemma clamp_unit (b : float) : unit_score (py_max 0.0 (py_min 1.0 b)).
Proof.
  unfold py_max, py_min, unit_score.
  destruct (b <? 1.0)%float eqn:E1.
  - destruct (0.0 <? b)%float eqn:E0.
    + split; now apply FloatOrderFacts.ltb_leb.
    + split; reflexivity.
  - change (0.0 <? 1.0)%float with true. cbv iota. split; reflexivity.
Qed.

Lemma _calculate_score_unit (items : list ClothingItem) (body_type : BodyType.t) :
  unit_score (_calculate_score items body_type).
Proof. unfold _calculate_score. cbv zeta. apply clamp_unit. Qed.

Lemma _calculate_score_number (items : list ClothingItem) (body_type : BodyType.t) :
  FloatOrder.number (_calculate_score items body_type).
Proof.
  destruct (_calculate_score_unit items body_type) as [_ H].
  now apply FloatOrderFacts.leb_number in H.
Qed.

Lemma score_loop (body_type : BodyType.t) (l : list (nat * list ClothingItem)) :
  forall acc,
  fold_left
    (fun scored '(idx, cand) =>
       let score := _calculate_score cand body_type in
       let notes := _generate_notes cand body_type in
       scored
       ++ [{| outfit_id := ("outfit_" ++ str_of_nat (idx + 1))%string;
              items := cand; compatibility_score := score; style_notes := notes |}])
    l acc
  = acc ++ map (outfit_at body_type) l.
Proof.
  induction l as [|[idx cand] l IH]; intros acc; cbn [fold_left map].
  - now rewrite app_nil_r.
  - rewrite IH, <- app_assoc. reflexivity.
Qed.

Lemma score_candidates_map (candidates : list (list ClothingItem))
  (body_type : BodyType.t) :
  score_candidates candidates body_type
  = map (outfit_at body_type) (combine (seq 0 (List.length candidates)) candidates).
Proof. unfold score_candidates. now rewrite score_loop. Qed.

End AppGeneratorFacts.

Module AppPipelineFacts.
Import App AppFilterFacts AppGeneratorFacts.

Lemma scored_of_items (body_type : BodyType.t) (candidates : list (list ClothingItem)) :
  map items (scored_of body_type candidates) = candidates.
Proof.
  unfold scored_of. rewrite map_map. cbn [outfit_at items].
  generalize 0%nat as n. induction candidates as [|c l IH]; intros n; [reflexivity |].
  cbn [List.length seq combine map snd]. now rewrite IH.
Qed.

Lemma numbered_from {A : Type} (l : list A) : forall n,
  map (fun p : nat * A => ("outfit_" ++ str_of_nat (fst p + 1))%string)
    (combine (seq n (List.length l)) l)
  = map (fun k => ("outfit_" ++ str_of_nat k)%string) (seq (S n) (List.length l)).
Proof.
  induction l as [|c l IH]; intros n; [reflexivity |].
  cbn [List.length seq combine map fst]. rewrite IH, Nat.add_1_r. reflexivity.
Qed.

Lemma scored_of_ids (body_type : BodyType.t) (candidates : list (list ClothingItem)) :
  map outfit_id (scored_of body_type candidates)
  = Spec.sequential_ids (List.length candidates).
Proof.
  unfold scored_of, Spec.sequential_ids. rewrite map_map. cbn [outfit_at outfit_id].
  apply numbered_from.
Qed.

Lemma scored_of_length (body_type : BodyType.t) (candidates : list (list ClothingItem)) :
  List.length (scored_of body_type candidates) = List.length candidates.
Proof. now rewrite <- (length_map items), scored_of_items. Qed.

Lemma scored_of_In (body_type : BodyType.t) (candidates : list (list ClothingItem))
  (o : Outfit) :
  In o (scored_of body_type candidates) ->
  In (items o) candidates
  /\ compatibility_score o = _calculate_score (items o) body_type
  /\ style_notes o = _generate_notes (items o) body_type.
Proof.
  unfold scored_of. rewrite in_map_iff. intros [[idx cand] [E H]].
  apply in_combine_r in H. subst o. cbn. auto.
Qed.

Lemma pool_filters (body_type : BodyType.t) (occasion : OccasionType.t)
  (inventory : list ClothingItem) :
  filter (kept_b body_type) (filter (tagged_b occasion) inventory)
  = pool body_type occasion inventory.
Proof. unfold pool. now rewrite filter_filter. Qed.

Lemma py_slice_to_nil {A : Type} (k : Z) : py_slice_to (@nil A) k = [].
Proof. unfold py_slice_to. rewrite !firstn_nil. now destruct (k <? 0)%Z. Qed.

Lemma generate_outfits_ok (set_order : list string -> list string)
  (body_type : BodyType.t) (occasion : OccasionType.t)
  (inventory : list ClothingItem) (max_outfits : Z) :
  (forall s, Permutation (set_order s) s) ->
  exists log,
    generate_outfits set_order body_type occasion inventory max_outfits
    = Ok (py_slice_to
            (sort_by_key_desc compatibility_score
               (scored_of body_type
                  (candidates_of (pool body_type occasion inventory))))
            max_outfits,
          log, map item_id (pool body_type occasion inventory)).
Proof.
  intros Hperm. unfold generate_outfits.
  destruct (filter_by_occasion_ok set_order [] inventory occasion Hperm)
    as [lines [E _]].
  rewrite E.
  destruct (filter_by_user_rules_ok
              (([] ++ [("> Filtering for occasion: " ++ OccasionType.value occasion
                        ++ "...")%string]) ++ lines)
              (filter (tagged_b occasion) inventory) body_type) as [lines' [E' _]].
  rewrite E', pool_filters, build_candidates_pairings.
  fold (of_category ItemCategory.TOP) (of_category ItemCategory.BOTTOM)
       (of_category ItemCategory.DRESS).
  fold (candidates_of (pool body_type occasion inventory)).
  destruct (candidates_of (pool body_type occasion inventory)) as [|c l] eqn:Ec.
  - cbn [truthy negb]. eexists. unfold scored_of.
    cbn [List.length seq combine map sort_by_key_desc fold_right].
    rewrite py_slice_to_nil. reflexivity.
  - cbn [truthy negb]. eexists. rewrite score_candidates_map. reflexivity.
Qed.

Lemma py_slice_to_length {A : Type} (l : list A) (k : Z) :
  List.length (py_slice_to l k) = slice_length (List.length l) k.
Proof.
  unfold py_slice_to, slice_length.
  destruct (k <? 0)%Z eqn:E; rewrite length_firstn; [| reflexivity].
  apply Z.ltb_lt in E. lia.
Qed.

Lemma py_slice_to_prefix {A : Type} (l : list A) (k : Z) :
  exists rest, l = py_slice_to l k ++ rest.
Proof.
  unfold py_slice_to.
  destruct (k <? 0)%Z; eexists; symmetry; apply firstn_skipn.
Qed.

End AppPipelineFacts.

Module AppMore.
Import App AppFilterFacts AppGeneratorFacts AppPipelineFacts.

Lemma pool_In (body_type : BodyType.t) (occasion : OccasionType.t)
  (inventory : list ClothingItem) (item : ClothingItem) :
  In item (pool body_type occasion inventory)
  <-> In item inventory /\ tagged occasion item /\ ~ rule_removes body_type item.
Proof.
  unfold pool, passes. rewrite filter_In, andb_true_iff.
  fold (tagged_b occasion item). now rewrite tagged_b_true, user_rule_keep.
Qed.

Lemma _generate_notes_length (body_type : BodyType.t) (cand pool : list ClothingItem) :
  candidate_of pool cand ->
  List.length (_generate_notes cand body_type) = S (List.length cand).
Proof.
  intros [[t [b [-> _]]] | [d [-> _]]]; unfold _generate_notes.
  - destruct (negb (String.eqb (color t) (color b))), body_type; reflexivity.
  - destruct body_type; reflexivity.
Qed.

Lemma sorted_scored (body_type : BodyType.t) (candidates : list (list ClothingItem)) :
  Forall (fun o => FloatOrder.number (compatibility_score o))
    (scored_of body_type candidates).
Proof.
  apply Forall_forall. intros o Ho. apply scored_of_In in Ho.
  destruct Ho as [_ [-> _]]. apply _calculate_score_number.
Qed.

End AppMore.

(** X19. [filter_by_occasion] of app.py never raises, whatever the order in
    which the set of removed identifiers is visited: it returns the items
    tagged with the occasion, in inventory order, and appends to the log the
    heading and one line per removed identifier. An untagged item that shares
    its identifier with a tagged one gets no line, so the lines number at most
    the removed items, and exactly as many when the identifiers are distinct. *)
Theorem app_filter_by_occasion_result :
  forall (set_order : list string -> list string) (log : list string)
         (items : list App.ClothingItem) (occasion : App.OccasionType.t),
  (forall s, Permutation (set_order s) s) ->
  exists keep kept lines,
    App.filter_by_occasion set_order log items occasion
    = App.Ok (kept,
              (log ++ [("> Filtering for occasion: " ++ App.OccasionType.value occasion
                        ++ "...")%string]) ++ lines)
    /\ kept = filter keep items
    /\ (forall item, keep item = true <-> App.tagged occasion item)
    /\ (List.length lines + List.length kept <= List.length items)%nat
    /\ (App.distinct_ids items ->
        (List.length lines + List.length kept = List.length items)%nat).
Proof.
  intros set_order log items occasion Hperm.
  destruct (AppFilterFacts.filter_by_occasion_ok set_order log items occasion Hperm)
    as [lines [E [Hle Heq]]].
  exists (App.tagged_b occasion), (filter (App.tagged_b occasion) items), lines.
  split; [exact E |]. split; [reflexivity |].
  split; [intros item; apply AppFilterFacts.tagged_b_true |].
  split; assumption.
Qed.

Lemma app_filter_by_occasion_result_witness :
  (forall s : list string, Permutation ((fun s => s) s) s)
  /\ exists keep kept lines,
       App.filter_by_occasion (fun s => s) [] App.sample_inventory
         App.OccasionType.BUSINESS
       = App.Ok (kept,
                 ([] ++ [("> Filtering for occasion: "
                          ++ App.OccasionType.value App.OccasionType.BUSINESS
                          ++ "...")%string]) ++ lines)
       /\ kept = filter keep App.sample_inventory
       /\ (forall item, keep item = true <-> App.tagged App.OccasionType.BUSINESS item)
       /\ (List.length lines + List.length kept
           <= List.length App.sample_inventory)%nat
       /\ (App.distinct_ids App.sample_inventory ->
           (List.length lines + List.length kept
            = List.length App.sample_inventory)%nat).
Proof.
  split; [intros s; apply Permutation_refl |].
  apply (app_filter_by_occasion_result (fun s => s) [] App.sample_inventory
           App.OccasionType.BUSINESS).
  intros s. apply Permutation_refl.
Defined.

(** X20. [filter_by_user_rules] keeps, in order, exactly the items that no
    rule of the body type removes (skinny bottoms and shapeless tops for
    Triangle, bold tops for InvertedTriangle, dresses that are not A-line for
    Rectangle), so it returns the list unchanged for the body type None; it
    logs a heading and then one line per item, except for None, where it logs
    one line in all. *)
Theorem app_filter_by_user_rules_result :
  forall (log : list string) (items : list App.ClothingItem)
         (body_type : App.BodyType.t),
  exists keep lines,
    App.filter_by_user_rules log items body_type = (filter keep items, log ++ lines)
    /\ (forall item, keep item = true <-> ~ App.rule_removes body_type item)
    /\ (body_type = App.BodyType.NONE -> filter keep items = items)
    /\ List.length lines
       = if App.BodyType.eqb body_type App.BodyType.NONE then 1%nat
         else S (List.length items).
Proof.
  intros log items body_type.
  destruct (AppFilterFacts.filter_by_user_rules_ok log items body_type)
    as [lines [E Hlen]].
  exists (App.kept_b body_type), lines.
  split; [exact E |].
  split; [intros item; apply AppFilterFacts.user_rule_keep |].
  split; [| exact Hlen].
  intros ->. apply AppFilterFacts.filter_all. apply AppFilterFacts.kept_b_none.
Qed.

(** X21. The candidate loops of [generate_outfits] of app.py build every top
    paired with every bottom, tops outermost, followed by every dress alone:
    [len(tops) * len(bottoms) + len(dresses)] candidates. The guard
    [if tops and bottoms] changes nothing. *)
Theorem build_candidates_closed_form :
  forall tops bottoms dresses : list App.ClothingItem,
  App.build_candidates tops bottoms dresses = App.pairings tops bottoms dresses
  /\ List.length (App.build_candidates tops bottoms dresses)
     = (List.length tops * List.length bottoms + List.length dresses)%nat.
Proof.
  intros tops bottoms dresses.
  rewrite AppGeneratorFacts.build_candidates_pairings.
  split; [reflexivity | apply AppGeneratorFacts.pairings_length].
Qed.

(** X22. Whatever the items and the body type, the score of
    [_calculate_score] of app.py lies between 0 and 1: the final clamp also
    covers a sum that would not be a number. *)
Theorem _calculate_score_unit_range :
  forall (items : list App.ClothingItem) (body_type : App.BodyType.t),
  App.unit_score (App._calculate_score items body_type).
Proof. exact AppGeneratorFacts._calculate_score_unit. Qed.

(** X23. [generate_outfits] of app.py never raises. The identifiers it
    returns are those of the items that are tagged with the occasion and
    removed by no rule of the body type, in inventory order; every outfit is a
    top and a bottom, or a dress alone, taken from these items, carries the
    score and the notes computed from its items (one note more than it has
    items), and no two outfits share an identifier. *)
Theorem app_generate_outfits_result :
  forall (set_order : list string -> list string) (body_type : App.BodyType.t)
         (occasion : App.OccasionType.t) (inventory : list App.ClothingItem)
         (max_outfits : Z),
  (forall s, Permutation (set_order s) s) ->
  exists outs log,
    App.generate_outfits set_order body_type occasion inventory max_outfits
    = App.Ok (outs, log, map App.item_id (App.pool body_type occasion inventory))
    /\ (forall item,
          In item (App.pool body_type occasion inventory)
          <-> In item inventory /\ App.tagged occasion item
              /\ ~ App.rule_removes body_type item)
    /\ Forall (fun o =>
                 App.candidate_of (App.pool body_type occasion inventory) (App.items o)
                 /\ App.compatibility_score o
                    = App._calculate_score (App.items o) body_type
                 /\ App.style_notes o = App._generate_notes (App.items o) body_type
                 /\ List.length (App.style_notes o) = S (List.length (App.items o)))
         outs
    /\ NoDup (map App.outfit_id outs).
Proof.
  intros set_order body_type occasion inventory max_outfits Hperm.
  destruct (AppPipelineFacts.generate_outfits_ok set_order body_type occasion
              inventory max_outfits Hperm) as [log E].
  set (cands := App.candidates_of (App.pool body_type occasion inventory)) in *.
  set (scored := App.scored_of body_type cands) in *.
  set (sorted := sort_by_key_desc App.compatibility_score scored) in *.
  destruct (AppPipelineFacts.py_slice_to_prefix sorted max_outfits) as [rest Hrest].
  exists (py_slice_to sorted max_outfits), log.
  split; [exact E |]. split; [apply AppMore.pool_In |]. split.
  - apply Forall_forall. intros o Ho.
    assert (Hin : In o scored).
    { apply (Permutation_in _ (sort_by_key_desc_perm App.compatibility_score scored)).
      fold sorted. rewrite Hrest. apply in_or_app. now left. }
    apply AppPipelineFacts.scored_of_In in Hin. destruct Hin as [Hc [Hs Hn]].
    apply AppGeneratorFacts.candidates_of_candidate in Hc.
    repeat (split; [assumption |]).
    rewrite Hn. now apply AppMore._generate_notes_length with (pool := App.pool body_type occasion inventory).
  - assert (Hnd : NoDup (map App.outfit_id sorted)).
    { apply (Permutation_NoDup
               (Permutation_map App.outfit_id
                  (Permutation_sym (sort_by_key_desc_perm App.compatibility_score scored)))).
      unfold scored. rewrite AppPipelineFacts.scored_of_ids.
      apply LoopMore.sequential_ids_NoDup. }
    rewrite Hrest, map_app in Hnd. now apply NoDup_app_remove_r in Hnd.
Qed.

Lemma app_generate_outfits_result_witness :
  (forall s : list string, Permutation ((fun s => s) s) s)
  /\ exists outs log,
       App.generate_outfits (fun s => s) App.BodyType.TRIANGLE App.OccasionType.CASUAL
         App.sample_inventory 3
       = App.Ok (outs, log,
                 map App.item_id
                   (App.pool App.BodyType.TRIANGLE App.OccasionType.CASUAL
                      App.sample_inventory))
       /\ (forall item,
             In item (App.pool App.BodyType.TRIANGLE App.OccasionType.CASUAL
                        App.sample_inventory)
             <-> In item App.sample_inventory
                 /\ App.tagged App.OccasionType.CASUAL item
                 /\ ~ App.rule_removes App.BodyType.TRIANGLE item)
       /\ Forall (fun o =>
                    App.candidate_of
                      (App.pool App.BodyType.TRIANGLE App.OccasionType.CASUAL
                         App.sample_inventory) (App.items o)
                    /\ App.compatibility_score o
                       = App._calculate_score (App.items o) App.BodyType.TRIANGLE
                    /\ App.style_notes o
                       = App._generate_notes (App.items o) App.BodyType.TRIANGLE
                    /\ List.length (App.style_notes o) = S (List.length (App.items o)))
            outs
       /\ NoDup (map App.outfit_id outs).
Proof.
  split; [intros s; apply Permutation_refl |].
  apply (app_generate_outfits_result (fun s => s) App.BodyType.TRIANGLE
           App.OccasionType.CASUAL App.sample_inventory 3).
  intros s. apply Permutation_refl.
Defined.

(** X24. [generate_outfits] of app.py returns
    [len(tops) * len(bottoms) + len(dresses)] outfits cut by the slice
    [[:max_outfits]], counting the items that passed both filters: at most
    [max_outfits] of them when it is not negative, and all but the last
    [-max_outfits] when it is negative. *)
Theorem app_generate_outfits_count :
  forall (set_order : list string -> list string) (body_type : App.BodyType.t)
         (occasion : App.OccasionType.t) (inventory : list App.ClothingItem)
         (max_outfits : Z),
  (forall s, Permutation (set_order s) s) ->
  let count c :=
    List.length (filter (App.of_category c) (App.pool body_type occasion inventory)) in
  exists outs log ids,
    App.generate_outfits set_order body_type occasion inventory max_outfits
    = App.Ok (outs, log, ids)
    /\ List.length outs
       = App.slice_length
           (count App.ItemCategory.TOP * count App.ItemCategory.BOTTOM
            + count App.ItemCategory.DRESS) max_outfits.
Proof.
  intros set_order body_type occasion inventory max_outfits Hperm count.
  destruct (AppPipelineFacts.generate_outfits_ok set_order body_type occasion
              inventory max_outfits Hperm) as [log E].
  eexists _, log, _. split; [exact E |].
  rewrite AppPipelineFacts.py_slice_to_length,
    (Permutation_length (sort_by_key_desc_perm App.compatibility_score _)),
    AppPipelineFacts.scored_of_length.
  unfold App.candidates_of. now rewrite AppGeneratorFacts.pairings_length.
Qed.

Lemma app_generate_outfits_count_witness :
  (forall s : list string, Permutation ((fun s => s) s) s)
  /\ let count c :=
       List.length
         (filter (App.of_category c)
            (App.pool App.BodyType.RECTANGLE App.OccasionType.PARTY
               App.sample_inventory)) in
     exists outs log ids,
       App.generate_outfits (fun s => s) App.BodyType.RECTANGLE App.OccasionType.PARTY
         App.sample_inventory (-2)
       = App.Ok (outs, log, ids)
       /\ List.length outs
          = App.slice_length
              (count App.ItemCategory.TOP * count App.ItemCategory.BOTTOM
               + count App.ItemCategory.DRESS) (-2).
Proof.
  split; [intros s; apply Permutation_refl |].
  apply (app_generate_outfits_count (fun s => s) App.BodyType.RECTANGLE
           App.OccasionType.PARTY App.sample_inventory (-2)).
  intros s. apply Permutation_refl.
Defined.

(** X25. The outfits [generate_outfits] of app.py returns are the first ones
    of the scored candidates sorted by descending score: the candidates are
    numbered [outfit_1], [outfit_2], ... in the order they were built, each
    with the score and the notes that [_calculate_score] and
    [_generate_notes] give for its items; the sort is a permutation that puts
    higher scores first and keeps candidates of equal score in the order they
    were built, and every score lies between 0 and 1. *)
Theorem app_generate_outfits_sorted :
  forall (set_order : list string -> list string) (body_type : App.BodyType.t)
         (occasion : App.OccasionType.t) (inventory : list App.ClothingItem)
         (max_outfits : Z),
  (forall s, Permutation (set_order s) s) ->
  exists scored sorted outs rest log ids,
    App.generate_outfits set_order body_type occasion inventory max_outfits
    = App.Ok (outs, log, ids)
    /\ map App.items scored
       = App.candidates_of (App.pool body_type occasion inventory)
    /\ map App.outfit_id scored = Spec.sequential_ids (List.length scored)
    /\ Forall (fun o =>
                 App.compatibility_score o
                 = App._calculate_score (App.items o) body_type
                 /\ App.style_notes o = App._generate_notes (App.items o) body_type)
         scored
    /\ Permutation sorted scored
    /\ StronglySorted App.app_score_ge sorted
    /\ (forall o, filter (App.same_score o) sorted = filter (App.same_score o) scored)
    /\ sorted = outs ++ rest
    /\ Forall (fun o => App.unit_score (App.compatibility_score o)) sorted.
Proof.
  intros set_order body_type occasion inventory max_outfits Hperm.
  destruct (AppPipelineFacts.generate_outfits_ok set_order body_type occasion
              inventory max_outfits Hperm) as [log E].
  set (cands := App.candidates_of (App.pool body_type occasion inventory)) in *.
  set (scored := App.scored_of body_type cands) in *.
  set (sorted := sort_by_key_desc App.compatibility_score scored) in *.
  destruct (AppPipelineFacts.py_slice_to_prefix sorted max_outfits) as [rest Hrest].
  exists scored, sorted, (py_slice_to sorted max_outfits), rest, log.
  eexists. split; [exact E |].
  split; [apply AppPipelineFacts.scored_of_items |].
  split.
  { unfold scored. now rewrite AppPipelineFacts.scored_of_ids,
      AppPipelineFacts.scored_of_length. }
  split.
  { apply Forall_forall. intros o Ho.
    apply AppPipelineFacts.scored_of_In in Ho. tauto. }
  split; [apply sort_by_key_desc_perm |].
  split; [apply sort_by_key_desc_sorted, AppMore.sorted_scored |].
  split; [intros o; apply sort_by_key_desc_stable |].
  split; [exact Hrest |].
  apply Forall_forall. intros o Ho.
  apply (Permutation_in _ (sort_by_key_desc_perm App.compatibility_score scored)) in Ho.
  apply AppPipelineFacts.scored_of_In in Ho. destruct Ho as [_ [-> _]].
  apply AppGeneratorFacts._calculate_score_unit.
Qed.

Lemma app_generate_outfits_sorted_witness :
  (forall s : list string, Permutation ((fun s => s) s) s)
  /\ exists scored sorted outs rest log ids,
       App.generate_outfits (fun s => s) App.BodyType.INVERTED_TRIANGLE
         App.OccasionType.CASUAL App.sample_inventory 3
       = App.Ok (outs, log, ids)
       /\ map App.items scored
          = App.candidates_of
              (App.pool App.BodyType.INVERTED_TRIANGLE App.OccasionType.CASUAL
                 App.sample_inventory)
       /\ map App.outfit_id scored = Spec.sequential_ids (List.length scored)
       /\ Forall (fun o =>
                    App.compatibility_score o
                    = App._calculate_score (App.items o) App.BodyType.INVERTED_TRIANGLE
                    /\ App.style_notes o
                       = App._generate_notes (App.items o)
                           App.BodyType.INVERTED_TRIANGLE)
            scored
       /\ Permutation sorted scored
       /\ StronglySorted App.app_score_ge sorted
       /\ (forall o,
             filter (App.same_score o) sorted = filter (App.same_score o) scored)
       /\ sorted = outs ++ rest
       /\ Forall (fun o => App.unit_score (App.compatibility_score o)) sorted.
Proof.
  split; [intros s; apply Permutation_refl |].
  apply (app_generate_outfits_sorted (fun s => s) App.BodyType.INVERTED_TRIANGLE
           App.OccasionType.CASUAL App.sample_inventory 3).
  intros s. apply Permutation_refl.
Defined.

Module AppItemFacts.
Import App.

Lemma category_of_value (s : string) :
  match ItemCategory.of_value s with
  | Some c => ItemCategory.value c = s /\ In s ["top"; "bottom"; "dress"]
  | None => ~ In s ["top"; "bottom"; "dress"]
  end.
Proof.
  unfold ItemCategory.of_value.
  repeat match goal with
         | |- context [if String.eqb s ?v then _ else _] =>
             let E := fresh "E" in
             destruct (String.eqb s v) eqn:E;
             [apply String.eqb_eq in E; subst s; cbn; tauto
             | apply String.eqb_neq in E]
         end.
  cbn [In]. intuition congruence.
Qed.

Lemma fit_of_value (s : string) :
  match FitType.of_value s with
  | Some f =>
      FitType.value f = s
      /\ In s ["fitted"; "structured"; "relaxed"; "skinny"; "straight"; "boot-cut";
               "a-line"; "shapeless"; "wide-leg"]
  | None =>
      ~ In s ["fitted"; "structured"; "relaxed"; "skinny"; "straight"; "boot-cut";
              "a-line"; "shapeless"; "wide-leg"]
  end.
Proof.
  unfold FitType.of_value.
  repeat match goal with
         | |- context [if String.eqb s ?v then _ else _] =>
             let E := fresh "E" in
             destruct (String.eqb s v) eqn:E;
             [apply String.eqb_eq in E; subst s; cbn; tauto
             | apply String.eqb_neq in E]
         end.
  cbn [In]. intuition congruence.
Qed.

Lemma category_value_of (c : ItemCategory.t) :
  ItemCategory.of_value (ItemCategory.value c) = Some c.
Proof. now destruct c. Qed.

Lemma fit_value_of (f : FitType.t) : FitType.of_value (FitType.value f) = Some f.
Proof. now destruct f. Qed.

End AppItemFacts.

(** X26. The constructor of [ClothingItem] of app.py raises [ValueError]
    exactly when [category] or [fit] is not the value of a member of its
    enumeration; otherwise [as_dict] of the new item gives back the arguments,
    with the placeholder URL built from the colour and the subcategory when
    [img] is missing or empty. *)
Theorem new_item_result :
  forall (item_id category subcategory fit pattern : string) (tags : list string)
         (color : string) (img : option string),
  let categories := ["top"; "bottom"; "dress"] in
  let fits := ["fitted"; "structured"; "relaxed"; "skinny"; "straight"; "boot-cut";
               "a-line"; "shapeless"; "wide-leg"] in
  match App.new_item item_id category subcategory fit pattern tags color img with
  | App.Ok item =>
      In category categories /\ In fit fits
      /\ App.as_dict item
         = {| App.item_id_ := item_id; App.category_ := category;
              App.subcategory_ := subcategory; App.fit_ := fit;
              App.pattern_ := pattern; App.tags_ := tags; App.color_ := color;
              App.img_ :=
                match img with
                | Some url =>
                    if String.eqb url "" then
                      ("https://placehold.co/300x400/" ++ lstrip "#" color
                       ++ "/FFFFFF?text=" ++ replace_char " " "+" subcategory)%string
                    else url
                | None =>
                    ("https://placehold.co/300x400/" ++ lstrip "#" color
                     ++ "/FFFFFF?text=" ++ replace_char " " "+" subcategory)%string
                end |}
  | App.Raise e =>
      e = App.ValueError /\ (~ In category categories \/ ~ In fit fits)
  end.
Proof.
  intros item_id category subcategory fit pattern tags color img categories fits.
  unfold App.new_item.
  pose proof (AppItemFacts.category_of_value category) as Hc.
  pose proof (AppItemFacts.fit_of_value fit) as Hf.
  destruct (App.ItemCategory.of_value category) as [c |]; [| auto].
  destruct (App.FitType.of_value fit) as [f |]; [| auto].
  destruct Hc as [Hc Hc'], Hf as [Hf Hf'].
  split; [exact Hc' |]. split; [exact Hf' |].
  unfold App.as_dict. cbn [App.item_id App.category App.subcategory App.fit
                           App.pattern App.tags App.color App.img].
  rewrite Hc, Hf. f_equal.
  destruct img as [url |]; [| reflexivity].
  cbn [truthy_str format_opt]. now destruct (String.eqb url "").
Qed.

(** X27. Building a [ClothingItem] from the dict that [as_dict] returns gives
    the item back, provided its [img] is not empty. *)
Theorem as_dict_round_trip :
  forall item : App.ClothingItem,
  App.img item <> "" ->
  let d := App.as_dict item in
  App.new_item (App.item_id_ d) (App.category_ d) (App.subcategory_ d) (App.fit_ d)
    (App.pattern_ d) (App.tags_ d) (App.color_ d) (Some (App.img_ d))
  = App.Ok item.
Proof.
  intros item Himg d. subst d. unfold App.new_item, App.as_dict.
  cbn [App.item_id_ App.category_ App.subcategory_ App.fit_ App.pattern_ App.tags_
       App.color_ App.img_].
  rewrite AppItemFacts.category_value_of, AppItemFacts.fit_value_of.
  cbn [truthy_str format_opt].
  apply String.eqb_neq in Himg. rewrite Himg. cbn [negb].
  now destruct item.
Qed.

Lemma as_dict_round_trip_witness :
  App.img App.pictured_dress <> ""
  /\ App.new_item (App.item_id_ (App.as_dict App.pictured_dress))
       (App.category_ (App.as_dict App.pictured_dress))
       (App.subcategory_ (App.as_dict App.pictured_dress))
       (App.fit_ (App.as_dict App.pictured_dress))
       (App.pattern_ (App.as_dict App.pictured_dress))
       (App.tags_ (App.as_dict App.pictured_dress))
       (App.color_ (App.as_dict App.pictured_dress))
       (Some (App.img_ (App.as_dict App.pictured_dress)))
     = App.Ok App.pictured_dress.
Proof.
  split; [discriminate |].
  apply (as_dict_round_trip App.pictured_dress). discriminate.
Defined.

(** X28. The order in which Python visits the set of removed identifiers
    changes only the log: [generate_outfits] of app.py returns the same
    outfits and the same identifiers for any two orders. *)
Theorem app_generate_outfits_order_independent :
  forall (set_order set_order' : list string -> list string)
         (body_type : App.BodyType.t) (occasion : App.OccasionType.t)
         (inventory : list App.ClothingItem) (max_outfits : Z),
  (forall s, Permutation (set_order s) s) ->
  (forall s, Permutation (set_order' s) s) ->
  exists outs ids log log',
    App.generate_outfits set_order body_type occasion inventory max_outfits
    = App.Ok (outs, log, ids)
    /\ App.generate_outfits set_order' body_type occasion inventory max_outfits
       = App.Ok (outs, log', ids).
Proof.
  intros set_order set_order' body_type occasion inventory max_outfits H H'.
  destruct (AppPipelineFacts.generate_outfits_ok set_order body_type occasion
              inventory max_outfits H) as [log E].
  destruct (AppPipelineFacts.generate_outfits_ok set_order' body_type occasion
              inventory max_outfits H') as [log' E'].
  eauto 6.
Qed.

Lemma app_generate_outfits_order_independent_witness :
  (forall s : list string, Permutation ((fun s => s) s) s)
  /\ (forall s : list string, Permutation (@rev string s) s)
  /\ exists outs ids log log',
       App.generate_outfits (fun s => s) App.BodyType.NONE App.OccasionType.PARTY
         App.sample_inventory 3
       = App.Ok (outs, log, ids)
       /\ App.generate_outfits (@rev string) App.BodyType.NONE App.OccasionType.PARTY
            App.sample_inventory 3
          = App.Ok (outs, log', ids).
Proof.
  split; [intros s; apply Permutation_refl |].
  split; [intros s; apply Permutation_sym, Permutation_rev |].
  apply (app_generate_outfits_order_independent (fun s => s) (@rev string)
           App.BodyType.NONE App.OccasionType.PARTY App.sample_inventory 3).
  - intros s. apply Permutation_refl.
  - intros s. apply Permutation_sym, Permutation_rev.
Defined.

Module AppScoreFacts.
Import App.

(** [_calculate_score] reads of the items only the category, the fit, whether
    the pattern is bold and whether the two colours differ. *)
Lemma pair_features (body_type : BodyType.t) (t b : ClothingItem) :
  _calculate_score [t; b] body_type
  = _calculate_score
      [feature_item (category t) (fit t) (is_bold t) "a";
       feature_item (category b) (fit b) (is_bold b)
         (if String.eqb (color t) (color b) then "a" else "b")] body_type.
Proof.
  unfold _calculate_score, body_bonus, is_bold, feature_item.
  cbn [fold_left List.length existsb forallb category fit pattern color].
  destruct (String.eqb (pattern t) "bold"), (String.eqb (pattern b) "bold"),
    (String.eqb (color t) (color b)); reflexivity.
Qed.

Lemma dress_features (body_type : BodyType.t) (d : ClothingItem) :
  _calculate_score [d] body_type
  = _calculate_score [feature_item (category d) (fit d) false "a"] body_type.
Proof. reflexivity. Qed.

Lemma pair_scores_checked :
  forallb (fun body_type =>
    forallb (fun ft =>
      forallb (fun fb =>
        forallb (fun bold_t : bool =>
          forallb (fun bold_b : bool =>
            forallb (fun same : bool =>
              (lowest_score
               <=? _calculate_score
                     [feature_item ItemCategory.TOP ft bold_t "a";
                      feature_item ItemCategory.BOTTOM fb bold_b
                        (if same then "a" else "b")] body_type)%float)
              [true; false]) [true; false]) [true; false]) fits) fits) body_types
  = true.
Proof. vm_compute. reflexivity. Qed.

Lemma body_types_all (body_type : BodyType.t) : In body_type body_types.
Proof. destruct body_type; cbn; tauto. Qed.

Lemma fits_all (f : FitType.t) : In f fits.
Proof. destruct f; cbn; tauto. Qed.

Lemma bools_all (b : bool) : In b [true; false].
Proof. destruct b; cbn; tauto. Qed.

Lemma pair_score_low (body_type : BodyType.t) (t b : ClothingItem) :
  category t = ItemCategory.TOP -> category b = ItemCategory.BOTTOM ->
  (lowest_score <=? _calculate_score [t; b] body_type)%float = true.
Proof.
  intros Ht Hb. rewrite pair_features, Ht, Hb.
  pose proof pair_scores_checked as H.
  rewrite forallb_forall in H. specialize (H body_type (body_types_all _)).
  rewrite forallb_forall in H. specialize (H (fit t) (fits_all _)).
  rewrite forallb_forall in H. specialize (H (fit b) (fits_all _)).
  rewrite forallb_forall in H. specialize (H (is_bold t) (bools_all _)).
  rewrite forallb_forall in H. specialize (H (is_bold b) (bools_all _)).
  rewrite forallb_forall in H.
  exact (H (String.eqb (color t) (color b)) (bools_all _)).
Qed.

Lemma dress_score (body_type : BodyType.t) (d : ClothingItem) :
  category d = ItemCategory.DRESS ->
  _calculate_score [d] body_type
  = if suits body_type (fit d) then 0.75%float else 0.6%float.
Proof.
  intros Hd. rewrite dress_features, Hd.
  destruct body_type, (fit d); vm_compute; reflexivity.
Qed.

End AppScoreFacts.

(** X29. A dress alone scores 0.75 when its fit earns the bonus of the body
    type (fitted or structured for Triangle, A-line or wide-leg for
    InvertedTriangle, A-line for Rectangle) and 0.6 otherwise; no candidate,
    pair or dress, scores below [0.6 - 0.12 - 0.08], so the clamp at 0 never
    applies to a candidate. *)
Theorem candidate_score_values :
  forall (body_type : App.BodyType.t) (pool cand : list App.ClothingItem),
  App.candidate_of pool cand ->
  (App.lowest_score <=? App._calculate_score cand body_type)%float = true
  /\ (forall d, cand = [d] ->
      App._calculate_score cand body_type
      = if App.suits body_type (App.fit d) then 0.75%float else 0.6%float).
Proof.
  intros body_type pool cand [[t [b [-> [_ [_ [Ht Hb]]]]]] | [d [-> [_ Hd]]]].
  - split; [now apply AppScoreFacts.pair_score_low |]. discriminate.
  - split.
    + rewrite (AppScoreFacts.dress_score body_type d Hd).
      now destruct (App.suits body_type (App.fit d)).
    + intros d' E. inversion E; subst d'. now apply AppScoreFacts.dress_score.
Qed.

Lemma candidate_score_values_witness :
  App.candidate_of [App.pictured_dress] [App.pictured_dress]
  /\ (App.lowest_score
      <=? App._calculate_score [App.pictured_dress] App.BodyType.TRIANGLE)%float = true
  /\ (forall d, [App.pictured_dress] = [d] ->
      App._calculate_score [App.pictured_dress] App.BodyType.TRIANGLE
      = if App.suits App.BodyType.TRIANGLE (App.fit d) then 0.75%float else 0.6%float).
Proof.
  assert (H : App.candidate_of [App.pictured_dress] [App.pictured_dress]).
  { right. exists App.pictured_dress. cbn. auto. }
  split; [exact H |].
  exact (candidate_score_values App.BodyType.TRIANGLE [App.pictured_dress]
           [App.pictured_dress] H).
Defined.

(** X30. For the body type Rectangle the two stages agree on dresses: the
    rules keep only the A-line dresses, which all earn the bonus, so every
    one-piece outfit that [generate_outfits] of app.py returns scores exactly
    0.75. *)
Theorem app_generate_outfits_rectangle_dresses :
  forall (set_order : list string -> list string) (occasion : App.OccasionType.t)
         (inventory : list App.ClothingItem) (max_outfits : Z),
  (forall s, Permutation (set_order s) s) ->
  exists outs log ids,
    App.generate_outfits set_order App.BodyType.RECTANGLE occasion inventory max_outfits
    = App.Ok (outs, log, ids)
    /\ Forall (fun o =>
                 forall d, App.items o = [d] ->
                 App.fit d = App.FitType.A_LINE
                 /\ App.compatibility_score o = 0.75%float) outs.
Proof.
  intros set_order occasion inventory max_outfits Hperm.
  destruct (AppPipelineFacts.generate_outfits_ok set_order App.BodyType.RECTANGLE
              occasion inventory max_outfits Hperm) as [log E].
  eexists _, log, _. split; [exact E |].
  apply Forall_forall. intros o Ho d Hd.
  destruct (AppPipelineFacts.py_slice_to_prefix
              (sort_by_key_desc App.compatibility_score
                 (App.scored_of App.BodyType.RECTANGLE
                    (App.candidates_of
                       (App.pool App.BodyType.RECTANGLE occasion inventory))))
              max_outfits) as [rest Hrest].
  assert (Hin : In o (App.scored_of App.BodyType.RECTANGLE
                        (App.candidates_of
                           (App.pool App.BodyType.RECTANGLE occasion inventory)))).
  { apply (Permutation_in _ (sort_by_key_desc_perm App.compatibility_score _)).
    rewrite Hrest. apply in_or_app. now left. }
  apply AppPipelineFacts.scored_of_In in Hin. destruct Hin as [Hc [Hs _]].
  apply AppGeneratorFacts.candidates_of_candidate in Hc.
  rewrite Hd in Hc, Hs.
  destruct Hc as [[t [b [Ec _]]] | [d' [Ec [Hpool Hcat]]]]; [discriminate |].
  inversion Ec; subst d'.
  apply AppMore.pool_In in Hpool. destruct Hpool as [_ [_ Hrule]].
  assert (Hfit : App.fit d = App.FitType.A_LINE).
  { destruct (App.fit d) eqn:Ef; try reflexivity;
      exfalso; apply Hrule; right; right; repeat split;
      try assumption; rewrite Ef; discriminate. }
  split; [exact Hfit |].
  rewrite Hs, (AppScoreFacts.dress_score _ d Hcat), Hfit. reflexivity.
Qed.

Lemma app_generate_outfits_rectangle_dresses_witness :
  (forall s : list string, Permutation ((fun s => s) s) s)
  /\ exists outs log ids,
       App.generate_outfits (fun s => s) App.BodyType.RECTANGLE App.OccasionType.PARTY
         App.sample_inventory 20
       = App.Ok (outs, log, ids)
       /\ Forall (fun o =>
                    forall d, App.items o = [d] ->
                    App.fit d = App.FitType.A_LINE
                    /\ App.compatibility_score o = 0.75%float) outs
       /\ exists o d,
            In o outs /\ App.items o = [d] /\ App.item_id d = "21"
            /\ App.compatibility_score o = 0.75%float.
Proof.
  split; [intros s; apply Permutation_refl |].
  destruct (app_generate_outfits_rectangle_dresses (fun s => s)
              App.OccasionType.PARTY App.sample_inventory 20
              (fun s => Permutation_refl s)) as [outs [log [ids [E H]]]].
  exists outs, log, ids. split; [exact E |]. split; [exact H |].
  vm_compute in E. injection E as <- _ _.
  eexists. eexists.
  split; [right; right; right; left; reflexivity |].
  split; [reflexivity |]. split; reflexivity.
Defined.
